(** * MiniVision: OV7670 capture driver (camera.c, format.c) on RP2040

    A shallow embedding of the frame-capture core: the format calculus of
    [format.c], and the capture context, configuration, capture entry
    points, interrupt handlers, life cycle and buffer allocation of
    [camera.c], over the sensor driver of [ov7670.c], register by register;
    the pixel output of [LCD.c] follows in a module of its own.

    Conventions.
    - C integers are [Z]; a conversion to an unsigned type is written out
      with [to_u8] and [to_u32].
    - Pointers are [Z] addresses, [NULL] is 0; the [struct camera] and
      [struct camera_buffer] objects live in finite maps indexed by address,
      so the interrupt handler and the foreground code act on the same
      context through [irq_ctxs].
    - Fixed-size C arrays are lists, read with [arr_get] and written with
      [arr_set] (stdpp's list insert).
    - A function that touches memory or hardware is a function from worlds
      to results ([M]); calls into the Pico SDK and the PIO helper header
      that only act on the hardware are recorded, in program order, in the
      world's trace.  A completion callback is code of the caller: its call
      is recorded in the trace with its arguments, and the contexts as the
      callback finds them are recorded beside it.
    - The frame interrupt reaches the foreground code only while it sleeps
      in the blocking wait; which interrupt is served during which sleep is
      given by a schedule. *)

From Stdlib Require Import ZArith Lia List Ascii Bool.
From stdpp Require Import base option list gmap fin_maps.

Local Open Scope Z_scope.

(** ** Machine integers *)

Definition to_u8 (z : Z) : Z := z mod 2 ^ 8.
Definition to_u32 (z : Z) : Z := z mod 2 ^ 32.

Definition is_u16 (z : Z) : Prop := 0 <= z < 2 ^ 16.

Definition NULL : Z := 0.

(** ** format.h *)

Definition chr (a : ascii) : Z := Z.of_N (N_of_ascii a).

Definition FORMAT_CODE (a b c d : ascii) : Z :=
  Z.lor (Z.lor (Z.lor (Z.shiftl (chr a) 0) (Z.shiftl (chr b) 8))
               (Z.shiftl (chr c) 16))
        (Z.shiftl (chr d) 24).

Definition FORMAT_YUYV : Z := Eval cbv in FORMAT_CODE "Y" "U" "Y" "V".
Definition FORMAT_RGB565 : Z := Eval cbv in FORMAT_CODE "R" "G" "1" "6".
Definition FORMAT_YUV422 : Z := Eval cbv in FORMAT_CODE "Y" "U" "1" "6".

(** ** format.c *)

Definition format_num_planes (format : Z) : Z :=
  if format =? FORMAT_YUYV then 1
  else if format =? FORMAT_RGB565 then 1
  else if format =? FORMAT_YUV422 then 3
  else 0.

Definition format_bytes_per_pixel (format plane : Z) : Z :=
  if format =? FORMAT_YUYV then 2
  else if format =? FORMAT_RGB565 then 2
  else if format =? FORMAT_YUV422 then 1
  else 0.

Definition format_hsub (format plane : Z) : Z :=
  if format =? FORMAT_YUV422 then (if plane =? 0 then 1 else 2)
  else 1.

(** The product and quotient are computed in [int]; the result is converted
    to the [uint32_t] return type. *)
Definition format_stride (format plane width : Z) : Z :=
  to_u32 (Z.quot (format_bytes_per_pixel format plane * width)
                 (format_hsub format plane)).

(** [uint32_t * uint16_t]: the product is taken in [uint32_t]. *)
Definition format_plane_size (format plane width height : Z) : Z :=
  to_u32 (format_stride format plane width * height).

Definition supported_format (format : Z) : Prop :=
  format = FORMAT_YUYV \/ format = FORMAT_RGB565 \/ format = FORMAT_YUV422.

(** ** camera.h, ov7670.h: constants *)

Definition CAMERA_WIDTH_DIV8 : Z := 80.
Definition CAMERA_HEIGHT_DIV8 : Z := 60.
Definition CAMERA_MAX_N_PLANES : Z := 3.
Definition CAMERA_PIO_FRAME_SM : Z := 0.

Definition OV7670_STATUS_OK : Z := 0.
Definition OV7670_COLOR_RGB : Z := 0.
Definition OV7670_COLOR_YUV : Z := 1.
Definition OV7670_SIZE_DIV8 : Z := 3.
Definition OV7670_ADDR : Z := 33.
Definition OV7670_REG_PID : Z := 10.

(** [sizeof(struct camera_buffer)] on the 32-bit target. *)
Definition sizeof_camera_buffer : Z := 44.

(** ** Pico SDK: names the driver uses

    The SDK headers are not part of the repository.  The encodings below are
    the RP2040 ones ([enum dma_channel_transfer_size], the number of DMA
    channels); everything else the driver obtains from the SDK or from the
    generated PIO header is a member of [PicoSdk]. *)

Definition DMA_SIZE_8 : Z := 0.
Definition DMA_SIZE_16 : Z := 1.
Definition DMA_SIZE_32 : Z := 2.
Definition NUM_DMA_CHANNELS : Z := 12.

Inductive PIO : Type := pio0 | pio1 | pio_invalid.

Inductive irq_num : Type := PIO0_IRQ_0 | PIO1_IRQ_0.

Inductive irq_handler : Type := handler_camera_isr_pio0 | handler_camera_isr_pio1.

Inductive pio_program : Type :=
| camera_pio_read_byte_program
| camera_pio_frame_program
| pixel_loop_yuyv_program
| pixel_loop_yu16_program.

Definition PIO_eqb (a b : PIO) : bool :=
  match a, b with
  | pio0, pio0 | pio1, pio1 | pio_invalid, pio_invalid => true
  | _, _ => false
  end.

Record camera_platform_config : Type := {
  i2c_handle : Z;
  pio : PIO;
  xclk_pin : Z;
  xclk_divider : Z;
  base_pin : Z;
  base_dma_channel : Z
}.

Record OV7670_pins : Type := { pin_enable : Z; pin_reset : Z }.

(** [pins] and [platform] are pointers; [None] is the null pointer. *)
Record OV7670_host : Type := {
  host_pins : option OV7670_pins;
  host_platform : option camera_platform_config
}.

(** What the driver takes from outside the repository: the SDK's DMA channel
    configuration word and its setters, the data-request line of a PIO state
    machine, the state-machine configurations and program load offsets of
    the PIO helper header, and the platform's two I2C transfer functions
    (acting on a bus state of the platform's own; a read yields its return
    value and the bytes it stored in the destination).  [indeterminate_byte]
    is the content of the uninitialised [uint8_t value] of
    [OV7670_read_register] when the read stored nothing in it. *)
Class PicoSdk : Type := {
  dma_channel_config : Type;
  dma_channel_config_zero : dma_channel_config;
  dma_channel_get_default_config : Z -> dma_channel_config;
  channel_config_set_transfer_data_size : dma_channel_config -> Z -> dma_channel_config;
  channel_config_set_read_increment : dma_channel_config -> bool -> dma_channel_config;
  channel_config_set_write_increment : dma_channel_config -> bool -> dma_channel_config;
  channel_config_set_dreq : dma_channel_config -> Z -> dma_channel_config;
  pio_get_dreq : PIO -> Z -> bool -> Z;
  pio_sm_config : Type;
  pio_sm_config_zero : pio_sm_config;
  camera_pio_get_frame_sm_config : PIO -> Z -> Z -> Z -> pio_sm_config;
  camera_pio_get_read_byte_sm_config : PIO -> Z -> Z -> Z -> Z -> pio_sm_config;
  pio_program_offset : PIO -> pio_program -> Z;
  i2c_bus : Type;
  i2c_write_blocking : Z -> Z -> list Z -> i2c_bus -> Z * i2c_bus;
  i2c_read_blocking : Z -> Z -> Z -> i2c_bus -> Z * list Z * i2c_bus;
  indeterminate_byte : i2c_bus -> Z
}.

(** A simulated platform, used to run the driver on concrete inputs: a DMA
    configuration is the tuple of fields the setters write, a state-machine
    configuration is the list of arguments it was built from, and the bus
    state is the list of bytes the sensor will answer to one-byte reads; a
    sensor that is not there answers none. *)
Module Sim.

Record dma_cfg : Type := {
  chain_to : Z; data_size : Z; incr_read : bool; incr_write : bool; dreq : Z
}.

Definition bus_read (len : Z) (bus : list Z) : Z * list Z * list Z :=
  match bus with
  | b :: rest => (1, [b], rest)
  | [] => (-1, [], [])
  end.

Definition sdk : PicoSdk := {|
  dma_channel_config := dma_cfg;
  dma_channel_config_zero := Build_dma_cfg 0 0 false false 0;
  dma_channel_get_default_config := fun ch => Build_dma_cfg ch DMA_SIZE_32 true false 63;
  channel_config_set_transfer_data_size :=
    fun c s => Build_dma_cfg (chain_to c) s (incr_read c) (incr_write c) (dreq c);
  channel_config_set_read_increment :=
    fun c b => Build_dma_cfg (chain_to c) (data_size c) b (incr_write c) (dreq c);
  channel_config_set_write_increment :=
    fun c b => Build_dma_cfg (chain_to c) (data_size c) (incr_read c) b (dreq c);
  channel_config_set_dreq :=
    fun c d => Build_dma_cfg (chain_to c) (data_size c) (incr_read c) (incr_write c) d;
  pio_get_dreq := fun p sm is_tx =>
    sm + (if is_tx then 0 else 4) + (match p with pio0 => 0 | _ => 8 end);
  pio_sm_config := list Z;
  pio_sm_config_zero := [];
  camera_pio_get_frame_sm_config := fun _ sm offset pin => [sm; offset; pin];
  camera_pio_get_read_byte_sm_config := fun _ sm offset pin bits => [sm; offset; pin; bits];
  pio_program_offset := fun _ prog =>
    match prog with camera_pio_read_byte_program => 0 | _ => 4 end;
  i2c_bus := list Z;
  i2c_write_blocking := fun _ _ bytes bus => (Z.of_nat (length bytes), bus);
  i2c_read_blocking := fun _ _ len bus => bus_read len bus;
  indeterminate_byte := fun _ => 0
|}.

End Sim.
(** * ov7670.c: the sensor driver, register by register

    [ov7670.c] reaches the sensor through functions it only declares:
    [OV7670_write_register] and [OV7670_read_register], which [camera.c]
    implements with the two I2C transfer functions of the platform, and the
    delay and pin operations [OV7670_delay_ms], [OV7670_pin_output] and
    [OV7670_pin_write] of the platform header.  Here the platform is a port
    that records every transfer, delay and pin operation, oldest first, and
    answers a read with a byte that may depend on everything recorded so
    far.  A read outside every object, past the last entry of a table or
    through a null pointer, ends the run ([OutOfBounds]).

    The capture driver below runs the entry points it calls on the port of
    its world ([run_sensor]). *)

Module Ov7670.

Definition to_u16 (z : Z) : Z := z mod 2 ^ 16.

(** ** ov7670.h *)

Definition OV7670_SIZE_DIV1 : Z := 0.
Definition OV7670_SIZE_DIV16 : Z := 4.

Definition OV7670_REG_GAIN : Z := 0x00.
Definition OV7670_REG_VREF : Z := 0x03.
Definition OV7670_REG_COM2 : Z := 0x09.
Definition OV7670_REG_COM3 : Z := 0x0C.
Definition OV7670_COM3_SCALEEN : Z := 0x08.
Definition OV7670_COM3_DCWEN : Z := 0x04.
Definition OV7670_REG_COM4 : Z := 0x0D.
Definition OV7670_REG_COM5 : Z := 0x0E.
Definition OV7670_REG_COM6 : Z := 0x0F.
Definition OV7670_REG_CLKRC : Z := 0x11.
Definition OV7670_REG_COM7 : Z := 0x12.
Definition OV7670_COM7_RESET : Z := 0x80.
Definition OV7670_COM7_RGB : Z := 0x04.
Definition OV7670_COM7_YUV : Z := 0x00.
Definition OV7670_REG_COM8 : Z := 0x13.
Definition OV7670_COM8_FASTAEC : Z := 0x80.
Definition OV7670_COM8_AECSTEP : Z := 0x40.
Definition OV7670_COM8_BANDING : Z := 0x20.
Definition OV7670_COM8_AGC : Z := 0x04.
Definition OV7670_COM8_AWB : Z := 0x02.
Definition OV7670_COM8_AEC : Z := 0x01.
Definition OV7670_REG_COM9 : Z := 0x14.
Definition OV7670_REG_HSTART : Z := 0x17.
Definition OV7670_REG_HSTOP : Z := 0x18.
Definition OV7670_REG_VSTART : Z := 0x19.
Definition OV7670_REG_VSTOP : Z := 0x1A.
Definition OV7670_REG_MVFP : Z := 0x1E.
Definition OV7670_MVFP_MIRROR : Z := 0x20.
Definition OV7670_MVFP_VFLIP : Z := 0x10.
Definition OV7670_REG_ADCCTR1 : Z := 0x21.
Definition OV7670_REG_ADCCTR2 : Z := 0x22.
Definition OV7670_REG_AEW : Z := 0x24.
Definition OV7670_REG_AEB : Z := 0x25.
Definition OV7670_REG_VPT : Z := 0x26.
Definition OV7670_REG_HREF : Z := 0x32.
Definition OV7670_REG_CHLF : Z := 0x33.
Definition OV7670_REG_ADC : Z := 0x37.
Definition OV7670_REG_ACOM : Z := 0x38.
Definition OV7670_REG_OFON : Z := 0x39.
Definition OV7670_REG_TSLB : Z := 0x3A.
Definition OV7670_TSLB_YLAST : Z := 0x04.
Definition OV7670_REG_COM11 : Z := 0x3B.
Definition OV7670_REG_COM12 : Z := 0x3C.
Definition OV7670_REG_COM14 : Z := 0x3E.
Definition OV7670_REG_COM15 : Z := 0x40.
Definition OV7670_COM15_R00FF : Z := 0xC0.
Definition OV7670_COM15_RGB565 : Z := 0x10.
Definition OV7670_REG_AWBC1 : Z := 0x43.
Definition OV7670_REG_AWBC2 : Z := 0x44.
Definition OV7670_REG_AWBC3 : Z := 0x45.
Definition OV7670_REG_AWBC4 : Z := 0x46.
Definition OV7670_REG_AWBC5 : Z := 0x47.
Definition OV7670_REG_AWBC6 : Z := 0x48.
Definition OV7670_REG_BRIGHT : Z := 0x55.
Definition OV7670_REG_CONTRAS : Z := 0x56.
Definition OV7670_REG_CONTRAS_CENTER : Z := 0x57.
Definition OV7670_REG_LCC3 : Z := 0x64.
Definition OV7670_REG_LCC4 : Z := 0x65.
Definition OV7670_REG_LCC5 : Z := 0x66.
Definition OV7670_REG_GFIX : Z := 0x69.
Definition OV7670_REG_DBLV : Z := 0x6B.
Definition OV7670_REG_AWBCTR3 : Z := 0x6C.
Definition OV7670_REG_AWBCTR2 : Z := 0x6D.
Definition OV7670_REG_AWBCTR1 : Z := 0x6E.
Definition OV7670_REG_AWBCTR0 : Z := 0x6F.
Definition OV7670_REG_SCALING_XSC : Z := 0x70.
Definition OV7670_REG_SCALING_YSC : Z := 0x71.
Definition OV7670_REG_SCALING_DCWCTR : Z := 0x72.
Definition OV7670_REG_SCALING_PCLK_DIV : Z := 0x73.
Definition OV7670_REG_REG74 : Z := 0x74.
Definition OV7670_REG_SLOP : Z := 0x7A.
Definition OV7670_REG_GAM_BASE : Z := 0x7B.
Definition OV7670_REG_RGB444 : Z := 0x8C.
Definition OV7670_REG_DM_LNL : Z := 0x92.
Definition OV7670_REG_LCC6 : Z := 0x94.
Definition OV7670_REG_LCC7 : Z := 0x95.
Definition OV7670_REG_HAECC1 : Z := 0x9F.
Definition OV7670_REG_HAECC2 : Z := 0xA0.
Definition OV7670_REG_SCALING_PCLK_DELAY : Z := 0xA2.
Definition OV7670_REG_BD50MAX : Z := 0xA5.
Definition OV7670_REG_HAECC3 : Z := 0xA6.
Definition OV7670_REG_HAECC4 : Z := 0xA7.
Definition OV7670_REG_HAECC5 : Z := 0xA8.
Definition OV7670_REG_HAECC6 : Z := 0xA9.
Definition OV7670_REG_HAECC7 : Z := 0xAA.
Definition OV7670_REG_BD60MAX : Z := 0xAB.
Definition OV7670_REG_ABLC1 : Z := 0xB1.
Definition OV7670_REG_THL_ST : Z := 0xB3.
Definition OV7670_REG_LAST : Z := 0xFF.

(** [OV7670_command]; both fields are [uint8_t], so an initialiser is
    converted to eight bits. *)
Record OV7670_command : Type := { cmd_reg : Z; cmd_value : Z }.

Definition command (reg value : Z) : OV7670_command :=
  {| cmd_reg := to_u8 reg; cmd_value := to_u8 value |}.

(** ** The port *)

Inductive bus_op : Type :=
| I2cWrite (i2c addr : Z) (bytes : list Z)
| I2cRead (i2c addr len : Z)
| DelayMs (ms : Z)
| PinOutput (pin : Z)
| PinWrite (pin level : Z).

(** [port_answer log] is the content of the byte an [i2c_read_blocking] of
    length 1 leaves in its destination when [log] is what has happened up to
    and including that read. *)
Record port : Type := {
  port_answer : list bus_op -> Z;
  port_log : list bus_op
}.

Inductive outcome (A : Type) : Type :=
| Done (a : A) (p : port)
| OutOfBounds (p : port).

Arguments Done {A} a p.
Arguments OutOfBounds {A} p.

Definition Sensor (A : Type) : Type := port -> outcome A.

#[global] Instance Sensor_ret : MRet Sensor := fun A a p => Done a p.

#[global] Instance Sensor_bind : MBind Sensor := fun A B f m p =>
  match m p with
  | Done a p' => f a p'
  | OutOfBounds p' => OutOfBounds p'
  end.

Definition out_of_bounds {A : Type} : Sensor A := fun p => OutOfBounds p.

Definition log_ops (ops : list bus_op) : Sensor unit := fun p =>
  Done tt {| port_answer := port_answer p; port_log := port_log p ++ ops |}.

(** ** camera.c: register access *)

Definition OV7670_write_register (platform : camera_platform_config) (reg value : Z)
  : Sensor unit :=
  log_ops [I2cWrite (i2c_handle platform) OV7670_ADDR [to_u8 reg; to_u8 value]].

Definition OV7670_read_register (platform : camera_platform_config) (reg : Z)
  : Sensor Z := fun p =>
  let log := port_log p
             ++ [I2cWrite (i2c_handle platform) OV7670_ADDR [to_u8 reg];
                 I2cRead (i2c_handle platform) OV7670_ADDR 1] in
  Done (to_u8 (port_answer p log)) {| port_answer := port_answer p; port_log := log |}.

Definition OV7670_delay_ms (ms : Z) : Sensor unit := log_ops [DelayMs ms].

Definition OV7670_pin_output (pin : Z) : Sensor unit := log_ops [PinOutput pin].

Definition OV7670_pin_write (pin level : Z) : Sensor unit :=
  log_ops [PinWrite pin level].

(** ** ov7670.c: command lists *)

(** [for (i = 0; cmd[i].reg <= OV7670_REG_LAST; i++)], on the entries of the
    array from index [i] on; the array has no entry left when the list is
    empty. *)
Fixpoint OV7670_write_list (platform : camera_platform_config)
    (cmd : list OV7670_command) : Sensor unit :=
  match cmd with
  | [] => out_of_bounds
  | c :: rest =>
      if cmd_reg c <=? OV7670_REG_LAST then
        OV7670_write_register platform (cmd_reg c) (cmd_value c);;
        OV7670_delay_ms 1;;
        OV7670_write_list platform rest
      else mret tt
  end.

Definition OV7670_rgb : list OV7670_command :=
  [ command OV7670_REG_COM7 OV7670_COM7_RGB;
    command OV7670_REG_RGB444 0;
    command OV7670_REG_COM15 (Z.lor OV7670_COM15_RGB565 OV7670_COM15_R00FF);
    command 0xFF 0xFF ].

Definition OV7670_yuv : list OV7670_command :=
  [ command OV7670_REG_COM7 OV7670_COM7_YUV;
    command OV7670_REG_COM15 OV7670_COM15_R00FF;
    command 0xFF 0xFF ].

Definition OV7670_init : list OV7670_command :=
  [ command OV7670_REG_TSLB OV7670_TSLB_YLAST;
    command OV7670_REG_SLOP 0x20;
    command OV7670_REG_GAM_BASE 0x1C;
    command (OV7670_REG_GAM_BASE + 1) 0x28;
    command (OV7670_REG_GAM_BASE + 2) 0x3C;
    command (OV7670_REG_GAM_BASE + 3) 0x55;
    command (OV7670_REG_GAM_BASE + 4) 0x68;
    command (OV7670_REG_GAM_BASE + 5) 0x76;
    command (OV7670_REG_GAM_BASE + 6) 0x80;
    command (OV7670_REG_GAM_BASE + 7) 0x88;
    command (OV7670_REG_GAM_BASE + 8) 0x8F;
    command (OV7670_REG_GAM_BASE + 9) 0x96;
    command (OV7670_REG_GAM_BASE + 10) 0xA3;
    command (OV7670_REG_GAM_BASE + 11) 0xAF;
    command (OV7670_REG_GAM_BASE + 12) 0xC4;
    command (OV7670_REG_GAM_BASE + 13) 0xD7;
    command (OV7670_REG_GAM_BASE + 14) 0xE8;
    command OV7670_REG_COM8 (Z.lor (Z.lor OV7670_COM8_FASTAEC OV7670_COM8_AECSTEP) OV7670_COM8_BANDING);
    command OV7670_REG_GAIN 0x00;
    command OV7670_REG_COM2 0x00;
    command OV7670_REG_COM4 0x00;
    command OV7670_REG_COM9 0x20;
    command OV7670_REG_COM11 (Z.shiftl 1 3);
    command 0x9D 89;
    command OV7670_REG_BD50MAX 0x05;
    command OV7670_REG_BD60MAX 0x07;
    command OV7670_REG_AEW 0x75;
    command OV7670_REG_AEB 0x63;
    command OV7670_REG_VPT 0xA5;
    command OV7670_REG_HAECC1 0x78;
    command OV7670_REG_HAECC2 0x68;
    command 0xA1 0x03;
    command OV7670_REG_HAECC3 0xDF;
    command OV7670_REG_HAECC4 0xDF;
    command OV7670_REG_HAECC5 0xF0;
    command OV7670_REG_HAECC6 0x90;
    command OV7670_REG_HAECC7 0x94;
    command OV7670_REG_COM8 (Z.lor (Z.lor (Z.lor (Z.lor (Z.lor OV7670_COM8_FASTAEC OV7670_COM8_AECSTEP) OV7670_COM8_BANDING) OV7670_COM8_AGC) OV7670_COM8_AEC) OV7670_COM8_AWB);
    command OV7670_REG_COM5 0x61;
    command OV7670_REG_COM6 0x4B;
    command 0x16 0x02;
    command OV7670_REG_MVFP 0x07;
    command OV7670_REG_ADCCTR1 0x02;
    command OV7670_REG_ADCCTR2 0x91;
    command 0x29 0x07;
    command OV7670_REG_CHLF 0x0B;
    command 0x35 0x0B;
    command OV7670_REG_ADC 0x1D;
    command OV7670_REG_ACOM 0x71;
    command OV7670_REG_OFON 0x2A;
    command OV7670_REG_COM12 0x78;
    command 0x4D 0x40;
    command 0x4E 0x20;
    command OV7670_REG_GFIX 0x5D;
    command OV7670_REG_REG74 0x19;
    command 0x8D 0x4F;
    command 0x8E 0x00;
    command 0x8F 0x00;
    command 0x90 0x00;
    command 0x91 0x00;
    command OV7670_REG_DM_LNL 0x00;
    command 0x96 0x00;
    command 0x9A 0x80;
    command 0xB0 0x84;
    command OV7670_REG_ABLC1 0x0C;
    command 0xB2 0x0E;
    command OV7670_REG_THL_ST 0x82;
    command 0xB8 0x0A;
    command OV7670_REG_AWBC1 0x14;
    command OV7670_REG_AWBC2 0xF0;
    command OV7670_REG_AWBC3 0x34;
    command OV7670_REG_AWBC4 0x58;
    command OV7670_REG_AWBC5 0x28;
    command OV7670_REG_AWBC6 0x3A;
    command 0x59 0x88;
    command 0x5A 0x88;
    command 0x5B 0x44;
    command 0x5C 0x67;
    command 0x5D 0x49;
    command 0x5E 0x0E;
    command OV7670_REG_LCC3 0x04;
    command OV7670_REG_LCC4 0x20;
    command OV7670_REG_LCC5 0x05;
    command OV7670_REG_LCC6 0x04;
    command OV7670_REG_LCC7 0x08;
    command OV7670_REG_AWBCTR3 0x0A;
    command OV7670_REG_AWBCTR2 0x55;
    command OV7670_REG_AWBCTR1 0x11;
    command OV7670_REG_AWBCTR0 0x9E;
    command OV7670_REG_BRIGHT 0x00;
    command OV7670_REG_CONTRAS 0x40;
    command OV7670_REG_CONTRAS_CENTER 0x80;
    command (OV7670_REG_LAST + 1) 0x00 ].

Definition OV7670_set_format (platform : camera_platform_config) (colorspace : Z)
  : Sensor Z :=
  (if colorspace =? OV7670_COLOR_RGB then OV7670_write_list platform OV7670_rgb
   else OV7670_write_list platform OV7670_yuv);;
  mret OV7670_STATUS_OK.

(** The bus traffic of writing the entries of a table, one after the other. *)
Definition command_writes (platform : camera_platform_config)
    (cmd : list OV7670_command) : list bus_op :=
  flat_map (fun c => [I2cWrite (i2c_handle platform) OV7670_ADDR
                        [to_u8 (cmd_reg c); to_u8 (cmd_value c)];
                      DelayMs 1]) cmd.

(** ** ov7670.c: frame window *)

Definition OV7670_frame_control (platform : camera_platform_config)
    (size vstart hstart edge_offset pclk_delay : Z) : Sensor unit :=
  let size := to_u8 size in
  let vstart := to_u8 vstart in
  let hstart := to_u16 hstart in
  let edge_offset := to_u8 edge_offset in
  let pclk_delay := to_u8 pclk_delay in
  let value := if size >? OV7670_SIZE_DIV1 then OV7670_COM3_DCWEN else 0 in
  let value := if size =? OV7670_SIZE_DIV16
               then to_u8 (Z.lor value OV7670_COM3_SCALEEN) else value in
  OV7670_write_register platform OV7670_REG_COM3 value;;
  let value := to_u8 (if size >? OV7670_SIZE_DIV1 then 0x18 + size else 0) in
  OV7670_write_register platform OV7670_REG_COM14 value;;
  let value := if size <=? OV7670_SIZE_DIV8 then size else OV7670_SIZE_DIV8 in
  OV7670_write_register platform OV7670_REG_SCALING_DCWCTR (value * 0x11);;
  let value := to_u8 (if size >? OV7670_SIZE_DIV1 then 0xF0 + size else 0x08) in
  OV7670_write_register platform OV7670_REG_SCALING_PCLK_DIV value;;
  let value := if size =? OV7670_SIZE_DIV16 then 0x40 else 0x20 in
  xsc ← OV7670_read_register platform OV7670_REG_SCALING_XSC;
  ysc ← OV7670_read_register platform OV7670_REG_SCALING_YSC;
  let xsc := to_u8 (Z.lor (Z.land (to_u8 xsc) 0x80) value) in
  let ysc := to_u8 (Z.lor (Z.land (to_u8 ysc) 0x80) value) in
  OV7670_write_register platform OV7670_REG_SCALING_XSC xsc;;
  OV7670_write_register platform OV7670_REG_SCALING_YSC ysc;;
  let vstop := to_u16 (vstart + 480) in
  let hstop := to_u16 (Z.rem (hstart + 640) 784) in
  OV7670_write_register platform OV7670_REG_HSTART (Z.shiftr hstart 3);;
  OV7670_write_register platform OV7670_REG_HSTOP (Z.shiftr hstop 3);;
  OV7670_write_register platform OV7670_REG_HREF
    (Z.lor (Z.lor (Z.shiftl edge_offset 6) (Z.shiftl (Z.land hstop 7) 3))
           (Z.land hstart 7));;
  OV7670_write_register platform OV7670_REG_VSTART (Z.shiftr vstart 2);;
  OV7670_write_register platform OV7670_REG_VSTOP (Z.shiftr vstop 2);;
  OV7670_write_register platform OV7670_REG_VREF
    (Z.lor (Z.shiftl (Z.land vstop 3) 2) (Z.land vstart 3));;
  OV7670_write_register platform OV7670_REG_SCALING_PCLK_DELAY pclk_delay.

(** One row of [window]: vstart, hstart, edge_offset, pclk_delay. *)
Record window_row : Type := {
  win_vstart : Z; win_hstart : Z; win_edge_offset : Z; win_pclk_delay : Z
}.

Definition window : list window_row :=
  [ Build_window_row 9 162 2 2;
    Build_window_row 10 174 4 2;
    Build_window_row 11 186 2 2;
    Build_window_row 12 210 0 2;
    Build_window_row 15 252 3 2 ].

(** [table[i]] *)
Definition index {A : Type} (table : list A) (i : Z) : Sensor A :=
  match (if 0 <=? i then table !! Z.to_nat i else None) with
  | Some a => mret a
  | None => out_of_bounds
  end.

Definition OV7670_set_size (platform : camera_platform_config) (size : Z)
  : Sensor unit :=
  row ← index window size;
  OV7670_frame_control platform size (win_vstart row) (win_hstart row)
    (win_edge_offset row) (win_pclk_delay row).

(** ** ov7670.c: start-up *)

(** [host->pins] and [host->platform], dereferenced. *)
Definition pins_of (host : OV7670_host) : Sensor OV7670_pins :=
  match host_pins host with
  | Some pins => mret pins
  | None => out_of_bounds
  end.

Definition platform_of_host (host : OV7670_host) : Sensor camera_platform_config :=
  match host_platform host with
  | Some platform => mret platform
  | None => out_of_bounds
  end.

(** [host->platform] is handed on as [void *] and dereferenced by the
    register access functions. *)
Definition OV7670_begin (host : OV7670_host) (colorspace size : Z) : Sensor Z :=
  OV7670_delay_ms 300;;
  pins ← pins_of host;
  (if 0 <=? pin_enable pins then
     OV7670_pin_output (pin_enable pins);;
     OV7670_pin_write (pin_enable pins) 0;;
     OV7670_delay_ms 300
   else mret tt);;
  (if 0 <=? pin_reset pins then
     OV7670_pin_output (pin_reset pins);;
     OV7670_pin_write (pin_reset pins) 0;;
     OV7670_delay_ms 1;;
     OV7670_pin_write (pin_reset pins) 1
   else
     platform ← platform_of_host host;
     OV7670_write_register platform OV7670_REG_COM7 OV7670_COM7_RESET);;
  OV7670_delay_ms 1000;;
  platform ← platform_of_host host;
  OV7670_write_register platform OV7670_REG_CLKRC 1;;
  OV7670_write_register platform OV7670_REG_DBLV (Z.shiftl 1 6);;
  OV7670_set_format platform colorspace;;
  OV7670_write_list platform OV7670_init;;
  OV7670_set_size platform size;;
  OV7670_delay_ms 300;;
  mret OV7670_STATUS_OK.

(** ** ov7670.c: night mode, flip, test pattern *)

Definition night_bits : list Z := [0; 160; 192; 224].

Definition OV7670_night (platform : camera_platform_config) (night : Z)
  : Sensor unit :=
  com11 ← OV7670_read_register platform OV7670_REG_COM11;
  let com11 := to_u8 (Z.land (to_u8 com11) 31) in
  bits ← index night_bits night;
  let com11 := to_u8 (Z.lor com11 bits) in
  OV7670_write_register platform OV7670_REG_COM11 com11.

Definition OV7670_flip (platform : camera_platform_config) (flip_x flip_y : bool)
  : Sensor unit :=
  mvfp ← OV7670_read_register platform OV7670_REG_MVFP;
  let mvfp := to_u8 mvfp in
  let mvfp := if flip_x then to_u8 (Z.lor mvfp OV7670_MVFP_MIRROR)
              else to_u8 (Z.land mvfp (Z.lnot OV7670_MVFP_MIRROR)) in
  let mvfp := if flip_y then to_u8 (Z.lor mvfp OV7670_MVFP_VFLIP)
              else to_u8 (Z.land mvfp (Z.lnot OV7670_MVFP_VFLIP)) in
  OV7670_write_register platform OV7670_REG_MVFP mvfp.

Definition OV7670_test_pattern (platform : camera_platform_config) (pattern : Z)
  : Sensor unit :=
  xsc ← OV7670_read_register platform OV7670_REG_SCALING_XSC;
  ysc ← OV7670_read_register platform OV7670_REG_SCALING_YSC;
  let xsc := to_u8 xsc in
  let ysc := to_u8 ysc in
  let xsc := if negb (Z.land pattern 1 =? 0) then to_u8 (Z.lor xsc 0x80)
             else to_u8 (Z.land xsc (Z.lnot 0x80)) in
  let ysc := if negb (Z.land pattern 2 =? 0) then to_u8 (Z.lor ysc 0x80)
             else to_u8 (Z.land ysc (Z.lnot 0x80)) in
  OV7670_write_register platform OV7670_REG_SCALING_XSC xsc;;
  OV7670_write_register platform OV7670_REG_SCALING_YSC ysc.

(** ** ov7670.c: grey-scale conversion *)

Definition bswap16 (x : Z) : Z :=
  Z.lor (Z.shiftl (Z.land x 0xFF) 8) (Z.land (Z.shiftr x 8) 0xFF).

(** The body of the loop of [OV7670_Y2RGB565], on the pixel [*ptr]. *)
Definition Y2RGB565_pixel (px : Z) : Z :=
  let y := to_u8 (Z.land px 0xFF) in
  let rgb := to_u16 (Z.lor (Z.shiftr y 3 * 0x801) (Z.shiftl (Z.land y 0xFC) 3)) in
  bswap16 rgb.

(** [while (len--)] over the array of 16-bit pixels [ptr] points to; [None]
    when the loop leaves the array. *)
Fixpoint OV7670_Y2RGB565 (pixels : list Z) (len : nat) {struct len}
  : option (list Z) :=
  match len with
  | O => Some pixels
  | S len' =>
      match pixels with
      | [] => None
      | px :: rest =>
          rest' ← OV7670_Y2RGB565 rest len';
          Some (Y2RGB565_pixel px :: rest')
      end
  end.

(** ** What the sensor was told *)

(** The value the driver last wrote to the sensor register [reg], if it
    wrote that register at all. *)
Fixpoint last_write (reg : Z) (log : list bus_op) : option Z :=
  match log with
  | [] => None
  | op :: rest =>
      match last_write reg rest with
      | Some v => Some v
      | None =>
          match op with
          | I2cWrite _ addr [r; v] =>
              if (addr =? OV7670_ADDR) && (r =? reg) then Some v else None
          | _ => None
          end
      end
  end.

(** The byte the next read of a register returns. *)
Definition next_read (platform : camera_platform_config) (reg : Z) (p : port) : Z :=
  to_u8 (port_answer p
           (port_log p
            ++ [I2cWrite (i2c_handle platform) OV7670_ADDR [to_u8 reg];
                I2cRead (i2c_handle platform) OV7670_ADDR 1])).

End Ov7670.


Section Driver.

Context `{PicoSdk}.

(** ** camera.h: structures *)

Record camera_buffer : Type := {
  buf_format : Z;
  buf_width : Z;
  buf_height : Z;
  buf_strides : list Z;
  buf_sizes : list Z;
  buf_data : list Z
}.

Record camera_config : Type := {
  cfg_format : Z;
  cfg_width : Z;
  cfg_height : Z;
  cfg_dma_transfers : list Z;
  cfg_dma_offset : list Z;
  cfg_dma_cfgs : list dma_channel_config;
  cfg_sm_cfgs : list pio_sm_config
}.

Record camera : Type := {
  cam_driver_host : OV7670_host;
  cam_frame_offset : Z;
  cam_shift_byte_offset : Z;
  cam_dma_channels : list Z;
  cam_config : camera_config;
  cam_pending : Z;
  cam_pending_cb : Z;
  cam_cb_data : Z
}.

(** [arr[i]] for an in-range index. *)
Definition arr_get {A : Type} (d : A) (arr : list A) (i : Z) : A :=
  default d (arr !! Z.to_nat i).

Definition arr_set {A : Type} (arr : list A) (i : Z) (v : A) : list A :=
  <[Z.to_nat i := v]> arr.

(** [(struct camera){ 0 }] *)
Definition camera_config_zero : camera_config := {|
  cfg_format := 0; cfg_width := 0; cfg_height := 0;
  cfg_dma_transfers := [0; 0; 0];
  cfg_dma_offset := [0; 0; 0];
  cfg_dma_cfgs := replicate 3 dma_channel_config_zero;
  cfg_sm_cfgs := replicate 4 pio_sm_config_zero
|}.

Definition camera_zero : camera := {|
  cam_driver_host := {| host_pins := None; host_platform := None |};
  cam_frame_offset := 0;
  cam_shift_byte_offset := 0;
  cam_dma_channels := [0; 0; 0];
  cam_config := camera_config_zero;
  cam_pending := NULL;
  cam_pending_cb := NULL;
  cam_cb_data := NULL
|}.

Definition set_cam_config (cfg : camera_config) (c : camera) : camera := {|
  cam_driver_host := cam_driver_host c;
  cam_frame_offset := cam_frame_offset c;
  cam_shift_byte_offset := cam_shift_byte_offset c;
  cam_dma_channels := cam_dma_channels c;
  cam_config := cfg;
  cam_pending := cam_pending c;
  cam_pending_cb := cam_pending_cb c;
  cam_cb_data := cam_cb_data c
|}.

Definition set_cam_driver_host (h : OV7670_host) (c : camera) : camera := {|
  cam_driver_host := h;
  cam_frame_offset := cam_frame_offset c;
  cam_shift_byte_offset := cam_shift_byte_offset c;
  cam_dma_channels := cam_dma_channels c;
  cam_config := cam_config c;
  cam_pending := cam_pending c;
  cam_pending_cb := cam_pending_cb c;
  cam_cb_data := cam_cb_data c
|}.

Definition set_cam_offsets (frame shift_byte : Z) (c : camera) : camera := {|
  cam_driver_host := cam_driver_host c;
  cam_frame_offset := frame;
  cam_shift_byte_offset := shift_byte;
  cam_dma_channels := cam_dma_channels c;
  cam_config := cam_config c;
  cam_pending := cam_pending c;
  cam_pending_cb := cam_pending_cb c;
  cam_cb_data := cam_cb_data c
|}.

Definition set_cam_dma_channels (chs : list Z) (c : camera) : camera := {|
  cam_driver_host := cam_driver_host c;
  cam_frame_offset := cam_frame_offset c;
  cam_shift_byte_offset := cam_shift_byte_offset c;
  cam_dma_channels := chs;
  cam_config := cam_config c;
  cam_pending := cam_pending c;
  cam_pending_cb := cam_pending_cb c;
  cam_cb_data := cam_cb_data c
|}.

(** The pending-request slot: buffer, callback and user data. *)
Definition set_cam_pending (buf cb data : Z) (c : camera) : camera := {|
  cam_driver_host := cam_driver_host c;
  cam_frame_offset := cam_frame_offset c;
  cam_shift_byte_offset := cam_shift_byte_offset c;
  cam_dma_channels := cam_dma_channels c;
  cam_config := cam_config c;
  cam_pending := buf;
  cam_pending_cb := cb;
  cam_cb_data := data
|}.

(** ** Hardware trace *)

Inductive hw_event : Type :=
| EvClockGpioInit (pin divider : Z)
| EvSleepMs (ms : Z)
| EvPioAddProgram (p : PIO) (prog : pio_program)
| EvCameraPioInitGpios (p : PIO) (sm base : Z)
| EvPioSetInte0 (p : PIO) (mask : Z)
| EvIrqSetExclusiveHandler (irq : irq_num) (h : irq_handler)
| EvIrqSetEnabled (irq : irq_num) (enabled : bool)
| EvPioSmSetEnabled (p : PIO) (sm : Z) (enabled : bool)
| EvPioSetSmMaskEnabled (p : PIO) (mask : Z) (enabled : bool)
| EvPioRestartSmMask (p : PIO) (mask : Z)
| EvPioSmClearFifos (p : PIO) (sm : Z)
| EvCameraPioPatchPixelLoop (p : PIO) (offset : Z) (loop : option pio_program)
| EvPioSmInit (p : PIO) (sm offset : Z) (cfg : pio_sm_config)
| EvDmaChannelConfigure (channel : Z) (cfg : dma_channel_config)
    (write_addr : Z) (read_pio : PIO) (read_sm read_offset : Z)
    (transfer_count : Z) (trigger : bool)
| EvCameraPioTriggerFrame (p : PIO) (num_loops height : Z)
| EvPioInterruptClear (p : PIO) (irq : Z)
| EvFrameCb (cb buf data : Z)
| EvOv7670DelayMs (ms : Z)
| EvOv7670PinOutput (pin : Z)
| EvOv7670PinWrite (pin level : Z).

(** ** The world the driver runs in

    [w_cams] and [w_bufs] hold the [struct camera] and [struct camera_buffer]
    objects by address; [w_irq_ctxs] is the global [irq_ctxs]; [w_dma_claimed]
    is the SDK's registry of claimed DMA channels; [w_heap] maps the address
    of each live [malloc] block to its size, [w_brk] is the next address
    [malloc] hands out and [w_malloc_fail] tells for each coming call whether
    it fails; [w_bus] is the platform's I2C bus; [w_trace] lists the hardware
    calls made so far, oldest first; [w_cb_found] holds, for each call of a
    completion callback so far, oldest first, the contexts as that call
    found them. *)
Record world : Type := {
  w_cams : gmap Z camera;
  w_bufs : gmap Z camera_buffer;
  w_irq_ctxs : list Z;
  w_dma_claimed : gset Z;
  w_heap : gmap Z Z;
  w_brk : Z;
  w_malloc_fail : list bool;
  w_bus : i2c_bus;
  w_trace : list hw_event;
  w_cb_found : list (gmap Z camera)
}.

Definition set_w_cams (m : gmap Z camera) (w : world) : world :=
  {| w_cams := m; w_bufs := w_bufs w; w_irq_ctxs := w_irq_ctxs w;
     w_dma_claimed := w_dma_claimed w; w_heap := w_heap w; w_brk := w_brk w;
     w_malloc_fail := w_malloc_fail w; w_bus := w_bus w; w_trace := w_trace w;
     w_cb_found := w_cb_found w |}.

Definition set_w_bufs (m : gmap Z camera_buffer) (w : world) : world :=
  {| w_cams := w_cams w; w_bufs := m; w_irq_ctxs := w_irq_ctxs w;
     w_dma_claimed := w_dma_claimed w; w_heap := w_heap w; w_brk := w_brk w;
     w_malloc_fail := w_malloc_fail w; w_bus := w_bus w; w_trace := w_trace w;
     w_cb_found := w_cb_found w |}.

Definition set_w_irq_ctxs (l : list Z) (w : world) : world :=
  {| w_cams := w_cams w; w_bufs := w_bufs w; w_irq_ctxs := l;
     w_dma_claimed := w_dma_claimed w; w_heap := w_heap w; w_brk := w_brk w;
     w_malloc_fail := w_malloc_fail w; w_bus := w_bus w; w_trace := w_trace w;
     w_cb_found := w_cb_found w |}.

Definition set_w_dma_claimed (s : gset Z) (w : world) : world :=
  {| w_cams := w_cams w; w_bufs := w_bufs w; w_irq_ctxs := w_irq_ctxs w;
     w_dma_claimed := s; w_heap := w_heap w; w_brk := w_brk w;
     w_malloc_fail := w_malloc_fail w; w_bus := w_bus w; w_trace := w_trace w;
     w_cb_found := w_cb_found w |}.

Definition set_w_heap (h : gmap Z Z) (brk : Z) (fails : list bool) (w : world) : world :=
  {| w_cams := w_cams w; w_bufs := w_bufs w; w_irq_ctxs := w_irq_ctxs w;
     w_dma_claimed := w_dma_claimed w; w_heap := h; w_brk := brk;
     w_malloc_fail := fails; w_bus := w_bus w; w_trace := w_trace w;
     w_cb_found := w_cb_found w |}.

Definition set_w_bus (b : i2c_bus) (w : world) : world :=
  {| w_cams := w_cams w; w_bufs := w_bufs w; w_irq_ctxs := w_irq_ctxs w;
     w_dma_claimed := w_dma_claimed w; w_heap := w_heap w; w_brk := w_brk w;
     w_malloc_fail := w_malloc_fail w; w_bus := b; w_trace := w_trace w;
     w_cb_found := w_cb_found w |}.

Definition set_w_trace (t : list hw_event) (w : world) : world :=
  {| w_cams := w_cams w; w_bufs := w_bufs w; w_irq_ctxs := w_irq_ctxs w;
     w_dma_claimed := w_dma_claimed w; w_heap := w_heap w; w_brk := w_brk w;
     w_malloc_fail := w_malloc_fail w; w_bus := w_bus w; w_trace := t;
     w_cb_found := w_cb_found w |}.

Definition set_w_cb_found (found : list (gmap Z camera)) (w : world) : world :=
  {| w_cams := w_cams w; w_bufs := w_bufs w; w_irq_ctxs := w_irq_ctxs w;
     w_dma_claimed := w_dma_claimed w; w_heap := w_heap w; w_brk := w_brk w;
     w_malloc_fail := w_malloc_fail w; w_bus := w_bus w; w_trace := w_trace w;
     w_cb_found := found |}.

(** ** State and fault monad

    A call either returns a value and a new world, or stops: on an access
    through a pointer to no object ([BadPointer]), on [hard_assert]
    ([HardAssert]), on an SDK panic ([SdkPanic]), because a blocking wait
    outlives every interrupt the schedule delivers ([NoCompletion]), or
    because the sensor driver reads outside every object ([OutOfBounds]). *)

Inductive fault : Type :=
  BadPointer | HardAssert | SdkPanic | NoCompletion | OutOfBounds.

Inductive result (A : Type) : Type :=
| Ok (a : A) (w : world)
| Fault (f : fault).

Arguments Ok {A} a w.
Arguments Fault {A} f.

Definition M (A : Type) : Type := world -> result A.

#[global] Instance M_ret : MRet M := fun A a w => Ok a w.

#[global] Instance M_bind : MBind M := fun A B f m w =>
  match m w with
  | Ok a w' => f a w'
  | Fault e => Fault e
  end.

Definition raise {A : Type} (e : fault) : M A := fun _ => Fault e.

Definition emit (evs : list hw_event) : M unit :=
  fun w => Ok tt (set_w_trace (w_trace w ++ evs) w).

Definition load_camera (p : Z) : M camera := fun w =>
  match w_cams w !! p with
  | Some c => Ok c w
  | None => Fault BadPointer
  end.

Definition store_camera (p : Z) (c : camera) : M unit :=
  fun w => Ok tt (set_w_cams (<[p := c]> (w_cams w)) w).

Definition load_buffer (p : Z) : M camera_buffer := fun w =>
  match w_bufs w !! p with
  | Some b => Ok b w
  | None => Fault BadPointer
  end.

Definition store_buffer (p : Z) (b : camera_buffer) : M unit :=
  fun w => Ok tt (set_w_bufs (<[p := b]> (w_bufs w)) w).

(** [camera->driver_host.platform], dereferenced. *)
Definition platform_of (c : camera) : M camera_platform_config :=
  match host_platform (cam_driver_host c) with
  | Some platform => mret platform
  | None => raise BadPointer
  end.

(** [for (int i = first; ...; i++) body(i)], [n] iterations. *)
Fixpoint for_loop (n : nat) (i : Z) (body : Z -> M unit) : M unit :=
  match n with
  | O => mret tt
  | S n' => body i;; for_loop n' (i + 1) body
  end.

(** ** libc: malloc and free *)

Definition malloc (size : Z) : M Z := fun w =>
  match w_malloc_fail w with
  | true :: rest => Ok NULL (set_w_heap (w_heap w) (w_brk w) rest w)
  | fails =>
      let p := w_brk w in
      Ok p (set_w_heap (<[p := size]> (w_heap w)) (p + Z.max size 1) (tail fails) w)
  end.

(** Freeing a block ends the life of the object stored in it. *)
Definition free (p : Z) : M unit := fun w =>
  Ok tt (set_w_bufs (delete p (w_bufs w))
           (set_w_heap (delete p (w_heap w)) (w_brk w) (w_malloc_fail w) w)).

(** ** SDK: the registry of claimed DMA channels *)

Definition dma_channel_claim (channel : Z) : M unit := fun w =>
  if decide (channel ∈ w_dma_claimed w) then Fault SdkPanic
  else Ok tt (set_w_dma_claimed ({[channel]} ∪ w_dma_claimed w) w).

Definition first_unused_channel (claimed : gset Z) : option Z :=
  List.find (fun ch => bool_decide (ch ∉ claimed)) (seqZ 0 NUM_DMA_CHANNELS).

Definition dma_claim_unused_channel (required : bool) : M Z := fun w =>
  match first_unused_channel (w_dma_claimed w) with
  | Some ch => Ok ch (set_w_dma_claimed ({[ch]} ∪ w_dma_claimed w) w)
  | None => if required then Fault SdkPanic else Ok (-1) w
  end.

Definition dma_channel_unclaim (channel : Z) : M unit := fun w =>
  Ok tt (set_w_dma_claimed (w_dma_claimed w ∖ {[channel]}) w).

(** ** camera.c: interrupt handlers *)

(** [cb(buf, data)], the call of a completion callback.  The callback is
    code of the caller: the call is recorded in the trace with its
    arguments, and the contexts as they are when it is made, which is how
    the callback finds them, are added to [w_cb_found]. *)
Definition call_frame_cb (cb buf data : Z) : M unit := fun w =>
  Ok tt (set_w_cb_found (w_cb_found w ++ [w_cams w])
           (set_w_trace (w_trace w ++ [EvFrameCb cb buf data]) w)).

Definition __camera_isr (camera : Z) : M unit :=
  if camera =? NULL then mret tt
  else
    cam ← load_camera camera;
    if cam_pending cam =? NULL then mret tt
    else
      (if cam_pending_cb cam =? NULL then mret tt
       else call_frame_cb (cam_pending_cb cam) (cam_pending cam) (cam_cb_data cam));;
      store_camera camera
        (set_cam_pending NULL (cam_pending_cb cam) (cam_cb_data cam) cam).

Definition read_irq_ctx (i : Z) : M Z :=
  fun w => Ok (arr_get NULL (w_irq_ctxs w) i) w.

Definition write_irq_ctx (i : Z) (camera : Z) : M unit :=
  fun w => Ok tt (set_w_irq_ctxs (arr_set (w_irq_ctxs w) i camera) w).

Definition camera_isr_pio0 : M unit :=
  camera ← read_irq_ctx 0;
  __camera_isr camera;;
  emit [EvPioInterruptClear pio0 0].

Definition camera_isr_pio1 : M unit :=
  camera ← read_irq_ctx 1;
  __camera_isr camera;;
  emit [EvPioInterruptClear pio1 0].

(** The handler [camera_pio_init] installs for the frame interrupt of a PIO
    instance, and the slot of [irq_ctxs] it reads. *)
Definition camera_isr (p : PIO) : M unit :=
  match p with
  | pio0 => camera_isr_pio0
  | pio1 => camera_isr_pio1
  | pio_invalid => mret tt
  end.

Definition irq_ctx_index (p : PIO) : Z :=
  match p with pio0 => 0 | _ => 1 end.

(** ** camera.c: initialisation and termination *)

Definition camera_pio_init (camera : Z) : M unit :=
  cam ← load_camera camera;
  platform ← platform_of cam;
  let p := pio platform in
  if PIO_eqb p pio_invalid then raise HardAssert
  else
    emit [EvPioAddProgram p camera_pio_read_byte_program;
          EvPioAddProgram p camera_pio_frame_program];;
    store_camera camera
      (set_cam_offsets (pio_program_offset p camera_pio_frame_program)
                       (pio_program_offset p camera_pio_read_byte_program) cam);;
    emit (map (fun i => EvCameraPioInitGpios p i (base_pin platform)) (seqZ 0 4));;
    emit [EvPioSetInte0 p (Z.shiftl 1 (8 + CAMERA_PIO_FRAME_SM))];;
    match p with
    | pio0 =>
        write_irq_ctx 0 camera;;
        emit [EvIrqSetExclusiveHandler PIO0_IRQ_0 handler_camera_isr_pio0;
              EvIrqSetEnabled PIO0_IRQ_0 true]
    | pio1 =>
        write_irq_ctx 1 camera;;
        emit [EvIrqSetExclusiveHandler PIO1_IRQ_0 handler_camera_isr_pio1;
              EvIrqSetEnabled PIO1_IRQ_0 true]
    | pio_invalid => mret tt
    end.

Definition i2c_write (platform : camera_platform_config) (addr : Z) (bytes : list Z) : M Z :=
  fun w =>
    let '(ret, bus) := i2c_write_blocking (i2c_handle platform) addr bytes (w_bus w) in
    Ok ret (set_w_bus bus w).

Definition i2c_read (platform : camera_platform_config) (addr len : Z) : M (Z * list Z) :=
  fun w =>
    let '(ret, bytes, bus) := i2c_read_blocking (i2c_handle platform) addr len (w_bus w) in
    Ok (ret, bytes) (set_w_bus bus w).

(** The body of [while (tries--)], with [val] threaded through; the result
    is the final [val]. *)
Fixpoint camera_detect_loop (platform : camera_platform_config) (tries : nat) (val : Z)
  : M Z :=
  match tries with
  | O => mret val
  | S tries' =>
      ret ← i2c_write platform OV7670_ADDR [OV7670_REG_PID];
      if negb (ret =? 1) then
        emit [EvSleepMs 100];; camera_detect_loop platform tries' val
      else
        r ← i2c_read platform OV7670_ADDR 1;
        let val' := match snd r with b :: _ => to_u8 b | [] => val end in
        if negb (fst r =? 1) then
          emit [EvSleepMs 100];; camera_detect_loop platform tries' val'
        else if val' =? 118 then mret val'
        else emit [EvSleepMs 100];; camera_detect_loop platform tries' val'
  end.

Definition camera_detect (platform : camera_platform_config) : M bool :=
  val ← camera_detect_loop platform 5 0;
  mret (val =? 118).

(** ** ov7670.c on the platform

    The sensor driver runs on the port of the world it is called in.  Its
    register transfers are those of [OV7670_write_register] and
    [OV7670_read_register], made with the platform's two I2C functions from
    the world's bus on; its delays and pin operations are recorded in the
    trace.  A run that reads outside every object stops the program. *)

Definition bus_transfer (bus : i2c_bus) (op : Ov7670.bus_op) : i2c_bus :=
  match op with
  | Ov7670.I2cWrite i2c addr bytes => snd (i2c_write_blocking i2c addr bytes bus)
  | Ov7670.I2cRead i2c addr len => snd (i2c_read_blocking i2c addr len bus)
  | _ => bus
  end.

(** The bus after the transfers of a log. *)
Definition bus_after (bus : i2c_bus) (log : list Ov7670.bus_op) : i2c_bus :=
  foldl bus_transfer bus log.

(** The content of [value] after the read that ends [log]: the first byte
    the read stored, or what [value] held before if it stored none. *)
Definition read_answer (bus : i2c_bus) (log : list Ov7670.bus_op) : Z :=
  match reverse log with
  | Ov7670.I2cRead i2c addr len :: earlier =>
      let before := bus_after bus (reverse earlier) in
      match snd (fst (i2c_read_blocking i2c addr len before)) with
      | b :: _ => b
      | [] => indeterminate_byte before
      end
  | _ => indeterminate_byte (bus_after bus log)
  end.

Definition sensor_port (w : world) : Ov7670.port :=
  {| Ov7670.port_answer := read_answer (w_bus w); Ov7670.port_log := [] |}.

Definition sensor_calls (op : Ov7670.bus_op) : list hw_event :=
  match op with
  | Ov7670.DelayMs ms => [EvOv7670DelayMs ms]
  | Ov7670.PinOutput pin => [EvOv7670PinOutput pin]
  | Ov7670.PinWrite pin level => [EvOv7670PinWrite pin level]
  | _ => []
  end.

Definition run_sensor {A : Type} (s : Ov7670.Sensor A) : M A := fun w =>
  match s (sensor_port w) with
  | Ov7670.Done a p =>
      Ok a (set_w_trace (w_trace w ++ flat_map sensor_calls (Ov7670.port_log p))
              (set_w_bus (bus_after (w_bus w) (Ov7670.port_log p)) w))
  | Ov7670.OutOfBounds _ => Fault OutOfBounds
  end.

Definition OV7670_begin (host : OV7670_host) (colorspace size : Z) : M Z :=
  run_sensor (Ov7670.OV7670_begin host colorspace size).

Definition OV7670_set_format (platform : camera_platform_config) (colorspace : Z) : M Z :=
  run_sensor (Ov7670.OV7670_set_format platform colorspace).

Definition OV7670_set_size (platform : camera_platform_config) (size : Z) : M unit :=
  run_sensor (Ov7670.OV7670_set_size platform size).

Definition set_dma_channel (camera : Z) (i ch : Z) : M unit :=
  cam ← load_camera camera;
  store_camera camera (set_cam_dma_channels (arr_set (cam_dma_channels cam) i ch) cam).

Definition camera_init (camera : Z) (params : camera_platform_config) : M Z :=
  store_camera camera camera_zero;;
  emit [EvClockGpioInit (xclk_pin params) (xclk_divider params)];;
  store_camera camera
    (set_cam_driver_host
       {| host_pins := Some {| pin_enable := -1; pin_reset := -1 |};
          host_platform := Some params |} camera_zero);;
  emit [EvSleepMs 300];;
  detected ← camera_detect params;
  if negb detected then mret (-1)
  else
    cam ← load_camera camera;
    status ← OV7670_begin (cam_driver_host cam) OV7670_COLOR_RGB OV7670_SIZE_DIV8;
    if negb (status =? OV7670_STATUS_OK) then mret (-1)
    else
      (if 0 <=? base_dma_channel params then
         for_loop (Z.to_nat CAMERA_MAX_N_PLANES) 0 (fun i =>
           dma_channel_claim (base_dma_channel params + i);;
           set_dma_channel camera i (base_dma_channel params + i))
       else
         for_loop (Z.to_nat CAMERA_MAX_N_PLANES) 0 (fun i =>
           ch ← dma_claim_unused_channel true;
           set_dma_channel camera i ch));;
      camera_pio_init camera;;
      mret 0.

Definition camera_term (camera : Z) : M unit :=
  if camera =? NULL then mret tt
  else
    cam ← load_camera camera;
    platform ← platform_of cam;
    let p := pio platform in
    let num_planes := format_num_planes (cfg_format (cam_config cam)) in
    emit (map (fun i => EvPioSmSetEnabled p (i + 1) false) (seqZ 0 num_planes));;
    emit [EvPioSmSetEnabled p CAMERA_PIO_FRAME_SM false];;
    match p with
    | pio0 => emit [EvIrqSetEnabled PIO0_IRQ_0 false];; write_irq_ctx 0 NULL
    | pio1 => emit [EvIrqSetEnabled PIO1_IRQ_0 false];; write_irq_ctx 1 NULL
    | pio_invalid => mret tt
    end;;
    for_loop (Z.to_nat CAMERA_MAX_N_PLANES) 0 (fun i =>
      c ← load_camera camera;
      if 0 <=? arr_get 0 (cam_dma_channels c) i then
        dma_channel_unclaim (arr_get 0 (cam_dma_channels c) i);;
        set_dma_channel camera i (-1)
      else mret tt);;
    c ← load_camera camera;
    store_camera camera (set_cam_pending NULL NULL NULL c).

(** The channels [camera_term] hands back to the SDK: the entries of
    [dma_channels] that are not negative. *)
Definition released_channels (channels : list Z) : gset Z :=
  list_to_set (filter (fun ch => 0 <= ch) channels).

(** The hardware calls of [camera_term], in order. *)
Definition camera_term_calls (cam : camera) (platform : camera_platform_config)
  : list hw_event :=
  let p := pio platform in
  map (fun i => EvPioSmSetEnabled p (i + 1) false)
      (seqZ 0 (format_num_planes (cfg_format (cam_config cam))))
  ++ [EvPioSmSetEnabled p CAMERA_PIO_FRAME_SM false]
  ++ match p with
     | pio0 => [EvIrqSetEnabled PIO0_IRQ_0 false]
     | pio1 => [EvIrqSetEnabled PIO1_IRQ_0 false]
     | pio_invalid => []
     end.

Definition is_frame_cb (e : hw_event) : bool :=
  match e with
  | EvFrameCb _ _ _ => true
  | _ => false
  end.

(** ** camera.c: configuration *)

Definition ov7670_colorspace_from_format (format : Z) : Z :=
  if format =? FORMAT_RGB565 then OV7670_COLOR_RGB
  else if format =? FORMAT_YUYV then OV7670_COLOR_YUV
  else if format =? FORMAT_YUV422 then OV7670_COLOR_YUV
  else 0.

Definition camera_transfer_size (format plane : Z) : Z :=
  if format =? FORMAT_YUYV then DMA_SIZE_32
  else if format =? FORMAT_RGB565 then DMA_SIZE_32
  else if format =? FORMAT_YUV422 then (if plane =? 0 then DMA_SIZE_16 else DMA_SIZE_8)
  else 0.

Definition __dma_transfer_size_to_bytes (dma : Z) : Z :=
  if dma =? DMA_SIZE_8 then 1
  else if dma =? DMA_SIZE_16 then 2
  else if dma =? DMA_SIZE_32 then 4
  else 0.

Definition camera_get_pixel_loop (format : Z) : option pio_program :=
  if format =? FORMAT_YUYV then Some pixel_loop_yuyv_program
  else if format =? FORMAT_RGB565 then Some pixel_loop_yuyv_program
  else if format =? FORMAT_YUV422 then Some pixel_loop_yu16_program
  else None.

(** The hardware calls of [camera_pio_configure], in order. *)
Definition camera_pio_configure_calls (cam : camera) (platform : camera_platform_config)
  : list hw_event :=
  let p := pio platform in
  let num_planes := format_num_planes (cfg_format (cam_config cam)) in
  [EvPioSetSmMaskEnabled p 15 false; EvPioRestartSmMask p 15]
  ++ map (fun i => EvPioSmClearFifos p i) (seqZ 0 4)
  ++ [EvCameraPioPatchPixelLoop p (cam_frame_offset cam)
        (camera_get_pixel_loop (cfg_format (cam_config cam)))]
  ++ flat_map (fun i =>
       [EvPioSmInit p (i + 1) (cam_shift_byte_offset cam)
          (arr_get pio_sm_config_zero (cfg_sm_cfgs (cam_config cam)) (i + 1));
        EvPioSmSetEnabled p (i + 1) true]) (seqZ 0 num_planes)
  ++ [EvPioSmInit p CAMERA_PIO_FRAME_SM (cam_frame_offset cam)
        (arr_get pio_sm_config_zero (cfg_sm_cfgs (cam_config cam)) CAMERA_PIO_FRAME_SM);
      EvPioSmSetEnabled p CAMERA_PIO_FRAME_SM true].

Definition camera_pio_configure (camera : Z) : M unit :=
  cam ← load_camera camera;
  platform ← platform_of cam;
  emit (camera_pio_configure_calls cam platform).

(** [camera->config.sm_cfgs[CAMERA_PIO_FRAME_SM] = ...] *)
Definition configure_frame_sm (platform : camera_platform_config) (cam : camera) : camera :=
  let cfg := cam_config cam in
  set_cam_config
    {| cfg_format := cfg_format cfg; cfg_width := cfg_width cfg;
       cfg_height := cfg_height cfg;
       cfg_dma_transfers := cfg_dma_transfers cfg;
       cfg_dma_offset := cfg_dma_offset cfg;
       cfg_dma_cfgs := cfg_dma_cfgs cfg;
       cfg_sm_cfgs :=
         arr_set (cfg_sm_cfgs cfg) CAMERA_PIO_FRAME_SM
           (camera_pio_get_frame_sm_config (pio platform) CAMERA_PIO_FRAME_SM
              (cam_frame_offset cam) (base_pin platform)) |}
    cam.

(** One iteration of the per-plane loop of [camera_configure].  The quotient
    by [xfer_bytes] is only taken for planes of a format that has planes,
    where [xfer_bytes] is 1, 2 or 4. *)
Definition configure_plane (platform : camera_platform_config)
    (format width height : Z) (cam : camera) (i : Z) : camera :=
  let cfg := cam_config cam in
  let xfer_size := camera_transfer_size format i in
  let c := dma_channel_get_default_config (arr_get 0 (cam_dma_channels cam) i) in
  let c := channel_config_set_transfer_data_size c xfer_size in
  let c := channel_config_set_read_increment c false in
  let c := channel_config_set_write_increment c true in
  let c := channel_config_set_dreq c (pio_get_dreq (pio platform) (i + 1) false) in
  let xfer_bytes := __dma_transfer_size_to_bytes xfer_size in
  set_cam_config
    {| cfg_format := cfg_format cfg; cfg_width := cfg_width cfg;
       cfg_height := cfg_height cfg;
       cfg_dma_transfers :=
         arr_set (cfg_dma_transfers cfg) i
           (Z.quot (format_plane_size format i width height) xfer_bytes);
       cfg_dma_offset := arr_set (cfg_dma_offset cfg) i (to_u32 (4 - xfer_bytes));
       cfg_dma_cfgs := arr_set (cfg_dma_cfgs cfg) i c;
       cfg_sm_cfgs :=
         arr_set (cfg_sm_cfgs cfg) (i + 1)
           (camera_pio_get_read_byte_sm_config (pio platform) (i + 1)
              (cam_shift_byte_offset cam) (base_pin platform) (xfer_bytes * 8)) |}
    cam.

(** [camera->config.format = format; ...width = width; ...height = height] *)
Definition configure_geometry (format width height : Z) (cam : camera) : camera :=
  let cfg := cam_config cam in
  set_cam_config
    {| cfg_format := format; cfg_width := width; cfg_height := height;
       cfg_dma_transfers := cfg_dma_transfers cfg;
       cfg_dma_offset := cfg_dma_offset cfg;
       cfg_dma_cfgs := cfg_dma_cfgs cfg;
       cfg_sm_cfgs := cfg_sm_cfgs cfg |}
    cam.

(** The writes of [camera_configure] to [*camera]: the frame state-machine
    configuration, the loop over the planes of [format], then the geometry. *)
Definition configured_camera (platform : camera_platform_config)
    (format width height : Z) (cam : camera) : camera :=
  let cam := configure_frame_sm platform cam in
  let num_planes := format_num_planes format in
  let cam := foldl (configure_plane platform format width height) cam
                   (seqZ 0 num_planes) in
  configure_geometry format width height cam.

Definition camera_configure (camera : Z) (format width height : Z) : M Z :=
  if negb (width =? CAMERA_WIDTH_DIV8) || negb (height =? CAMERA_HEIGHT_DIV8) then
    mret (-1)
  else
    cam ← load_camera camera;
    platform ← platform_of cam;
    OV7670_set_format platform (ov7670_colorspace_from_format format);;
    OV7670_set_size platform OV7670_SIZE_DIV8;;
    store_camera camera (configured_camera platform format width height cam);;
    camera_pio_configure camera;;
    mret 0.

(** Every array of the context has its declared length. *)
Definition camera_wf (cam : camera) : Prop :=
  length (cam_dma_channels cam) = 3%nat
  /\ length (cfg_dma_transfers (cam_config cam)) = 3%nat
  /\ length (cfg_dma_offset (cam_config cam)) = 3%nat
  /\ length (cfg_dma_cfgs (cam_config cam)) = 3%nat
  /\ length (cfg_sm_cfgs (cam_config cam)) = 4%nat.

(** ** camera.c: capture *)

Definition camera_pixels_per_chunk (format : Z) : Z :=
  if format =? FORMAT_YUYV then 2
  else if format =? FORMAT_RGB565 then 2
  else if format =? FORMAT_YUV422 then 2
  else 1.

(** The [dma_channel_configure] calls of [camera_do_frame], one per plane. *)
Definition dma_arm_calls (cam : camera) (platform : camera_platform_config)
    (buf : camera_buffer) : list hw_event :=
  map (fun i =>
         EvDmaChannelConfigure
           (arr_get 0 (cam_dma_channels cam) i)
           (arr_get dma_channel_config_zero (cfg_dma_cfgs (cam_config cam)) i)
           (arr_get NULL (buf_data buf) i)
           (pio platform) (i + 1) (arr_get 0 (cfg_dma_offset (cam_config cam)) i)
           (arr_get 0 (cfg_dma_transfers (cam_config cam)) i)
           true)
      (seqZ 0 (format_num_planes (cfg_format (cam_config cam)))).

(** What one [sleep_ms(1)] of the blocking wait lets happen: the frame
    interrupt of a PIO instance may be served. *)
Definition serve_irq (irq : option PIO) : M unit :=
  match irq with
  | Some p => camera_isr p
  | None => mret tt
  end.

(** [while (camera->pending) sleep_ms(1);] against a schedule that tells,
    for each sleep, which frame interrupt (if any) is served during it. *)
Fixpoint wait_pending (irqs : list (option PIO)) (camera : Z) : M unit :=
  cam ← load_camera camera;
  if cam_pending cam =? NULL then mret tt
  else
    match irqs with
    | [] => raise NoCompletion
    | irq :: irqs' =>
        emit [EvSleepMs 1];;
        serve_irq irq;;
        wait_pending irqs' camera
    end.

Definition config_differs (cfg : camera_config) (buf : camera_buffer) : bool :=
  negb (cfg_format cfg =? buf_format buf)
  || negb (cfg_width cfg =? buf_width buf)
  || negb (cfg_height cfg =? buf_height buf).

(** The part of [camera_do_frame] after the configuration check. *)
Definition camera_start_frame (irqs : list (option PIO)) (camera buf : Z)
    (complete_cb cb_data : Z) (blocking : bool) : M Z :=
  cam ← load_camera camera;
  b ← load_buffer buf;
  platform ← platform_of cam;
  emit (dma_arm_calls cam platform b);;
  let num_loops := Z.quot (buf_width b) (camera_pixels_per_chunk (buf_format b)) in
  store_camera camera (set_cam_pending buf complete_cb cb_data cam);;
  emit [EvCameraPioTriggerFrame (pio platform) num_loops (buf_height b)];;
  (if blocking then wait_pending irqs camera else mret tt);;
  mret 0.

(** The world a non-blocking [camera_start_frame] leaves behind: the DMA
    channels armed, the pending slot occupied, the frame triggered. *)
Definition started_world (ptr buf complete_cb cb_data : Z)
    (platform : camera_platform_config) (cam : camera) (b : camera_buffer)
    (w : world) : world :=
  set_w_trace
    (w_trace w
     ++ dma_arm_calls cam platform b
     ++ [EvCameraPioTriggerFrame (pio platform)
           (Z.quot (buf_width b) (camera_pixels_per_chunk (buf_format b)))
           (buf_height b)])
    (set_w_cams (<[ptr := set_cam_pending buf complete_cb cb_data cam]> (w_cams w)) w).

Definition camera_do_frame (irqs : list (option PIO)) (camera buf : Z)
    (complete_cb cb_data : Z) (allow_reconfigure blocking : bool) : M Z :=
  cam ← load_camera camera;
  if negb (cam_pending cam =? NULL) then mret (-2)
  else
    b ← load_buffer buf;
    if config_differs (cam_config cam) b then
      if allow_reconfigure then
        camera_configure camera (buf_format b) (buf_width b) (buf_height b);;
        camera_start_frame irqs camera buf complete_cb cb_data blocking
      else mret (-1)
    else camera_start_frame irqs camera buf complete_cb cb_data blocking.

Definition camera_capture_blocking (irqs : list (option PIO)) (camera into : Z)
    (allow_reconfigure : bool) : M Z :=
  camera_do_frame irqs camera into NULL NULL allow_reconfigure true.

Definition camera_capture_with_cb (camera into : Z) (allow_reconfigure : bool)
    (complete_cb cb_data : Z) : M Z :=
  camera_do_frame [] camera into complete_cb cb_data allow_reconfigure false.

(** ** camera.c: buffers *)

Definition set_buf_plane (i stride size data : Z) (b : camera_buffer) : camera_buffer := {|
  buf_format := buf_format b;
  buf_width := buf_width b;
  buf_height := buf_height b;
  buf_strides := arr_set (buf_strides b) i stride;
  buf_sizes := arr_set (buf_sizes b) i size;
  buf_data := arr_set (buf_data b) i data
|}.

(** The allocation loop of [camera_buffer_alloc], from plane [i], [n] planes
    to go; [false] is the jump to [error]. *)
Fixpoint alloc_planes (format width height : Z) (buf : Z) (n : nat) (i : Z) : M bool :=
  match n with
  | O => mret true
  | S n' =>
      b ← load_buffer buf;
      let stride := format_stride format i width in
      let size := format_plane_size format i width height in
      data ← malloc size;
      store_buffer buf (set_buf_plane i stride size data b);;
      if data =? NULL then mret false
      else alloc_planes format width height buf n' (i + 1)
  end.

(** [for (i < num_planes) if (buf->data[i]) free(buf->data[i]);] *)
Definition free_planes (buf : Z) (num_planes : Z) : M unit :=
  for_loop (Z.to_nat num_planes) 0 (fun i =>
    b ← load_buffer buf;
    if negb (arr_get NULL (buf_data b) i =? NULL) then free (arr_get NULL (buf_data b) i)
    else mret tt).

Definition camera_buffer_alloc (format width height : Z) : M Z :=
  buf ← malloc sizeof_camera_buffer;
  if buf =? NULL then mret NULL
  else
    store_buffer buf
      {| buf_format := format; buf_width := width; buf_height := height;
         buf_strides := [0; 0; 0]; buf_sizes := [0; 0; 0];
         buf_data := [NULL; NULL; NULL] |};;
    let num_planes := format_num_planes format in
    alloc_planes format width height buf (Z.to_nat num_planes) 0 ≫= fun ok : bool =>
    if ok then mret buf
    else
      free_planes buf num_planes;;
      free buf;;
      mret NULL.

(** Addresses from [w_brk] on are unused, and [malloc] never returns 0. *)
Definition heap_wf (w : world) : Prop :=
  0 < w_brk w
  /\ forall a, w_brk w <= a -> w_heap w !! a = None /\ w_bufs w !! a = None.

(** Whether one of the next [n] calls of [malloc] fails. *)
Definition malloc_fails_within (n : nat) (fails : list bool) : bool :=
  existsb (fun failed : bool => failed) (take n fails).

Definition camera_buffer_free (buf : Z) : M unit :=
  if buf =? NULL then mret tt
  else
    b ← load_buffer buf;
    free_planes buf (format_num_planes (buf_format b));;
    free buf.

(** ** What a call leaves alone *)

(** The two worlds hold the same objects, interrupt contexts, claimed DMA
    channels and heap blocks. *)
Definition same_memory (w w' : world) : Prop :=
  w_cams w' = w_cams w /\ w_bufs w' = w_bufs w /\ w_irq_ctxs w' = w_irq_ctxs w
  /\ w_dma_claimed w' = w_dma_claimed w /\ w_heap w' = w_heap w.

End Driver.

Arguments Ok {H A} a w.
Arguments Fault {H A} f.
(** * LCD.c: the display, pixel by pixel

    The display functions act on the GPIO pins of the controller and on the
    SPI transfer function of the platform; both are recorded, oldest first.
    A run stops ([Undefined]) where the C program leaves defined behaviour:
    on a read through a null pointer or past the end of an array, and on
    a signed overflow.  The no-operation instructions around the pin writes
    leave no trace. *)

Module Lcd.

Definition to_u16 (z : Z) : Z := z mod 2 ^ 16.

(** ** SSD1283A.h, LCD.h *)

Definition SSD1283A_CMD_SET_GDDRAM_XY : Z := 0x21.
Definition SSD1283A_CMD_RAM_WRITE : Z := 0x22.
Definition SSD1283A_CMD_HORIZONTAL_RAM_ADDR : Z := 0x44.
Definition SSD1283A_CMD_VERTICAL_RAM_ADDR : Z := 0x45.

Record SSD1283A_pins : Type := { cs : Z; dc : Z; rst : Z; led : Z }.

Record lcd_platform_config : Type := { spi_handle : Z; base_dma_channel : Z }.

(** [pins] and [platform] are pointers; [None] is the null pointer. *)
Record SSD1283A_host : Type := {
  pins : option SSD1283A_pins;
  platform : option lcd_platform_config
}.

(** [struct LCD]; the display functions only use [driver_host]. *)
Record LCD : Type := { driver_host : SSD1283A_host }.

(** ** The pins and the SPI bus *)

Inductive lcd_op : Type :=
| GpioPut (pin : Z) (level : bool)
| SpiWrite (spi : Z) (bytes : list Z).

Inductive outcome (A : Type) : Type :=
| Shown (a : A) (log : list lcd_op)
| Undefined (log : list lcd_op).

Arguments Shown {A} a log.
Arguments Undefined {A} log.

Definition Display (A : Type) : Type := list lcd_op -> outcome A.

#[global] Instance Display_ret : MRet Display := fun A a log => Shown a log.

#[global] Instance Display_bind : MBind Display := fun A B f m log =>
  match m log with
  | Shown a log' => f a log'
  | Undefined log' => Undefined log'
  end.

Definition undefined {A : Type} : Display A := fun log => Undefined log.

Definition put (ops : list lcd_op) : Display unit := fun log => Shown tt (log ++ ops).

(** [gpio_put(host->pins->..., level)] *)
Definition gpio_put_pin (host : SSD1283A_host) (pin : SSD1283A_pins -> Z) (level : bool)
  : Display unit :=
  match pins host with
  | Some p => put [GpioPut (pin p) level]
  | None => undefined
  end.

(** [pcfg->spi_write_blocking(pcfg->spi_handle, bytes, len)] *)
Definition spi_write (pcfg : option lcd_platform_config) (bytes : list Z)
  : Display unit :=
  match pcfg with
  | Some c => put [SpiWrite (spi_handle c) bytes]
  | None => undefined
  end.

(** ** LCD.c *)

Definition cs_select (host : SSD1283A_host) : Display unit := gpio_put_pin host cs false.
Definition cs_deselect (host : SSD1283A_host) : Display unit := gpio_put_pin host cs true.
Definition dc_command (host : SSD1283A_host) : Display unit := gpio_put_pin host dc false.
Definition dc_data (host : SSD1283A_host) : Display unit := gpio_put_pin host dc true.

Definition SSD1283A_write_command (host : SSD1283A_host)
    (pcfg : option lcd_platform_config) (command : Z) : Display unit :=
  cs_select host;;
  dc_command host;;
  spi_write pcfg [to_u8 command];;
  cs_deselect host.

Definition SSD1283A_write_data (host : SSD1283A_host)
    (pcfg : option lcd_platform_config) (data : Z) : Display unit :=
  cs_select host;;
  dc_data host;;
  spi_write pcfg [to_u8 data];;
  cs_deselect host.

Definition SSD1283A_write_register (host : SSD1283A_host)
    (pcfg : option lcd_platform_config) (reg value : Z) : Display unit :=
  let value := to_u16 value in
  cs_select host;;
  dc_command host;;
  spi_write pcfg [to_u8 reg];;
  dc_data host;;
  spi_write pcfg [to_u8 (Z.shiftr value 8); to_u8 (Z.land value 0xFF)];;
  cs_deselect host.

Definition SSD1283A_write_color_16bit (host : SSD1283A_host)
    (pcfg : option lcd_platform_config) (color : Z) : Display unit :=
  let color := to_u16 color in
  let buf := [to_u8 (Z.shiftr color 8); to_u8 (Z.land color 0xFF)] in
  cs_select host;;
  dc_data host;;
  spi_write pcfg buf;;
  cs_deselect host.

(** [for (uint32_t i = 0; i < n; i++) SSD1283A_write_color_16bit(..., color)] *)
Fixpoint fill_loop (host : SSD1283A_host) (pcfg : option lcd_platform_config)
    (n : nat) (color : Z) : Display unit :=
  match n with
  | O => mret tt
  | S n' =>
      SSD1283A_write_color_16bit host pcfg color;;
      fill_loop host pcfg n' color
  end.

Definition lcd_fill_screen (lcd : LCD) (color : Z) : Display unit :=
  let x_start := 0 in
  let x_end := 135 - 1 in
  let y_start := 0 in
  let y_end := 135 - 1 in
  let host := driver_host lcd in
  let pcfg := platform (driver_host lcd) in
  SSD1283A_write_register host pcfg SSD1283A_CMD_HORIZONTAL_RAM_ADDR
    (Z.lor (Z.shiftl x_end 8) x_start);;
  SSD1283A_write_register host pcfg SSD1283A_CMD_VERTICAL_RAM_ADDR
    (Z.lor (Z.shiftl y_end 8) y_start);;
  SSD1283A_write_command host pcfg SSD1283A_CMD_SET_GDDRAM_XY;;
  SSD1283A_write_data host pcfg x_start;;
  SSD1283A_write_data host pcfg y_start;;
  SSD1283A_write_command host pcfg SSD1283A_CMD_RAM_WRITE;;
  fill_loop host pcfg (Z.to_nat (to_u32 ((x_end - x_start) * (y_end - y_start)))) color.

(** [for (uint32_t i = 0; i < n; i++) SSD1283A_write_color_16bit(..., color[i])],
    on the elements of the array from index [i] on, [n - i] iterations to
    go; the array has no element left when the list is empty. *)
Fixpoint image_loop (host : SSD1283A_host) (pcfg : option lcd_platform_config)
    (n : Z) (color : list Z) {struct color} : Display unit :=
  if n <=? 0 then mret tt
  else
    match color with
    | [] => undefined
    | px :: rest =>
        SSD1283A_write_color_16bit host pcfg px;;
        image_loop host pcfg (n - 1) rest
    end.

(** The bound of the loop is a product of two [int]s, compared with the
    [uint32_t] counter after conversion to [uint32_t]. *)
Definition lcd_show_image (lcd : LCD) (width height : Z) (color : list Z)
  : Display unit :=
  let x_start := 30 in
  let x_end := to_u16 (width - 1) in
  let y_start := 30 in
  let y_end := to_u16 (height - 1) in
  let host := driver_host lcd in
  let pcfg := platform (driver_host lcd) in
  SSD1283A_write_register host pcfg SSD1283A_CMD_HORIZONTAL_RAM_ADDR
    (Z.lor (Z.shiftl x_end 8) x_start);;
  SSD1283A_write_register host pcfg SSD1283A_CMD_VERTICAL_RAM_ADDR
    (Z.lor (Z.shiftl y_end 8) y_start);;
  SSD1283A_write_command host pcfg SSD1283A_CMD_SET_GDDRAM_XY;;
  SSD1283A_write_data host pcfg x_start;;
  SSD1283A_write_data host pcfg y_start;;
  SSD1283A_write_command host pcfg SSD1283A_CMD_RAM_WRITE;;
  let n := (x_end - x_start) * (y_end - y_start) in
  if (n <? - 2 ^ 31) || (2 ^ 31 <=? n) then undefined
  else image_loop host pcfg (to_u32 n) color.

(** ** The traffic of the calls *)

(** One [SSD1283A_write_color_16bit]. *)
Definition pixel_ops (p : SSD1283A_pins) (c : lcd_platform_config) (color : Z)
  : list lcd_op :=
  [ GpioPut (cs p) false; GpioPut (dc p) true;
    SpiWrite (spi_handle c) [to_u16 color / 256; to_u16 color mod 256];
    GpioPut (cs p) true ].

(** One [SSD1283A_write_register], [SSD1283A_write_command],
    [SSD1283A_write_data]. *)
Definition register_ops (p : SSD1283A_pins) (c : lcd_platform_config) (reg hi lo : Z)
  : list lcd_op :=
  [ GpioPut (cs p) false; GpioPut (dc p) false; SpiWrite (spi_handle c) [reg];
    GpioPut (dc p) true; SpiWrite (spi_handle c) [hi; lo]; GpioPut (cs p) true ].

Definition command_ops (p : SSD1283A_pins) (c : lcd_platform_config) (command : Z)
  : list lcd_op :=
  [ GpioPut (cs p) false; GpioPut (dc p) false; SpiWrite (spi_handle c) [command];
    GpioPut (cs p) true ].

Definition data_ops (p : SSD1283A_pins) (c : lcd_platform_config) (data : Z)
  : list lcd_op :=
  [ GpioPut (cs p) false; GpioPut (dc p) true; SpiWrite (spi_handle c) [data];
    GpioPut (cs p) true ].

(** Setting the window from ([x_start], [y_start]) to ([x_end], [y_end]),
    each below 256, and the write position to its first pixel. *)
Definition window_ops (p : SSD1283A_pins) (c : lcd_platform_config)
    (x_start x_end y_start y_end : Z) : list lcd_op :=
  register_ops p c SSD1283A_CMD_HORIZONTAL_RAM_ADDR x_end x_start
  ++ register_ops p c SSD1283A_CMD_VERTICAL_RAM_ADDR y_end y_start
  ++ command_ops p c SSD1283A_CMD_SET_GDDRAM_XY
  ++ data_ops p c x_start
  ++ data_ops p c y_start
  ++ command_ops p c SSD1283A_CMD_RAM_WRITE.

End Lcd.


(** * Concrete inputs on the simulated platform *)

Module Scenario.

#[local] Existing Instance Sim.sdk.

Definition platform_a : camera_platform_config :=
  {| i2c_handle := 0; pio := pio0; xclk_pin := 21; xclk_divider := 8;
     base_pin := 0; base_dma_channel := 0 |}.

Definition platform_b : camera_platform_config :=
  {| i2c_handle := 0; pio := pio1; xclk_pin := 21; xclk_divider := 8;
     base_pin := 0; base_dma_channel := -1 |}.

(** A buffer of 160 x 120 RGB565 pixels in static storage at address 5000. *)
Definition buffer_160x120 : camera_buffer :=
  {| buf_format := FORMAT_RGB565; buf_width := 160; buf_height := 120;
     buf_strides := [320; 0; 0]; buf_sizes := [38400; 0; 0];
     buf_data := [6000; NULL; NULL] |}.

(** Two buffers of 80 x 60 pixels in static storage: YUV422 at address
    5100, RGB565 at address 5200. *)
Definition buffer_80x60_yuv : camera_buffer :=
  {| buf_format := FORMAT_YUV422; buf_width := 80; buf_height := 60;
     buf_strides := [80; 40; 40]; buf_sizes := [4800; 2400; 2400];
     buf_data := [7000; 11800; 14200] |}.

Definition buffer_80x60_rgb : camera_buffer :=
  {| buf_format := FORMAT_RGB565; buf_width := 80; buf_height := 60;
     buf_strides := [160; 0; 0]; buf_sizes := [9600; 0; 0];
     buf_data := [17000; NULL; NULL] |}.

(** The system at boot: no context, no DMA channel claimed, the three
    static buffers, an empty heap starting at address 65536, and a sensor
    that answers one read of its identification register. *)
Definition w_boot : world :=
  {| w_cams := ∅;
     w_bufs := <[5200 := buffer_80x60_rgb]>
                 (<[5100 := buffer_80x60_yuv]> {[ 5000 := buffer_160x120 ]});
     w_irq_ctxs := [NULL; NULL]; w_dma_claimed := ∅;
     w_heap := ∅; w_brk := 65536; w_malloc_fail := [];
     w_bus := [118]; w_trace := []; w_cb_found := [] |}.

(** The same system without a sensor on the bus, and with DMA channel 0 in
    use by another driver of the program. *)
Definition w_no_sensor : world :=
  set_w_dma_claimed {[ 0 ]} (set_w_bus [] w_boot).

(** The world a run ends in ([w_boot] if it stops on a fault). *)
Definition world_after {A : Type} (r : result A) : world :=
  match r with
  | Ok _ w => w
  | Fault _ => w_boot
  end.

(** Context B, at address 2000: its initialisation on PIO1 finds no sensor
    and fails. *)
Definition w_b_failed : world :=
  world_after (camera_init 2000 platform_b w_no_sensor).

Definition w_b_terminated : world :=
  world_after (camera_term 2000 w_b_failed).

(** A capture on the failed context B into the 160 x 120 buffer, with
    reconfiguration allowed. *)
Definition w_b_capturing : world :=
  world_after (camera_capture_with_cb 2000 5000 true 7 9 w_b_failed).

(** Context A, at address 1000, in the state the statements of [camera_init]
    after the sensor start-up produce on PIO0 with channels 0, 1 and 2: the
    channels claimed and stored, the program offsets stored, the context
    registered for the frame interrupt of PIO0. *)
Definition camera_a : camera :=
  {| cam_driver_host :=
       {| host_pins := Some {| pin_enable := -1; pin_reset := -1 |};
          host_platform := Some platform_a |};
     cam_frame_offset := 4; cam_shift_byte_offset := 0;
     cam_dma_channels := [0; 1; 2];
     cam_config := camera_config_zero;
     cam_pending := NULL; cam_pending_cb := NULL; cam_cb_data := NULL |}.

Definition w_a_ready : world :=
  {| w_cams := {[ 1000 := camera_a ]};
     w_bufs := w_bufs w_boot;
     w_irq_ctxs := [1000; NULL]; w_dma_claimed := {[ 0; 1; 2 ]};
     w_heap := ∅; w_brk := 65536; w_malloc_fail := [];
     w_bus := []; w_trace := []; w_cb_found := [] |}.

(** Context A holding the configuration the statements of [camera_configure]
    after the sensor calls compute for RGB565 at 80 x 60. *)
Definition w_a_rgb : world :=
  set_w_cams {[ 1000 := configured_camera platform_a FORMAT_RGB565 80 60 camera_a ]}
    w_a_ready.

(** Then a capture into the 160 x 120 buffer with reconfiguration allowed. *)
Definition w_a_capturing : world :=
  world_after (camera_capture_with_cb 1000 5000 true 7 9 w_a_rgb).

(** The context stored at an address. *)
Definition camera_at (p : Z) (w : world) : camera :=
  default camera_zero (w_cams w !! p).

(** A sensor port on which nothing has happened yet and every read is
    answered with 0xA5. *)
Definition port_quiet : Ov7670.port :=
  {| Ov7670.port_answer := fun _ => 0xA5; Ov7670.port_log := [] |}.

(** Four pixels in memory. *)
Definition four_pixels : list Z := [0x1234; 0x00FF; 0x8000; 0x7F7F].

(** The display as [lcd_init] leaves it, with the pins of [LCD.c], on SPI
    instance 0. *)
Definition lcd_ready : Lcd.LCD :=
  {| Lcd.driver_host :=
       {| Lcd.pins := Some {| Lcd.cs := 17; Lcd.dc := 16; Lcd.rst := 20; Lcd.led := 22 |};
          Lcd.platform := Some {| Lcd.spi_handle := 0; Lcd.base_dma_channel := -1 |} |} |}.

End Scenario.

(** * Properties *)

Section DriverFacts.

Context `{PicoSdk}.

(** ** Facts about the format calculus *)

Lemma format_num_planes_unsupported format :
  ~ supported_format format -> format_num_planes format = 0.
Proof.
  unfold supported_format, format_num_planes. intros Hn.
  destruct (Z.eqb_spec format FORMAT_YUYV); [tauto|].
  destruct (Z.eqb_spec format FORMAT_RGB565); [tauto|].
  destruct (Z.eqb_spec format FORMAT_YUV422); [tauto|]. reflexivity.
Qed.

Lemma format_num_planes_cases format :
  (format = FORMAT_YUYV /\ format_num_planes format = 1) \/
  (format = FORMAT_RGB565 /\ format_num_planes format = 1) \/
  (format = FORMAT_YUV422 /\ format_num_planes format = 3) \/
  (~ supported_format format /\ format_num_planes format = 0).
Proof.
  destruct (Z.eq_dec format FORMAT_YUYV) as [-> | H1]; [left; split; reflexivity|].
  destruct (Z.eq_dec format FORMAT_RGB565) as [-> | H2];
    [right; left; split; reflexivity|].
  destruct (Z.eq_dec format FORMAT_YUV422) as [-> | H3];
    [right; right; left; split; reflexivity|].
  right; right; right.
  assert (~ supported_format format) by (unfold supported_format; tauto).
  split; [assumption | now apply format_num_planes_unsupported].
Qed.

Lemma format_stride_exact format plane width :
  supported_format format -> is_u16 width ->
  format_stride format plane width =
  format_bytes_per_pixel format plane * width / format_hsub format plane.
Proof.
  unfold is_u16, format_stride, to_u32. intros Hf Hw.
  assert (Hb : 0 <= format_bytes_per_pixel format plane <= 2)
    by (destruct Hf as [-> | [-> | ->]]; cbn; lia).
  assert (Hh : 1 <= format_hsub format plane <= 2).
  { unfold format_hsub. destruct (format =? FORMAT_YUV422); [|lia].
    destruct (plane =? 0); lia. }
  rewrite Z.quot_div_nonneg by nia.
  apply Z.mod_small. split.
  - apply Z.div_pos; nia.
  - apply Z.div_lt_upper_bound; nia.
Qed.

(** C3 (the claim as written fails): for the packed 16-bit format at
    65535 x 65535 the plane size returned by [format_plane_size] is not the
    integer product of the stride and the height, because the product is
    reduced to 32 bits. *)
Lemma format_plane_size_wraps :
  format_plane_size FORMAT_RGB565 0 65535 65535 <>
  format_stride FORMAT_RGB565 0 65535 * 65535.
Proof. vm_compute. discriminate. Qed.

(** C3 (amended): for every supported format, every plane below its plane
    count and every 16-bit width and height, the stride is exactly
    bytes-per-pixel * width / hsub, where hsub is 1 except on the two chroma
    planes of the planar format (hsub 2, one byte per pixel); the plane size
    is stride * height reduced modulo 2^32, hence exactly stride * height
    whenever that product is below 2^32. *)
Theorem format_calculus_relations format plane width height :
  supported_format format ->
  0 <= plane < format_num_planes format ->
  is_u16 width -> is_u16 height ->
  format_stride format plane width =
    format_bytes_per_pixel format plane * width / format_hsub format plane
  /\ format_plane_size format plane width height =
       (format_stride format plane width * height) mod 2 ^ 32
  /\ (format_stride format plane width * height < 2 ^ 32 ->
      format_plane_size format plane width height =
        format_stride format plane width * height)
  /\ format_hsub format plane =
       (if (format =? FORMAT_YUV422) && negb (plane =? 0) then 2 else 1)
  /\ (format = FORMAT_YUV422 -> format_bytes_per_pixel format plane = 1).
Proof.
  intros Hf Hp Hw Hh.
  pose proof (format_stride_exact format plane width Hf Hw) as Hs.
  repeat split.
  - exact Hs.
  - intros Hlt. unfold format_plane_size, to_u32. apply Z.mod_small.
    split; [|exact Hlt].
    unfold format_stride, to_u32.
    apply Z.mul_nonneg_nonneg; [apply Z.mod_pos_bound; lia | apply Hh].
  - unfold format_hsub. destruct (format =? FORMAT_YUV422); [|reflexivity].
    destruct (plane =? 0); reflexivity.
  - intros ->. reflexivity.
Qed.

Lemma format_calculus_relations_witness :
  format_stride FORMAT_YUV422 1 80 =
    format_bytes_per_pixel FORMAT_YUV422 1 * 80 / format_hsub FORMAT_YUV422 1
  /\ format_plane_size FORMAT_YUV422 1 80 60 =
       (format_stride FORMAT_YUV422 1 80 * 60) mod 2 ^ 32
  /\ (format_stride FORMAT_YUV422 1 80 * 60 < 2 ^ 32 ->
      format_plane_size FORMAT_YUV422 1 80 60 =
        format_stride FORMAT_YUV422 1 80 * 60)
  /\ format_hsub FORMAT_YUV422 1 =
       (if (FORMAT_YUV422 =? FORMAT_YUV422) && negb (1 =? 0) then 2 else 1)
  /\ (FORMAT_YUV422 = FORMAT_YUV422 -> format_bytes_per_pixel FORMAT_YUV422 1 = 1).
Proof.
  apply (format_calculus_relations FORMAT_YUV422 1 80 60).
  - right; right; reflexivity.
  - vm_compute; split; [discriminate | reflexivity].
  - vm_compute; split; [discriminate | reflexivity].
  - vm_compute; split; [discriminate | reflexivity].
Defined.
(** ** The sensor driver never comes back from a command list *)

Lemma write_list_run platform cmd p :
  Forall (fun c => 0 <= Ov7670.cmd_reg c <= 255) cmd ->
  Ov7670.OV7670_write_list platform cmd p =
  Ov7670.OutOfBounds
    {| Ov7670.port_answer := Ov7670.port_answer p;
       Ov7670.port_log := Ov7670.port_log p ++ Ov7670.command_writes platform cmd |}.
Proof.
  intros Hbytes. revert p. induction Hbytes as [|c cmd Hc _ IH]; intros p.
  - cbn. rewrite app_nil_r. now destruct p.
  - cbn [Ov7670.OV7670_write_list].
    replace (Ov7670.cmd_reg c <=? Ov7670.OV7670_REG_LAST) with true
      by (symmetry; apply Z.leb_le; unfold Ov7670.OV7670_REG_LAST; lia).
    unfold mbind, Ov7670.Sensor_bind, Ov7670.OV7670_write_register,
      Ov7670.OV7670_delay_ms, Ov7670.log_ops.
    rewrite IH. cbn [Ov7670.port_answer Ov7670.port_log Ov7670.command_writes flat_map].
    now rewrite <- !app_assoc.
Qed.

Lemma set_format_run platform colorspace p :
  Ov7670.OV7670_set_format platform colorspace p =
  Ov7670.OutOfBounds
    {| Ov7670.port_answer := Ov7670.port_answer p;
       Ov7670.port_log :=
         Ov7670.port_log p
         ++ Ov7670.command_writes platform
              (if colorspace =? OV7670_COLOR_RGB
               then Ov7670.OV7670_rgb else Ov7670.OV7670_yuv) |}.
Proof.
  unfold Ov7670.OV7670_set_format, mbind, Ov7670.Sensor_bind.
  destruct (colorspace =? OV7670_COLOR_RGB);
    (rewrite write_list_run;
     [reflexivity | repeat constructor; vm_compute; intuition discriminate]).
Qed.

Ltac begin_run :=
  unfold mbind, Ov7670.Sensor_bind, mret, Ov7670.Sensor_ret,
    Ov7670.OV7670_write_register, Ov7670.OV7670_delay_ms, Ov7670.OV7670_pin_output,
    Ov7670.OV7670_pin_write, Ov7670.log_ops, Ov7670.out_of_bounds,
    Ov7670.pins_of, Ov7670.platform_of_host;
  cbn [Ov7670.port_answer Ov7670.port_log host_pins host_platform pin_enable pin_reset];
  rewrite ?set_format_run;
  cbv iota beta.

Lemma begin_stops host colorspace size p :
  exists p', Ov7670.OV7670_begin host colorspace size p = Ov7670.OutOfBounds p'.
Proof.
  destruct host as [[[enable reset]|] [platform|]];
    unfold Ov7670.OV7670_begin;
    repeat progress begin_run;
    try (destruct (0 <=? enable); repeat progress begin_run);
    try (destruct (0 <=? reset); repeat progress begin_run);
    eexists; reflexivity.
Qed.

Lemma OV7670_set_format_stops platform colorspace w :
  OV7670_set_format platform colorspace w = Fault OutOfBounds.
Proof.
  unfold OV7670_set_format, run_sensor. now rewrite set_format_run.
Qed.

Lemma OV7670_begin_stops host colorspace size w :
  OV7670_begin host colorspace size w = Fault OutOfBounds.
Proof.
  unfold OV7670_begin, run_sensor.
  now destruct (begin_stops host colorspace size (sensor_port w)) as [p' ->].
Qed.


(** ** Reasoning about the monad *)

Ltac wsimpl :=
  cbn [w_cams w_bufs w_irq_ctxs w_dma_claimed w_heap w_brk w_malloc_fail w_bus w_trace
       w_cb_found
       set_w_cams set_w_bufs set_w_irq_ctxs set_w_dma_claimed set_w_heap set_w_bus
       set_w_trace set_w_cb_found].

Ltac mrun := unfold mbind, M_bind, mret, M_ret; wsimpl.

Lemma bind_ok {A B : Type} (m : M A) (f : A -> M B) w a w1 :
  m w = Ok a w1 -> (m ≫= f) w = f a w1.
Proof. intros Hm. unfold mbind, M_bind. now rewrite Hm. Qed.

Lemma bind_fault {A B : Type} (m : M A) (f : A -> M B) w e :
  m w = Fault e -> (m ≫= f) w = Fault e.
Proof. intros Hm. unfold mbind, M_bind. now rewrite Hm. Qed.

Lemma bind_inv {A B : Type} (m : M A) (f : A -> M B) w b w' :
  (m ≫= f) w = Ok b w' -> exists a w1, m w = Ok a w1 /\ f a w1 = Ok b w'.
Proof.
  unfold mbind, M_bind. destruct (m w) as [a w1|e]; [|discriminate].
  intros Hf. now exists a, w1.
Qed.

Lemma load_camera_ok camera cam w :
  w_cams w !! camera = Some cam -> load_camera camera w = Ok cam w.
Proof. intros Hc. unfold load_camera. now rewrite Hc. Qed.

Lemma load_buffer_ok buf b w :
  w_bufs w !! buf = Some b -> load_buffer buf w = Ok b w.
Proof. intros Hb. unfold load_buffer. now rewrite Hb. Qed.

Lemma camera_start_frame_code irqs camera buf cb data blocking w r w' :
  camera_start_frame irqs camera buf cb data blocking w = Ok r w' -> r = 0.
Proof.
  unfold camera_start_frame. intros Hrun.
  repeat (apply bind_inv in Hrun; destruct Hrun as (? & ? & _ & Hrun)).
  unfold mret, M_ret in Hrun. congruence.
Qed.

(** ** Capture while a request is pending *)

(** C1: when the pending-request slot of a context is occupied,
    [camera_do_frame] (and with it [camera_capture_blocking] and
    [camera_capture_with_cb]) returns -2 and leaves the whole world as it
    was: the pending buffer, callback and user data, the configuration and
    the hardware trace.  -2 is the busy code only: a call on an idle context
    that returns at all returns 0 or -1. *)
Theorem camera_do_frame_busy irqs camera cam buf cb data allow blocking w :
  w_cams w !! camera = Some cam ->
  (cam_pending cam <> NULL ->
     camera_do_frame irqs camera buf cb data allow blocking w = Ok (-2) w
     /\ camera_capture_blocking irqs camera buf allow w = Ok (-2) w
     /\ camera_capture_with_cb camera buf allow cb data w = Ok (-2) w)
  /\ (cam_pending cam = NULL ->
      forall r w',
        camera_do_frame irqs camera buf cb data allow blocking w = Ok r w' ->
        r = 0 \/ r = -1).
Proof.
  intros Hcam. split.
  - intros Hp.
    assert (Hbusy : forall irqs' cb' data' blocking',
               camera_do_frame irqs' camera buf cb' data' allow blocking' w = Ok (-2) w).
    { intros. unfold camera_do_frame.
      rewrite (bind_ok _ _ _ _ _ (load_camera_ok _ _ _ Hcam)).
      destruct (Z.eqb_spec (cam_pending cam) NULL); [contradiction|reflexivity]. }
    repeat split; apply Hbusy.
  - intros Hp r w' Hrun. unfold camera_do_frame in Hrun.
    rewrite (bind_ok _ _ _ _ _ (load_camera_ok _ _ _ Hcam)) in Hrun.
    rewrite Hp in Hrun. change (NULL =? NULL) with true in Hrun. cbn [negb] in Hrun.
    apply bind_inv in Hrun. destruct Hrun as (b & w1 & _ & Hrun).
    destruct (config_differs (cam_config cam) b).
    + destruct allow.
      * apply bind_inv in Hrun. destruct Hrun as (? & ? & _ & Hrun).
        left. eapply camera_start_frame_code, Hrun.
      * right. unfold mret, M_ret in Hrun. congruence.
    + left. eapply camera_start_frame_code, Hrun.
Qed.

(** ** Configuration *)

Lemma foldl_configure_plane_host platform format width height planes cam :
  cam_driver_host (foldl (configure_plane platform format width height) cam planes)
  = cam_driver_host cam.
Proof.
  revert cam. induction planes as [|i planes IH]; intros cam; [reflexivity|].
  cbn [foldl]. now rewrite IH.
Qed.

Lemma configured_camera_host platform format width height cam :
  cam_driver_host (configured_camera platform format width height cam)
  = cam_driver_host cam.
Proof.
  unfold configured_camera, configure_geometry. cbn [cam_driver_host set_cam_config].
  now rewrite foldl_configure_plane_host.
Qed.

Lemma platform_of_ok cam platform w :
  host_platform (cam_driver_host cam) = Some platform ->
  platform_of cam w = Ok platform w.
Proof. intros Hp. unfold platform_of. now rewrite Hp. Qed.

Lemma camera_configure_rejects camera format width height w :
  width <> CAMERA_WIDTH_DIV8 \/ height <> CAMERA_HEIGHT_DIV8 ->
  camera_configure camera format width height w = Ok (-1) w.
Proof.
  intros Hne. unfold camera_configure.
  destruct (Z.eqb_spec width CAMERA_WIDTH_DIV8);
    destruct (Z.eqb_spec height CAMERA_HEIGHT_DIV8); cbn [negb orb];
    try reflexivity.
  tauto.
Qed.

Lemma camera_configure_stops camera cam platform format w :
  w_cams w !! camera = Some cam ->
  host_platform (cam_driver_host cam) = Some platform ->
  camera_configure camera format CAMERA_WIDTH_DIV8 CAMERA_HEIGHT_DIV8 w
  = Fault OutOfBounds.
Proof.
  intros Hcam Hp. unfold camera_configure.
  change (negb (CAMERA_WIDTH_DIV8 =? CAMERA_WIDTH_DIV8)
          || negb (CAMERA_HEIGHT_DIV8 =? CAMERA_HEIGHT_DIV8)) with false.
  cbv iota.
  rewrite (bind_ok _ _ _ _ _ (load_camera_ok _ _ _ Hcam)).
  rewrite (bind_ok _ _ _ _ _ (platform_of_ok _ _ _ Hp)).
  apply bind_fault, OV7670_set_format_stops.
Qed.

(** C5 (the code departs from the claim): [camera_configure] with a width or
    height other than 80 x 60 returns -1 and leaves the world (the context's
    format, width, height, DMA and state-machine configurations included) as
    it was, whatever the format.  With 80 x 60 it does not succeed: it calls
    [OV7670_set_format], which runs off the end of its command table, and
    never comes back, whatever the format. *)
Theorem camera_configure_outcome camera cam platform format width height w :
  w_cams w !! camera = Some cam ->
  host_platform (cam_driver_host cam) = Some platform ->
  (width <> CAMERA_WIDTH_DIV8 \/ height <> CAMERA_HEIGHT_DIV8 ->
     camera_configure camera format width height w = Ok (-1) w)
  /\ (width = CAMERA_WIDTH_DIV8 /\ height = CAMERA_HEIGHT_DIV8 ->
      camera_configure camera format width height w = Fault OutOfBounds).
Proof.
  intros Hcam Hp. split.
  - apply camera_configure_rejects.
  - intros [-> ->]. eapply camera_configure_stops; eassumption.
Qed.

Lemma length3_inv {A : Type} (l : list A) :
  length l = 3%nat -> exists a b c, l = [a; b; c].
Proof.
  destruct l as [|a [|b [|c [|d l]]]]; cbn; try discriminate.
  intros _. now exists a, b, c.
Qed.

Lemma length4_inv {A : Type} (l : list A) :
  length l = 4%nat -> exists a b c d, l = [a; b; c; d].
Proof.
  destruct l as [|a [|b [|c [|d [|e l]]]]]; cbn; try discriminate.
  intros _. now exists a, b, c, d.
Qed.

Ltac plane_cases Hf Hi i :=
  destruct Hf as [-> | [-> | ->]];
  [ change (format_num_planes FORMAT_YUYV) with 1 in Hi; assert (i = 0) by lia
  | change (format_num_planes FORMAT_RGB565) with 1 in Hi; assert (i = 0) by lia
  | change (format_num_planes FORMAT_YUV422) with 3 in Hi;
    assert (Hc : i = 0 \/ i = 1 \/ i = 2) by lia; destruct Hc as [? | [? | ?]] ];
  subst i.

(** C6 (the code departs from the claim): the per-plane statements of
    [camera_configure] compute, for plane [i] of a supported format on the
    supported size: the transfer width 32 bits for the single plane of
    either packed format, 16 bits for plane 0 and 8 bits for planes 1 and 2
    of the planar format; a DMA configuration built from the channel's
    default with that width, fixed read address, incrementing write address
    and the plane's receive data-request line; the offset 4 minus the
    transfer width in bytes; and as transfer count the plane's byte size
    divided by the transfer width in bytes.  But the call never reaches
    them: it stops before, in [OV7670_set_format], and the context is given
    none of these values. *)
Theorem camera_configure_dma_parameters_unreached camera cam platform format i w :
  supported_format format ->
  camera_wf cam ->
  w_cams w !! camera = Some cam ->
  host_platform (cam_driver_host cam) = Some platform ->
  0 <= i < format_num_planes format ->
  let xfer_size := camera_transfer_size format i in
  let xfer_bytes := __dma_transfer_size_to_bytes xfer_size in
  let cam' := configured_camera platform format CAMERA_WIDTH_DIV8 CAMERA_HEIGHT_DIV8 cam in
  camera_configure camera format CAMERA_WIDTH_DIV8 CAMERA_HEIGHT_DIV8 w
  = Fault OutOfBounds
  /\ xfer_size = (if format =? FORMAT_YUV422
                  then if i =? 0 then DMA_SIZE_16 else DMA_SIZE_8
                  else DMA_SIZE_32)
  /\ xfer_bytes * 8 = (if format =? FORMAT_YUV422
                       then if i =? 0 then 16 else 8
                       else 32)
  /\ cfg_dma_cfgs (cam_config cam') !! Z.to_nat i =
       Some (channel_config_set_dreq
               (channel_config_set_write_increment
                  (channel_config_set_read_increment
                     (channel_config_set_transfer_data_size
                        (dma_channel_get_default_config
                           (arr_get 0 (cam_dma_channels cam) i))
                        xfer_size)
                     false)
                  true)
               (pio_get_dreq (pio platform) (i + 1) false))
  /\ cfg_dma_offset (cam_config cam') !! Z.to_nat i = Some (4 - xfer_bytes)
  /\ cfg_dma_transfers (cam_config cam') !! Z.to_nat i =
       Some (format_plane_size format i CAMERA_WIDTH_DIV8 CAMERA_HEIGHT_DIV8
             / xfer_bytes).
Proof.
  intros Hf (Hch & Htr & Hoff & Hcfg & Hsm) Hcam Hp Hi xfer_size xfer_bytes cam'.
  split; [eapply camera_configure_stops; eassumption|].
  subst xfer_size xfer_bytes cam'.
  destruct cam as [host fo so chs cfg pend pcb pdata].
  destruct cfg as [cf cw chh trs offs cfgs sms]. cbn in Hch, Htr, Hoff, Hcfg, Hsm.
  apply length3_inv in Hch as (c0 & c1 & c2 & ->).
  apply length3_inv in Htr as (t0 & t1 & t2 & ->).
  apply length3_inv in Hoff as (o0 & o1 & o2 & ->).
  apply length3_inv in Hcfg as (g0 & g1 & g2 & ->).
  apply length4_inv in Hsm as (s0 & s1 & s2 & s3 & ->).
  plane_cases Hf Hi i; repeat split; reflexivity.
Qed.

Lemma arr_set_again_0 {A : Type} (l : list A) a :
  arr_set (arr_set l 0 a) 0 a = arr_set l 0 a.
Proof. destruct l; reflexivity. Qed.

Lemma arr_set_again_01 {A : Type} (l : list A) a b :
  arr_set (arr_set (arr_set (arr_set l 0 a) (0 + 1) b) 0 a) (0 + 1) b
  = arr_set (arr_set l 0 a) (0 + 1) b.
Proof. destruct l as [|? [|? ?]]; reflexivity. Qed.

Lemma arr_set_again_012 {A : Type} (l : list A) a b c :
  arr_set (arr_set (arr_set (arr_set (arr_set (arr_set l 0 a) 1 b) 2 c) 0 a) 1 b) 2 c
  = arr_set (arr_set (arr_set l 0 a) 1 b) 2 c.
Proof. destruct l as [|? [|? [|? ?]]]; reflexivity. Qed.

Lemma arr_set_again_0123 {A : Type} (l : list A) a b c d :
  arr_set (arr_set (arr_set (arr_set
    (arr_set (arr_set (arr_set (arr_set l 0 a) (0 + 1) b) (1 + 1) c) (2 + 1) d)
    0 a) (0 + 1) b) (1 + 1) c) (2 + 1) d
  = arr_set (arr_set (arr_set (arr_set l 0 a) (0 + 1) b) (1 + 1) c) (2 + 1) d.
Proof. destruct l as [|? [|? [|? [|? ?]]]]; reflexivity. Qed.

Ltac unfold_configured :=
  cbv [configured_camera configure_geometry configure_plane configure_frame_sm
       set_cam_config foldl CAMERA_PIO_FRAME_SM
       cam_driver_host cam_frame_offset cam_shift_byte_offset cam_dma_channels
       cam_config cam_pending cam_pending_cb cam_cb_data
       cfg_format cfg_width cfg_height cfg_dma_transfers cfg_dma_offset
       cfg_dma_cfgs cfg_sm_cfgs].

Lemma configured_camera_idempotent platform format width height cam :
  configured_camera platform format width height
    (configured_camera platform format width height cam)
  = configured_camera platform format width height cam.
Proof.
  destruct cam as [host fo so chs cfg pend pcb pdata].
  destruct cfg as [cf cw chh trs offs cfgs sms].
  destruct (format_num_planes_cases format)
    as [[-> Hn] | [[-> Hn] | [[-> Hn] | [_ Hn]]]];
    unfold configured_camera; rewrite Hn;
    [ change (seqZ 0 1) with [0] | change (seqZ 0 1) with [0]
    | change (seqZ 0 3) with [0; 1; 2] | change (seqZ 0 0) with (@nil Z) ];
    unfold_configured; f_equal; f_equal;
    first [ apply arr_set_again_0 | apply arr_set_again_01
          | apply arr_set_again_012 | apply arr_set_again_0123 ].
Qed.

(** C9 (the code departs from the claim): the writes of [camera_configure]
    to the context are idempotent: made a second time for the same format,
    width and height they leave format, width, height, per-plane DMA
    configurations, offsets, transfer counts and state-machine
    configurations exactly as the first time.  But on the supported size no
    call makes them even once: the first call stops in [OV7670_set_format]
    and never returns, so there is no second call. *)
Theorem camera_configure_never_twice camera cam platform format w :
  w_cams w !! camera = Some cam ->
  host_platform (cam_driver_host cam) = Some platform ->
  camera_configure camera format CAMERA_WIDTH_DIV8 CAMERA_HEIGHT_DIV8 w
  = Fault OutOfBounds
  /\ configured_camera platform format CAMERA_WIDTH_DIV8 CAMERA_HEIGHT_DIV8
       (configured_camera platform format CAMERA_WIDTH_DIV8 CAMERA_HEIGHT_DIV8 cam)
     = configured_camera platform format CAMERA_WIDTH_DIV8 CAMERA_HEIGHT_DIV8 cam.
Proof.
  intros Hcam Hp. split.
  - eapply camera_configure_stops; eassumption.
  - apply configured_camera_idempotent.
Qed.

(** ** Frame-completion interrupt *)

Lemma camera_isr_unfold p w :
  p <> pio_invalid ->
  camera_isr p w =
  (__camera_isr (arr_get NULL (w_irq_ctxs w) (irq_ctx_index p));;
   emit [EvPioInterruptClear p 0]) w.
Proof. destruct p; [reflexivity | reflexivity | contradiction]. Qed.

(** The world the handler leaves when it completes the request of [cam]:
    the callback, if there is one, called in the world the handler found,
    then the pending slot emptied, then the interrupt flag cleared. *)
Lemma camera_isr_completes p camera cam w :
  p <> pio_invalid ->
  arr_get NULL (w_irq_ctxs w) (irq_ctx_index p) = camera ->
  camera <> NULL ->
  w_cams w !! camera = Some cam ->
  cam_pending cam <> NULL ->
  camera_isr p w =
  Ok tt (set_w_trace
           (w_trace w
            ++ (if cam_pending_cb cam =? NULL then []
                else [EvFrameCb (cam_pending_cb cam) (cam_pending cam)
                        (cam_cb_data cam)])
            ++ [EvPioInterruptClear p 0])
           (set_w_cams
              (<[camera := set_cam_pending NULL (cam_pending_cb cam)
                             (cam_cb_data cam) cam]> (w_cams w))
              (set_w_cb_found
                 (w_cb_found w
                  ++ (if cam_pending_cb cam =? NULL then [] else [w_cams w]))
                 w))).
Proof.
  intros Hp Hctx Hnn Hcam Hpend. rewrite camera_isr_unfold by exact Hp.
  rewrite Hctx. unfold __camera_isr.
  destruct (Z.eqb_spec camera NULL) as [|_]; [contradiction|].
  unfold mbind at 1, M_bind at 1. unfold mbind at 1, M_bind at 1.
  rewrite (load_camera_ok _ _ _ Hcam).
  destruct (Z.eqb_spec (cam_pending cam) NULL) as [|_]; [contradiction|].
  destruct (cam_pending_cb cam =? NULL); mrun;
    unfold emit, store_camera, call_frame_cb; wsimpl.
  - destruct w; unfold set_w_trace, set_w_cams, set_w_cb_found; cbn.
    now rewrite app_nil_r.
  - unfold set_w_trace, set_w_cams, set_w_cb_found; wsimpl.
    now rewrite <- app_assoc.
Qed.

Lemma camera_isr_nothing_pending p w :
  p <> pio_invalid ->
  (arr_get NULL (w_irq_ctxs w) (irq_ctx_index p) = NULL
   \/ exists cam,
        w_cams w !! arr_get NULL (w_irq_ctxs w) (irq_ctx_index p) = Some cam
        /\ cam_pending cam = NULL) ->
  camera_isr p w = Ok tt (set_w_trace (w_trace w ++ [EvPioInterruptClear p 0]) w).
Proof.
  intros Hp Hidle. rewrite camera_isr_unfold by exact Hp.
  unfold __camera_isr.
  destruct Hidle as [-> | (cam & Hcam & Hpend)]; [reflexivity|].
  destruct (_ =? NULL); [reflexivity|].
  unfold mbind at 1, M_bind at 1. unfold mbind at 1, M_bind at 1.
  rewrite (load_camera_ok _ _ _ Hcam), Hpend. reflexivity.
Qed.


(** ** Buffer allocation *)

Ltac addr_lia := unfold NULL, sizeof_camera_buffer in *; lia.

(** One round of symbolic execution of the allocation code on a world
    given by its fields. *)
Ltac alloc_step :=
  unfold mbind, M_bind, mret, M_ret, load_buffer, store_buffer, malloc, free, free_planes;
  cbn [alloc_planes for_loop];
  unfold set_w_cams, set_w_bufs, set_w_irq_ctxs, set_w_dma_claimed, set_w_heap,
    set_w_bus, set_w_trace, set_w_cb_found;
  cbn [tail negb
       w_cams w_bufs w_irq_ctxs w_dma_claimed w_heap w_brk w_malloc_fail w_bus w_trace w_cb_found];
  change (0 + 1) with 1; change (1 + 1) with 2; change (2 + 1) with 3;
  unfold arr_get, arr_set, set_buf_plane;
  change (Z.to_nat 0) with 0%nat; change (Z.to_nat 1) with 1%nat;
  change (Z.to_nat 2) with 2%nat; change (Z.to_nat 3) with 3%nat;
  cbn [for_loop buf_format buf_width buf_height buf_strides buf_sizes buf_data
       default from_option id insert list_insert lookup list_lookup];
  change (NULL =? NULL) with true;
  repeat match goal with
         | |- context [ ?a =? NULL ] =>
             replace (a =? NULL) with false by (symmetry; apply Z.eqb_neq; addr_lia)
         end;
  rewrite ?lookup_delete_ne by addr_lia;
  rewrite ?lookup_insert_eq, ?insert_insert_eq;
  cbn [negb];
  cbv iota beta.

(** A map from which every inserted key was deleted again is the map it
    started as, when those keys were fresh. *)
Ltac map_restore Hfresh :=
  apply map_eq; intros k;
  repeat first [ rewrite lookup_delete | rewrite lookup_insert ];
  repeat case_decide; try reflexivity; try addr_lia;
  symmetry; apply Hfresh; addr_lia.

Ltac heap_lookup :=
  repeat (rewrite lookup_insert_ne by addr_lia); apply lookup_insert_eq.

Lemma plane_index_1 i : 0 <= i < 1 -> i = 0.
Proof. lia. Qed.

Lemma plane_index_3 i : 0 <= i < 3 -> i = 0 \/ i = 1 \/ i = 2.
Proof. lia. Qed.

Ltac built_plane :=
  split; [reflexivity|]; split; [reflexivity|];
  eexists; split; [reflexivity|]; split; [addr_lia | heap_lookup].

(** C4: for a supported format, [camera_buffer_alloc] always returns.  If
    the allocation of the structure or of one of the planes fails it
    returns NULL and the heap holds exactly the blocks, and the memory
    exactly the buffers, it held before the call.  Otherwise it returns a
    buffer whose stride and size are, plane by plane, the results of
    [format_stride] and [format_plane_size], each plane with a block of its
    size.  At 80 x 60 that is one plane of stride 160 and size 9600 for
    RGB565, and three planes of strides 80/40/40 and sizes 4800/2400/2400
    for YUV422. *)
Theorem camera_buffer_alloc_all_or_nothing format width height w :
  supported_format format ->
  heap_wf w ->
  (exists buf w',
     camera_buffer_alloc format width height w = Ok buf w'
     /\ if malloc_fails_within (S (Z.to_nat (format_num_planes format)))
             (w_malloc_fail w)
        then buf = NULL /\ w_heap w' = w_heap w /\ w_bufs w' = w_bufs w
        else buf <> NULL
             /\ exists b,
                 w_bufs w' !! buf = Some b
                 /\ buf_format b = format
                 /\ buf_width b = width
                 /\ buf_height b = height
                 /\ forall i, 0 <= i < format_num_planes format ->
                     buf_strides b !! Z.to_nat i = Some (format_stride format i width)
                     /\ buf_sizes b !! Z.to_nat i
                        = Some (format_plane_size format i width height)
                     /\ exists p,
                         buf_data b !! Z.to_nat i = Some p
                         /\ p <> NULL
                         /\ w_heap w' !! p
                            = Some (format_plane_size format i width height))
  /\ format_num_planes FORMAT_RGB565 = 1
  /\ format_stride FORMAT_RGB565 0 80 = 160
  /\ format_plane_size FORMAT_RGB565 0 80 60 = 9600
  /\ format_num_planes FORMAT_YUV422 = 3
  /\ map (fun i => format_stride FORMAT_YUV422 i 80) [0; 1; 2] = [80; 40; 40]
  /\ map (fun i => format_plane_size FORMAT_YUV422 i 80 60) [0; 1; 2]
     = [4800; 2400; 2400].
Proof.
  intros Hf [Hbrk Hfree].
  split; [|repeat split; reflexivity].
  destruct w as [cams bufs irq claimed heap brk fails bus trace found].
  cbn [w_brk w_heap w_bufs w_malloc_fail] in *.
  assert (Hheap : forall a, brk <= a -> heap !! a = None)
    by (intros; now apply Hfree).
  assert (Hbufs : forall a, brk <= a -> bufs !! a = None)
    by (intros; now apply Hfree).
  clear Hfree.
  destruct Hf as [-> | [-> | ->]].
  - (* YUYV: two calls of malloc *)
    change (format_num_planes FORMAT_YUYV) with 1. change (Z.to_nat 1) with 1%nat.
    destruct fails as [|[|] [|[|] rest]];
      unfold camera_buffer_alloc;
      change (format_num_planes FORMAT_YUYV) with 1; change (Z.to_nat 1) with 1%nat;
      repeat progress alloc_step;
      (eexists _, _; split; [reflexivity|]);
      cbn [malloc_fails_within take existsb orb w_heap w_bufs];
      first
        [ split; [reflexivity|]; split; [map_restore Hheap | map_restore Hbufs]
        | split; [addr_lia|]; eexists; split; [apply lookup_insert_eq|];
          do 3 (split; [reflexivity|]);
          intros i Hi; apply plane_index_1 in Hi; subst i; built_plane ].
  - (* RGB565: two calls of malloc *)
    change (format_num_planes FORMAT_RGB565) with 1. change (Z.to_nat 1) with 1%nat.
    destruct fails as [|[|] [|[|] rest]];
      unfold camera_buffer_alloc;
      change (format_num_planes FORMAT_RGB565) with 1; change (Z.to_nat 1) with 1%nat;
      repeat progress alloc_step;
      (eexists _, _; split; [reflexivity|]);
      cbn [malloc_fails_within take existsb orb w_heap w_bufs];
      first
        [ split; [reflexivity|]; split; [map_restore Hheap | map_restore Hbufs]
        | split; [addr_lia|]; eexists; split; [apply lookup_insert_eq|];
          do 3 (split; [reflexivity|]);
          intros i Hi; apply plane_index_1 in Hi; subst i; built_plane ].
  - (* YUV422: four calls of malloc *)
    change (format_num_planes FORMAT_YUV422) with 3. change (Z.to_nat 3) with 3%nat.
    destruct fails as [|[|] [|[|] [|[|] [|[|] rest]]]];
      unfold camera_buffer_alloc;
      change (format_num_planes FORMAT_YUV422) with 3; change (Z.to_nat 3) with 3%nat;
      repeat progress alloc_step;
      (eexists _, _; split; [reflexivity|]);
      cbn [malloc_fails_within take existsb orb w_heap w_bufs];
      first
        [ split; [reflexivity|]; split; [map_restore Hheap | map_restore Hbufs]
        | split; [addr_lia|]; eexists; split; [apply lookup_insert_eq|];
          do 3 (split; [reflexivity|]);
          intros i Hi; apply plane_index_3 in Hi;
          destruct Hi as [-> | [-> | ->]]; built_plane ].
Qed.

(** C10: for a format that is none of the three supported ones,
    [camera_buffer_alloc] returns, when [malloc] gives it the structure, a
    buffer that is not NULL and has no plane: [format_num_planes] is 0, the
    structure is the only block added to the heap, and every stride, size
    and data pointer of the buffer is zero. *)
Theorem camera_buffer_alloc_unsupported_format format width height w :
  ~ supported_format format ->
  heap_wf w ->
  head (w_malloc_fail w) <> Some true ->
  format_num_planes format = 0
  /\ exists buf w',
      camera_buffer_alloc format width height w = Ok buf w'
      /\ buf <> NULL
      /\ w_heap w' = <[buf := sizeof_camera_buffer]> (w_heap w)
      /\ w_bufs w' !! buf =
           Some {| buf_format := format; buf_width := width; buf_height := height;
                   buf_strides := [0; 0; 0]; buf_sizes := [0; 0; 0];
                   buf_data := [NULL; NULL; NULL] |}.
Proof.
  intros Hf [Hbrk _] Hhead.
  pose proof (format_num_planes_unsupported format Hf) as Hn.
  split; [exact Hn|].
  destruct w as [cams bufs irq claimed heap brk fails bus trace found].
  cbn [w_brk w_heap w_bufs w_malloc_fail] in *.
  assert (Hfails : fails = [] \/ exists rest, fails = false :: rest).
  { destruct fails as [|[|] rest]; [now left | now contradiction Hhead | right; eauto]. }
  unfold camera_buffer_alloc. rewrite Hn.
  destruct Hfails as [-> | [rest ->]];
    repeat progress alloc_step;
    (eexists _, _; split; [reflexivity|]);
    cbn [w_heap w_bufs];
    (split; [addr_lia|]); (split; [reflexivity|]); apply lookup_insert_eq.
Qed.

(** ** Capture on an idle context *)

Lemma configured_camera_geometry platform format width height cam :
  cfg_format (cam_config (configured_camera platform format width height cam)) = format
  /\ cfg_width (cam_config (configured_camera platform format width height cam)) = width
  /\ cfg_height (cam_config (configured_camera platform format width height cam)) = height.
Proof. repeat split; reflexivity. Qed.

Lemma camera_start_frame_run irqs camera cam buf b platform cb data w :
  w_cams w !! camera = Some cam ->
  w_bufs w !! buf = Some b ->
  host_platform (cam_driver_host cam) = Some platform ->
  camera_start_frame irqs camera buf cb data false w
  = Ok 0 (started_world camera buf cb data platform cam b w).
Proof.
  intros Hcam Hbuf Hp. unfold camera_start_frame.
  rewrite (bind_ok _ _ _ _ _ (load_camera_ok _ _ _ Hcam)).
  rewrite (bind_ok _ _ _ _ _ (load_buffer_ok _ _ _ Hbuf)).
  rewrite (bind_ok _ _ _ _ _ (platform_of_ok _ _ _ Hp)).
  mrun. unfold emit, store_camera, started_world. wsimpl.
  now rewrite <- app_assoc.
Qed.

(** X1: a buffer whose format, width or height differs from the configured
    one is refused with -1, and nothing changes, when reconfiguration is not
    allowed. *)
Theorem camera_do_frame_reconfigure_forbidden irqs camera cam buf b cb data blocking w :
  w_cams w !! camera = Some cam ->
  cam_pending cam = NULL ->
  w_bufs w !! buf = Some b ->
  config_differs (cam_config cam) b = true ->
  camera_do_frame irqs camera buf cb data false blocking w = Ok (-1) w.
Proof.
  intros Hcam Hidle Hbuf Hdiff. unfold camera_do_frame.
  rewrite (bind_ok _ _ _ _ _ (load_camera_ok _ _ _ Hcam)), Hidle.
  change (negb (NULL =? NULL)) with false. cbv iota.
  rewrite (bind_ok _ _ _ _ _ (load_buffer_ok _ _ _ Hbuf)), Hdiff.
  reflexivity.
Qed.

(** C2 (the code departs from the claim): a capture with reconfiguration
    allowed into a buffer that differs from the configuration and whose size
    is not 80 x 60.  [camera_configure] rejects the size with -1 and changes
    nothing; [camera_do_frame] drops that result, arms the DMA channels from
    the configuration the context had, triggers the frame with the buffer's
    width and height and returns 0.  The call reports success with the
    request pending while the context's configuration is the old one and
    still differs from the buffer. *)
Theorem camera_do_frame_ignores_configure_failure camera cam platform buf b cb data w :
  w_cams w !! camera = Some cam ->
  cam_pending cam = NULL ->
  host_platform (cam_driver_host cam) = Some platform ->
  w_bufs w !! buf = Some b ->
  config_differs (cam_config cam) b = true ->
  buf_width b <> CAMERA_WIDTH_DIV8 \/ buf_height b <> CAMERA_HEIGHT_DIV8 ->
  exists w' cam',
    camera_configure camera (buf_format b) (buf_width b) (buf_height b) w = Ok (-1) w
    /\ camera_do_frame [] camera buf cb data true false w = Ok 0 w'
    /\ camera_capture_with_cb camera buf true cb data w = Ok 0 w'
    /\ w_cams w' !! camera = Some cam'
    /\ cam_pending cam' = buf
    /\ cam_config cam' = cam_config cam
    /\ config_differs (cam_config cam') b = true
    /\ w_trace w' =
         w_trace w
         ++ dma_arm_calls cam platform b
         ++ [EvCameraPioTriggerFrame (pio platform)
               (Z.quot (buf_width b) (camera_pixels_per_chunk (buf_format b)))
               (buf_height b)].
Proof.
  intros Hcam Hidle Hp Hbuf Hdiff Hsize.
  pose proof (camera_configure_rejects camera (buf_format b) _ _ w Hsize) as Hrej.
  assert (Hrun : camera_do_frame [] camera buf cb data true false w
                 = Ok 0 (started_world camera buf cb data platform cam b w)).
  { unfold camera_do_frame.
    rewrite (bind_ok _ _ _ _ _ (load_camera_ok _ _ _ Hcam)), Hidle.
    change (negb (NULL =? NULL)) with false. cbv iota.
    rewrite (bind_ok _ _ _ _ _ (load_buffer_ok _ _ _ Hbuf)), Hdiff.
    rewrite (bind_ok _ _ _ _ _ Hrej).
    now apply camera_start_frame_run. }
  eexists _, _. split; [exact Hrej|]. split; [exact Hrun|]. split; [exact Hrun|].
  split; [cbn; apply lookup_insert_eq|].
  split; [reflexivity|]. split; [reflexivity|]. split; [exact Hdiff|].
  reflexivity.
Qed.


(** ** Blocking capture *)

Lemma wait_pending_unfold irqs camera :
  wait_pending irqs camera =
  (cam ← load_camera camera;
   if cam_pending cam =? NULL then mret tt
   else
     match irqs with
     | [] => raise NoCompletion
     | irq :: irqs' => emit [EvSleepMs 1];; serve_irq irq;; wait_pending irqs' camera
     end).
Proof. destruct irqs; reflexivity. Qed.

Lemma wait_pending_idle irqs camera cam w :
  w_cams w !! camera = Some cam ->
  cam_pending cam = NULL ->
  wait_pending irqs camera w = Ok tt w.
Proof.
  intros Hcam Hidle. rewrite wait_pending_unfold.
  rewrite (bind_ok _ _ _ _ _ (load_camera_ok _ _ _ Hcam)), Hidle. reflexivity.
Qed.

(** The wait returns once the frame interrupt of the context's PIO instance
    has been served, after as many sleeps as the schedule puts before it. *)
Lemma wait_pending_served n rest p camera cam w :
  p <> pio_invalid ->
  arr_get NULL (w_irq_ctxs w) (irq_ctx_index p) = camera ->
  camera <> NULL ->
  w_cams w !! camera = Some cam ->
  cam_pending cam <> NULL ->
  wait_pending (replicate n None ++ Some p :: rest) camera w =
  Ok tt (set_w_trace
           (w_trace w
            ++ replicate (S n) (EvSleepMs 1)
            ++ (if cam_pending_cb cam =? NULL then []
                else [EvFrameCb (cam_pending_cb cam) (cam_pending cam)
                        (cam_cb_data cam)])
            ++ [EvPioInterruptClear p 0])
           (set_w_cams
              (<[camera := set_cam_pending NULL (cam_pending_cb cam)
                             (cam_cb_data cam) cam]> (w_cams w))
              (set_w_cb_found
                 (w_cb_found w
                  ++ (if cam_pending_cb cam =? NULL then [] else [w_cams w]))
                 w))).
Proof.
  intros Hp Hctx Hnn Hcam Hpend. revert w Hctx Hcam.
  induction n as [|n IH]; intros w Hctx Hcam; rewrite wait_pending_unfold;
    rewrite (bind_ok _ _ _ _ _ (load_camera_ok _ _ _ Hcam));
    destruct (Z.eqb_spec (cam_pending cam) NULL) as [|_]; try contradiction.
  - cbn [replicate app]. unfold mbind at 1, M_bind at 1, emit at 1.
    unfold serve_irq. erewrite bind_ok; cycle 1.
    { apply camera_isr_completes; wsimpl; eauto. }
    erewrite wait_pending_idle; cycle 1.
    { wsimpl. apply lookup_insert_eq. }
    { reflexivity. }
    wsimpl. unfold set_w_trace, set_w_cams. wsimpl.
    now rewrite <- !app_assoc.
  - cbn [replicate app]. unfold mbind at 1, M_bind at 1, emit at 1.
    unfold serve_irq. unfold mbind at 1, M_bind at 1, mret, M_ret.
    rewrite IH by (wsimpl; assumption).
    wsimpl. unfold set_w_trace, set_w_cams. wsimpl.
    now rewrite <- !app_assoc.
Qed.

Lemma wait_pending_never_served n camera cam w :
  w_cams w !! camera = Some cam ->
  cam_pending cam <> NULL ->
  wait_pending (replicate n None) camera w = Fault NoCompletion.
Proof.
  intros Hcam Hpend. revert w Hcam.
  induction n as [|n IH]; intros w Hcam; rewrite wait_pending_unfold;
    rewrite (bind_ok _ _ _ _ _ (load_camera_ok _ _ _ Hcam));
    destruct (Z.eqb_spec (cam_pending cam) NULL) as [|_]; try contradiction.
  - reflexivity.
  - cbn [replicate]. unfold mbind at 1, M_bind at 1, emit at 1.
    unfold serve_irq. unfold mbind at 1, M_bind at 1, mret, M_ret.
    apply IH. wsimpl. exact Hcam.
Qed.

Lemma camera_start_frame_blocking irqs camera cam buf b platform cb data w :
  w_cams w !! camera = Some cam ->
  w_bufs w !! buf = Some b ->
  host_platform (cam_driver_host cam) = Some platform ->
  camera_start_frame irqs camera buf cb data true w
  = (wait_pending irqs camera;; mret 0)
      (started_world camera buf cb data platform cam b w).
Proof.
  intros Hcam Hbuf Hp. unfold camera_start_frame.
  rewrite (bind_ok _ _ _ _ _ (load_camera_ok _ _ _ Hcam)).
  rewrite (bind_ok _ _ _ _ _ (load_buffer_ok _ _ _ Hbuf)).
  rewrite (bind_ok _ _ _ _ _ (platform_of_ok _ _ _ Hp)).
  unfold mbind at 1, M_bind at 1, emit at 1.
  unfold mbind at 1, M_bind at 1, store_camera at 1.
  unfold mbind at 1, M_bind at 1, emit at 1.
  unfold started_world. wsimpl. unfold set_w_trace at 2. wsimpl.
  now rewrite <- app_assoc.
Qed.

(** X3: [camera_capture_blocking] on an idle context configured for the buffer
    and registered for the frame interrupt of its PIO instance: when that
    interrupt is served during the (n+1)-th sleep, the call returns 0 after
    n+1 sleeps with the pending slot empty again and no callback called;
    when the interrupt is never served, the call does not return. *)
Theorem camera_capture_blocking_completes n rest camera cam platform buf b allow w :
  camera <> NULL -> buf <> NULL ->
  w_cams w !! camera = Some cam ->
  cam_pending cam = NULL ->
  host_platform (cam_driver_host cam) = Some platform ->
  pio platform <> pio_invalid ->
  arr_get NULL (w_irq_ctxs w) (irq_ctx_index (pio platform)) = camera ->
  w_bufs w !! buf = Some b ->
  config_differs (cam_config cam) b = false ->
  (exists w',
     camera_capture_blocking (replicate n None ++ Some (pio platform) :: rest)
       camera buf allow w = Ok 0 w'
     /\ w_cams w' !! camera = Some (set_cam_pending NULL NULL NULL cam)
     /\ w_trace w' =
          w_trace w
          ++ dma_arm_calls cam platform b
          ++ [EvCameraPioTriggerFrame (pio platform)
                (Z.quot (buf_width b) (camera_pixels_per_chunk (buf_format b)))
                (buf_height b)]
          ++ replicate (S n) (EvSleepMs 1)
          ++ [EvPioInterruptClear (pio platform) 0])
  /\ camera_capture_blocking (replicate n None) camera buf allow w
     = Fault NoCompletion.
Proof.
  intros Hnn Hbnn Hcam Hidle Hp Hpio Hctx Hbuf Hsame.
  assert (Hstart : forall irqs,
             camera_capture_blocking irqs camera buf allow w
             = (wait_pending irqs camera;; mret 0)
                 (started_world camera buf NULL NULL platform cam b w)).
  { intros irqs. unfold camera_capture_blocking, camera_do_frame.
    rewrite (bind_ok _ _ _ _ _ (load_camera_ok _ _ _ Hcam)), Hidle.
    change (negb (NULL =? NULL)) with false. cbv iota.
    rewrite (bind_ok _ _ _ _ _ (load_buffer_ok _ _ _ Hbuf)), Hsame.
    now apply camera_start_frame_blocking. }
  assert (Hcam1 : w_cams (started_world camera buf NULL NULL platform cam b w)
                    !! camera = Some (set_cam_pending buf NULL NULL cam))
    by (cbn; apply lookup_insert_eq).
  split.
  - rewrite Hstart. eexists. split; [|split].
    + erewrite bind_ok; [reflexivity|].
      apply (wait_pending_served n rest _ camera (set_cam_pending buf NULL NULL cam));
        assumption.
    + cbn. rewrite insert_insert_eq. apply lookup_insert_eq.
    + cbn. now rewrite <- !app_assoc.
  - rewrite Hstart. apply bind_fault.
    eapply wait_pending_never_served; [exact Hcam1 | exact Hbnn].
Qed.

(** ** Termination *)

Ltac term_step Hcam E0 E1 E2 :=
  unfold mbind, M_bind, mret, M_ret, load_camera, store_camera, platform_of, emit,
    write_irq_ctx, set_dma_channel, dma_channel_unclaim;
  change (Z.to_nat CAMERA_MAX_N_PLANES) with 3%nat;
  cbn [for_loop];
  unfold set_w_cams, set_w_bufs, set_w_irq_ctxs, set_w_dma_claimed, set_w_heap,
    set_w_bus, set_w_trace, set_w_cb_found, set_cam_dma_channels, set_cam_pending;
  cbn [w_cams w_bufs w_irq_ctxs w_dma_claimed w_heap w_brk w_malloc_fail w_bus w_trace w_cb_found
       cam_driver_host cam_frame_offset cam_shift_byte_offset cam_dma_channels
       cam_config cam_pending cam_pending_cb cam_cb_data host_platform];
  change (0 + 1) with 1; change (1 + 1) with 2; change (2 + 1) with 3;
  unfold arr_get, arr_set;
  change (Z.to_nat 0) with 0%nat; change (Z.to_nat 1) with 1%nat;
  change (Z.to_nat 2) with 2%nat;
  cbn [for_loop default from_option id insert list_insert lookup list_lookup];
  rewrite ?lookup_insert_eq, ?insert_insert_eq, ?Hcam, ?E0, ?E1, ?E2;
  cbv iota beta.

Lemma camera_term_calls_no_callback cam platform :
  forallb (fun e => negb (is_frame_cb e)) (camera_term_calls cam platform) = true.
Proof.
  unfold camera_term_calls. rewrite !forallb_app, !andb_true_iff. split; [|split].
  - apply List.forallb_forall. intros e He.
    apply in_map_iff in He as (i & <- & _). reflexivity.
  - reflexivity.
  - destruct (pio platform); reflexivity.
Qed.

Lemma camera_term_run camera cam platform c0 c1 c2 w :
  camera <> NULL ->
  w_cams w !! camera = Some cam ->
  host_platform (cam_driver_host cam) = Some platform ->
  cam_dma_channels cam = [c0; c1; c2] ->
  exists w',
    camera_term camera w = Ok tt w'
    /\ w_dma_claimed w' = w_dma_claimed w ∖ released_channels [c0; c1; c2]
    /\ w_cams w' !! camera =
         Some (set_cam_pending NULL NULL NULL
                 (set_cam_dma_channels
                    (map (fun ch => if 0 <=? ch then -1 else ch) [c0; c1; c2]) cam))
    /\ w_irq_ctxs w' =
         match pio platform with
         | pio0 => arr_set (w_irq_ctxs w) 0 NULL
         | pio1 => arr_set (w_irq_ctxs w) 1 NULL
         | pio_invalid => w_irq_ctxs w
         end
    /\ w_trace w' = w_trace w ++ camera_term_calls cam platform
    /\ forallb (fun e => negb (is_frame_cb e)) (camera_term_calls cam platform) = true.
Proof.
  intros Hnn Hcam Hp Hch.
  pose proof (camera_term_calls_no_callback cam platform) as Hquiet.
  unfold camera_term.
  destruct (Z.eqb_spec camera NULL) as [|_]; [contradiction|].
  rewrite (bind_ok _ _ _ _ _ (load_camera_ok _ _ _ Hcam)).
  rewrite (bind_ok _ _ _ _ _ (platform_of_ok _ _ _ Hp)).
  unfold camera_term_calls in *.
  destruct w as [cams bufs irq claimed heap brk fails bus trace found].
  destruct cam as [host fo so chs cfg pend pcb pdata].
  cbn in Hcam, Hp, Hch. subst chs.
  destruct (0 <=? c0) eqn:E0; destruct (0 <=? c1) eqn:E1; destruct (0 <=? c2) eqn:E2;
    destruct (pio platform) eqn:Epio;
    repeat progress term_step Hcam E0 E1 E2;
    (eexists; split; [reflexivity|]);
    cbn [w_cams w_irq_ctxs w_dma_claimed w_trace cam_config map];
    rewrite ?E0, ?E1, ?E2;
    (split; [|split; [apply lookup_insert_eq|split; [reflexivity|split;
       [rewrite <- ?app_assoc; reflexivity | exact Hquiet]]]]);
    unfold released_channels;
    rewrite ?Z.leb_le, ?Z.leb_gt in *;
    set_unfold; intros x; rewrite ?list_elem_of_filter; set_unfold; intuition lia.
Qed.

(** X4: what [camera_term] does to a context whose channel array holds
    [c0], [c1], [c2]: it unclaims each entry that is not negative and marks
    it -1, clears the interrupt registration of the context's PIO instance
    and the pending slot, and calls no completion callback. *)
Theorem camera_term_effect camera cam platform c0 c1 c2 w :
  camera <> NULL ->
  w_cams w !! camera = Some cam ->
  host_platform (cam_driver_host cam) = Some platform ->
  cam_dma_channels cam = [c0; c1; c2] ->
  exists w',
    camera_term camera w = Ok tt w'
    /\ w_dma_claimed w' = w_dma_claimed w ∖ released_channels [c0; c1; c2]
    /\ w_cams w' !! camera =
         Some (set_cam_pending NULL NULL NULL
                 (set_cam_dma_channels
                    (map (fun ch => if 0 <=? ch then -1 else ch) [c0; c1; c2]) cam))
    /\ w_irq_ctxs w' =
         match pio platform with
         | pio0 => arr_set (w_irq_ctxs w) 0 NULL
         | pio1 => arr_set (w_irq_ctxs w) 1 NULL
         | pio_invalid => w_irq_ctxs w
         end
    /\ w_trace w' = w_trace w ++ camera_term_calls cam platform
    /\ forallb (fun e => negb (is_frame_cb e)) (camera_term_calls cam platform) = true.
Proof. exact (camera_term_run camera cam platform c0 c1 c2 w). Qed.
(** ** Sizes the driver derives from a format *)

(** X5: every divisor of [format.c] and [camera.c] is positive, whatever the
    format code and the plane index: the horizontal subsampling is 1 or 2,
    a DMA transfer has 1, 2 or 4 bytes, a chunk has 1 or 2 pixels. *)
Theorem camera_divisors_positive format plane :
  1 <= format_hsub format plane <= 2
  /\ In (__dma_transfer_size_to_bytes (camera_transfer_size format plane)) [1; 2; 4]
  /\ 1 <= camera_pixels_per_chunk format <= 2.
Proof.
  unfold format_hsub, camera_transfer_size, camera_pixels_per_chunk.
  destruct (format =? FORMAT_YUYV), (format =? FORMAT_RGB565),
    (format =? FORMAT_YUV422), (plane =? 0); cbn; intuition lia.
Qed.

Lemma format_plane_size_exact format plane width height :
  supported_format format -> is_u16 width -> is_u16 height ->
  2 * width * height < 2 ^ 32 ->
  format_plane_size format plane width height =
  format_bytes_per_pixel format plane * width / format_hsub format plane * height.
Proof.
  intros Hf Hw Hh Hlt. unfold format_plane_size.
  rewrite (format_stride_exact format plane width Hf Hw).
  unfold is_u16 in *.
  assert (Hb : 0 <= format_bytes_per_pixel format plane * width
                    / format_hsub format plane <= 2 * width).
  { destruct Hf as [-> | [-> | ->]]; unfold format_hsub; cbn;
      try destruct (plane =? 0); rewrite ?Z.div_1_r; try lia.
    split; [apply Z.div_pos; lia | apply Z.div_le_upper_bound; lia]. }
  apply Z.mod_small. nia.
Qed.

(** X6: for a supported format, an even width and a frame of less than 2^32
    bytes, the planes of a frame hold two bytes per pixel in total. *)
Theorem format_frame_bytes format width height :
  supported_format format -> is_u16 width -> is_u16 height ->
  Z.even width = true -> 2 * width * height < 2 ^ 32 ->
  foldr Z.add 0
    (map (fun plane => format_plane_size format plane width height)
         (seqZ 0 (format_num_planes format)))
  = 2 * width * height.
Proof.
  intros Hf Hw Hh Hev Hlt.
  apply Z.even_spec in Hev. destruct Hev as [k ->].
  assert (Hsz := fun plane => format_plane_size_exact format plane (2 * k) height Hf Hw Hh Hlt).
  destruct Hf as [-> | [-> | ->]].
  - change (seqZ 0 (format_num_planes FORMAT_YUYV)) with [0].
    cbn [map foldr]. rewrite Hsz. cbn. rewrite Z.div_1_r. lia.
  - change (seqZ 0 (format_num_planes FORMAT_RGB565)) with [0].
    cbn [map foldr]. rewrite Hsz. cbn. rewrite Z.div_1_r. lia.
  - change (seqZ 0 (format_num_planes FORMAT_YUV422)) with [0; 1; 2].
    cbn [map foldr]. rewrite !Hsz.
    change (format_bytes_per_pixel FORMAT_YUV422 _) with 1.
    change (format_hsub FORMAT_YUV422 0) with 1.
    change (format_hsub FORMAT_YUV422 1) with 2.
    change (format_hsub FORMAT_YUV422 2) with 2.
    rewrite Z.div_1_r, Z.mul_1_l.
    replace (2 * k / 2) with k by (rewrite Z.mul_comm, Z.div_mul; lia).
    lia.
Qed.

(** X7: for a supported format, an even width and a frame of less than 2^32
    bytes, the DMA transfers [camera_configure] programs for a plane move
    exactly the bytes of the plane, the FIFO offset and the transfer width
    add up to the four bytes of a FIFO word, and the pixel loop count
    [camera_do_frame] hands to the frame program covers the whole line. *)
Theorem camera_dma_transfer_exact format plane width height :
  supported_format format -> 0 <= plane < format_num_planes format ->
  is_u16 width -> is_u16 height ->
  Z.even width = true -> 2 * width * height < 2 ^ 32 ->
  let xfer_bytes := __dma_transfer_size_to_bytes (camera_transfer_size format plane) in
  Z.quot (format_plane_size format plane width height) xfer_bytes * xfer_bytes
    = format_plane_size format plane width height
  /\ to_u32 (4 - xfer_bytes) + xfer_bytes = 4
  /\ Z.quot width (camera_pixels_per_chunk format) * camera_pixels_per_chunk format
     = width.
Proof.
  intros Hf Hp Hw Hh Hev Hlt xfer_bytes. subst xfer_bytes.
  apply Z.even_spec in Hev. destruct Hev as [k ->].
  rewrite (format_plane_size_exact format plane (2 * k) height Hf Hw Hh Hlt).
  unfold is_u16 in *.
  assert (Hq : forall a b, 0 <= a -> 0 < b -> Z.quot (a * b) b * b = a * b).
  { intros a b Ha Hb. rewrite Z.quot_div_nonneg by nia. rewrite Z.div_mul by lia. reflexivity. }
  destruct Hf as [-> | [-> | ->]].
  - cbn. rewrite Z.div_1_r. split; [|split; [reflexivity|]].
    + replace (2 * (2 * k) * height) with (k * height * 4) by lia. apply Hq; nia.
    + replace (2 * k) with (k * 2) by lia. apply Hq; lia.
  - cbn. rewrite Z.div_1_r. split; [|split; [reflexivity|]].
    + replace (2 * (2 * k) * height) with (k * height * 4) by lia. apply Hq; nia.
    + replace (2 * k) with (k * 2) by lia. apply Hq; lia.
  - change (format_num_planes FORMAT_YUV422) with 3 in Hp.
    assert (Hc : plane = 0 \/ plane = 1 \/ plane = 2) by lia.
    destruct Hc as [-> | [-> | ->]]; cbn; rewrite ?Z.div_1_r, ?Z.mul_1_l;
      (split; [|split; [reflexivity|]]);
      try (replace (2 * k) with (k * 2) by lia; apply Hq; lia).
    + replace (2 * k * height) with (k * height * 2) by lia. apply Hq; nia.
    + rewrite Z.quot_1_r. lia.
    + rewrite Z.quot_1_r. lia.
Qed.

(** ** Releasing a buffer *)

Ltac plane_counts :=
  try change (format_num_planes FORMAT_YUYV) with 1;
  try change (format_num_planes FORMAT_RGB565) with 1;
  try change (format_num_planes FORMAT_YUV422) with 3;
  change (Z.to_nat 1) with 1%nat; change (Z.to_nat 3) with 3%nat.

Ltac alloc_free_run Hheap Hbufs :=
  unfold camera_buffer_alloc; plane_counts;
  repeat progress alloc_step;
  (eexists _, _; split; [reflexivity|]);
  (split; [addr_lia|]);
  unfold camera_buffer_free;
  repeat progress (alloc_step; plane_counts);
  (eexists; split; [reflexivity|]);
  cbn [w_cams w_bufs w_irq_ctxs w_dma_claimed w_heap w_bus w_trace w_cb_found];
  split; [map_restore Hheap|]; split; [map_restore Hbufs|];
  repeat split.

(** X8: [camera_buffer_free] undoes [camera_buffer_alloc]: when every
    allocation succeeds, freeing the buffer just allocated leaves the heap
    with exactly the blocks, and the memory with exactly the buffers, it had
    before the allocation, for every format code (one that has no planes
    included), and touches nothing else.  Freeing NULL does nothing. *)
Theorem camera_buffer_free_undoes_alloc format width height w :
  heap_wf w ->
  malloc_fails_within (S (Z.to_nat (format_num_planes format))) (w_malloc_fail w) = false ->
  (exists buf w1,
     camera_buffer_alloc format width height w = Ok buf w1
     /\ buf <> NULL
     /\ exists w2,
         camera_buffer_free buf w1 = Ok tt w2
         /\ w_heap w2 = w_heap w
         /\ w_bufs w2 = w_bufs w
         /\ w_cams w2 = w_cams w
         /\ w_irq_ctxs w2 = w_irq_ctxs w
         /\ w_dma_claimed w2 = w_dma_claimed w
         /\ w_bus w2 = w_bus w
         /\ w_trace w2 = w_trace w)
  /\ camera_buffer_free NULL w = Ok tt w.
Proof.
  intros [Hbrk Hfree] Hok.
  split; [|reflexivity].
  destruct w as [cams bufs irq claimed heap brk fails bus trace found].
  cbn [w_brk w_heap w_bufs w_malloc_fail w_cams w_irq_ctxs w_dma_claimed w_bus w_trace w_cb_found] in *.
  assert (Hheap : forall a, brk <= a -> heap !! a = None)
    by (intros; now apply Hfree).
  assert (Hbufs : forall a, brk <= a -> bufs !! a = None)
    by (intros; now apply Hfree).
  clear Hfree.
  destruct (format_num_planes_cases format)
    as [[-> Hn] | [[-> Hn] | [[-> Hn] | [Hf Hn]]]].
  - change (format_num_planes FORMAT_YUYV) with 1 in *.
    change (Z.to_nat 1) with 1%nat in *.
    destruct fails as [|[|] [|[|] rest]]; try discriminate Hok;
      alloc_free_run Hheap Hbufs.
  - change (format_num_planes FORMAT_RGB565) with 1 in *.
    change (Z.to_nat 1) with 1%nat in *.
    destruct fails as [|[|] [|[|] rest]]; try discriminate Hok;
      alloc_free_run Hheap Hbufs.
  - change (format_num_planes FORMAT_YUV422) with 3 in *.
    change (Z.to_nat 3) with 3%nat in *.
    destruct fails as [|[|] [|[|] [|[|] [|[|] rest]]]]; try discriminate Hok;
      alloc_free_run Hheap Hbufs.
  - rewrite Hn in Hok. change (Z.to_nat 0) with 0%nat in Hok.
    destruct fails as [|[|] rest]; try discriminate Hok;
      unfold camera_buffer_alloc; rewrite Hn;
      repeat progress alloc_step;
      (eexists _, _; split; [reflexivity|]);
      (split; [addr_lia|]);
      unfold camera_buffer_free;
      repeat progress alloc_step;
      rewrite Hn;
      repeat progress alloc_step;
      (eexists; split; [reflexivity|]);
      cbn [w_cams w_bufs w_irq_ctxs w_dma_claimed w_heap w_bus w_trace w_cb_found];
      (split; [map_restore Hheap|]); (split; [map_restore Hbufs|]);
      repeat split.
Qed.

(** ** Detection of the sensor *)

Lemma camera_detect_loop_run platform tries val w :
  exists v w' n,
    camera_detect_loop platform tries val w = Ok v w'
    /\ (n <= tries)%nat
    /\ ((n < tries)%nat -> v = 118)
    /\ w_trace w' = w_trace w ++ replicate n (EvSleepMs 100)
    /\ same_memory w w'.
Proof.
  revert val w. induction tries as [|tries IH]; intros val w.
  - exists val, w, 0%nat. cbn. rewrite app_nil_r. unfold same_memory.
    repeat split; lia.
  - cbn [camera_detect_loop]. unfold mbind, M_bind, i2c_write, i2c_read, emit.
    destruct (i2c_write_blocking _ _ _ _) as [ret bus].
    assert (Hnext : forall val' bus',
      exists v w' n,
        camera_detect_loop platform tries val'
          (set_w_trace (w_trace (set_w_bus bus' w) ++ [EvSleepMs 100]) (set_w_bus bus' w))
        = Ok v w'
        /\ (n <= S tries)%nat
        /\ ((n < S tries)%nat -> v = 118)
        /\ w_trace w' = w_trace w ++ replicate n (EvSleepMs 100)
        /\ same_memory w w').
    { intros val' bus'.
      destruct (IH val' (set_w_trace (w_trace (set_w_bus bus' w) ++ [EvSleepMs 100])
                           (set_w_bus bus' w)))
        as (v & w' & n & Hrun & Hle & Hv & Htr & Hmem).
      exists v, w', (S n). split; [exact Hrun|].
      split; [lia|]. split; [intros; apply Hv; lia|].
      split; [|exact Hmem].
      rewrite Htr. cbn [w_trace set_w_trace set_w_bus replicate].
      now rewrite <- app_assoc. }
    destruct (ret =? 1); cbn [negb].
    + destruct (i2c_read_blocking _ _ _ _) as [[ret' bytes] bus'].
      cbn [fst snd w_bus set_w_bus].
      destruct (ret' =? 1); cbn [negb]; [|apply Hnext].
      destruct (_ =? 118) eqn:Hval; [|apply Hnext].
      apply Z.eqb_eq in Hval.
      eexists _, _, 0%nat. split; [reflexivity|].
      split; [lia|]. split; [intros _; exact Hval|].
      cbn. rewrite app_nil_r. unfold same_memory. repeat split.
    + apply Hnext.
Qed.

Lemma camera_detect_run platform w :
  exists detected w' n,
    camera_detect platform w = Ok detected w'
    /\ (n <= 5)%nat
    /\ (detected = false -> n = 5%nat)
    /\ w_trace w' = w_trace w ++ replicate n (EvSleepMs 100)
    /\ same_memory w w'.
Proof.
  destruct (camera_detect_loop_run platform 5 0 w)
    as (v & w' & n & Hrun & Hle & Hv & Htr & Hmem).
  exists (v =? 118), w', n.
  unfold camera_detect, mbind, M_bind. rewrite Hrun.
  split; [reflexivity|]. split; [exact Hle|]. split; [|split; assumption].
  intros Hno. destruct (Nat.eq_dec n 5%nat) as [|Hne]; [assumption|].
  rewrite Hv in Hno by lia. discriminate Hno.
Qed.



(** X9: [camera_detect] always returns, after at most five waits of 100 ms and
    nothing else on the hardware besides the bus transfers; it reports a
    missing sensor only after all five waits, and it changes no memory. *)
Theorem camera_detect_bounded platform w :
  exists detected w' n,
    camera_detect platform w = Ok detected w'
    /\ (n <= 5)%nat
    /\ (detected = false -> n = 5%nat)
    /\ w_trace w' = w_trace w ++ replicate n (EvSleepMs 100)
    /\ same_memory w w'.
Proof. exact (camera_detect_run platform w). Qed.


(** ** Initialisation *)

Lemma camera_init_run camera params w :
  let host := {| host_pins := Some {| pin_enable := -1; pin_reset := -1 |};
                 host_platform := Some params |} in
  let w0 := set_w_trace
              (w_trace w ++ [EvClockGpioInit (xclk_pin params) (xclk_divider params);
                             EvSleepMs 300])
              (set_w_cams (<[camera := set_cam_driver_host host camera_zero]> (w_cams w))
                 w) in
  exists detected w1,
    camera_detect params w0 = Ok detected w1
    /\ camera_init camera params w
       = (if detected then Fault OutOfBounds else Ok (-1) w1)
    /\ w_cams w1 !! camera = Some (set_cam_driver_host host camera_zero)
    /\ w_dma_claimed w1 = w_dma_claimed w
    /\ w_irq_ctxs w1 = w_irq_ctxs w.
Proof.
  intros host w0.
  destruct (camera_detect_run params w0)
    as (detected & w1 & n & Hrun & _ & _ & _ & Hmem).
  destruct Hmem as (Hcams & _ & Hirq & Hclaimed & _).
  assert (Hcam1 : w_cams w1 !! camera = Some (set_cam_driver_host host camera_zero)).
  { rewrite Hcams. subst w0. wsimpl. apply lookup_insert_eq. }
  exists detected, w1. split; [exact Hrun|].
  split; [|split; [exact Hcam1|split; [exact Hclaimed | exact Hirq]]].
  unfold camera_init.
  unfold mbind at 1 2 3 4, M_bind at 1 2 3 4, store_camera, emit. wsimpl.
  replace (set_w_trace _ _) with w0; cycle 1.
  { subst w0. destruct w. unfold set_w_trace, set_w_cams. wsimpl.
    now rewrite insert_insert_eq, <- app_assoc. }
  rewrite (bind_ok _ _ _ _ _ Hrun).
  destruct detected; cbn [negb]; [|reflexivity].
  rewrite (bind_ok _ _ _ _ _ (load_camera_ok _ _ _ Hcam1)).
  apply bind_fault, OV7670_begin_stops.
Qed.


(** C8 (the code departs from the claim): [camera_term] after a
    [camera_init] that failed.  A [camera_init] that returns has returned -1,
    before it claimed any DMA channel, and has left the context's channel
    array as the zero-fill made it: 0, 0, 0.  [camera_term] takes those zeros
    for channel numbers: it unclaims channel 0, which this context never
    claimed and which here belongs to another owner, and marks the array
    -1, -1, -1.  It leaves every other channel alone and the pending slot
    empty. *)
Theorem camera_term_unclaims_foreign_channel camera params w r w1 :
  camera <> NULL ->
  0 ∈ w_dma_claimed w ->
  camera_init camera params w = Ok r w1 ->
  r = -1
  /\ w_dma_claimed w1 = w_dma_claimed w
  /\ cam_dma_channels <$> (w_cams w1 !! camera) = Some [0; 0; 0]
  /\ exists w2 cam2,
      camera_term camera w1 = Ok tt w2
      /\ 0 ∈ w_dma_claimed w1
      /\ (0 ∉ w_dma_claimed w2)
      /\ w_dma_claimed w2 = w_dma_claimed w ∖ {[ 0 ]}
      /\ w_cams w2 !! camera = Some cam2
      /\ cam_dma_channels cam2 = [-1; -1; -1]
      /\ cam_pending cam2 = NULL.
Proof.
  intros Hnn Hheld Hinit.
  destruct (camera_init_run camera params w)
    as (detected & w1' & _ & Hrun & Hcam & Hclaimed & _).
  rewrite Hinit in Hrun. destruct detected; [discriminate Hrun|].
  injection Hrun as -> <-.
  split; [reflexivity|]. split; [exact Hclaimed|].
  split; [now rewrite Hcam|].
  destruct (camera_term_run camera _ params 0 0 0 w1 Hnn Hcam eq_refl eq_refl)
    as (w2 & Hterm & Hcl2 & Hcam2 & _).
  assert (Hrel : w_dma_claimed w2 = w_dma_claimed w ∖ {[ 0 ]}).
  { rewrite Hcl2, Hclaimed. unfold released_channels.
    apply set_eq. intros x.
    rewrite !elem_of_difference, elem_of_list_to_set, list_elem_of_filter.
    set_unfold. intuition lia. }
  eexists w2, _. split; [exact Hterm|].
  split; [now rewrite Hclaimed|].
  split; [rewrite Hrel, elem_of_difference, elem_of_singleton; intros [_ Hne]; now apply Hne|].
  split; [exact Hrel|].
  split; [exact Hcam2 | split; reflexivity].
Qed.
(** ** A capture with a completion callback, from request to interrupt *)

(** X12: a capture with a callback on an idle context whose configuration
    matches the buffer arms the DMA channels and triggers the frame; until
    the frame interrupt is served every further capture request is refused
    with -2 and changes nothing; the interrupt handler then calls the
    callback once, with the buffer and the user data of the request, frees
    the pending slot and clears the interrupt flag; a further interrupt
    calls nothing and only clears the flag. *)
Theorem camera_capture_with_cb_cycle camera cam platform buf b cb data allow w :
  camera <> NULL -> buf <> NULL -> cb <> NULL ->
  w_cams w !! camera = Some cam ->
  cam_pending cam = NULL ->
  host_platform (cam_driver_host cam) = Some platform ->
  pio platform <> pio_invalid ->
  arr_get NULL (w_irq_ctxs w) (irq_ctx_index (pio platform)) = camera ->
  w_bufs w !! buf = Some b ->
  config_differs (cam_config cam) b = false ->
  exists w1 w2,
    camera_capture_with_cb camera buf allow cb data w = Ok 0 w1
    /\ (forall buf' allow' cb' data',
          camera_capture_with_cb camera buf' allow' cb' data' w1 = Ok (-2) w1)
    /\ camera_isr (pio platform) w1 = Ok tt w2
    /\ w_trace w2 =
         w_trace w ++ dma_arm_calls cam platform b
         ++ [EvCameraPioTriggerFrame (pio platform)
               (Z.quot (buf_width b) (camera_pixels_per_chunk (buf_format b)))
               (buf_height b);
             EvFrameCb cb buf data;
             EvPioInterruptClear (pio platform) 0]
    /\ w_cams w2 !! camera = Some (set_cam_pending NULL cb data cam)
    /\ camera_isr (pio platform) w2
       = Ok tt (set_w_trace (w_trace w2 ++ [EvPioInterruptClear (pio platform) 0]) w2).
Proof.
  intros Hnn Hbnn Hcbnn Hcam Hidle Hp Hpio Hctx Hbuf Hsame.
  set (w1 := started_world camera buf cb data platform cam b w).
  assert (Hcam1 : w_cams w1 !! camera = Some (set_cam_pending buf cb data cam))
    by (cbn; apply lookup_insert_eq).
  assert (Hctx1 : arr_get NULL (w_irq_ctxs w1) (irq_ctx_index (pio platform)) = camera)
    by exact Hctx.
  pose proof (camera_isr_completes (pio platform) camera _ w1 Hpio Hctx1 Hnn Hcam1 Hbnn)
    as Hisr.
  cbn [cam_pending cam_pending_cb cam_cb_data set_cam_pending] in Hisr.
  destruct (Z.eqb_spec cb NULL) as [|_]; [contradiction|].
  eexists w1, _. split; [|split; [|split; [exact Hisr|]]].
  - unfold camera_capture_with_cb, camera_do_frame.
    rewrite (bind_ok _ _ _ _ _ (load_camera_ok _ _ _ Hcam)), Hidle.
    change (negb (NULL =? NULL)) with false. cbv iota.
    rewrite (bind_ok _ _ _ _ _ (load_buffer_ok _ _ _ Hbuf)), Hsame.
    now apply camera_start_frame_run.
  - intros buf' allow' cb' data'.
    unfold camera_capture_with_cb, camera_do_frame.
    rewrite (bind_ok _ _ _ _ _ (load_camera_ok _ _ _ Hcam1)).
    cbn [cam_pending set_cam_pending].
    destruct (Z.eqb_spec buf NULL) as [|_]; [contradiction|]. reflexivity.
  - split; [|split].
    + cbn [w_trace set_w_trace set_w_cams set_w_cb_found w1 started_world].
      rewrite <- !app_assoc. reflexivity.
    + cbn [w_cams set_w_trace set_w_cams set_w_cb_found w1 started_world].
      rewrite insert_insert_eq. apply lookup_insert_eq.
    + apply camera_isr_nothing_pending; [exact Hpio|].
      right. eexists. split.
      * cbn [w_irq_ctxs w_cams set_w_trace set_w_cams set_w_cb_found w1 started_world].
        rewrite Hctx, insert_insert_eq. apply lookup_insert_eq.
      * reflexivity.
Qed.

(** ** The sensor driver: command lists *)

(** X14: [OV7670_write_list] never stops at an end marker.  The register
    field of a command is eight bits wide and the loop goes on while it is at
    most 0xFF, so on every table the loop writes every entry to the sensor,
    the marker included, each followed by a delay of 1 ms, and then reads
    the entry after the last one of the table. *)
Theorem OV7670_write_list_overruns platform cmd p :
  Forall (fun c => 0 <= Ov7670.cmd_reg c <= 255) cmd ->
  Ov7670.OV7670_write_list platform cmd p =
  Ov7670.OutOfBounds
    {| Ov7670.port_answer := Ov7670.port_answer p;
       Ov7670.port_log := Ov7670.port_log p ++ Ov7670.command_writes platform cmd |}.
Proof. exact (write_list_run platform cmd p). Qed.

Lemma last_write_app reg log1 log2 :
  Ov7670.last_write reg (log1 ++ log2) =
  match Ov7670.last_write reg log2 with
  | Some v => Some v
  | None => Ov7670.last_write reg log1
  end.
Proof.
  induction log1 as [|op log1 IH]; cbn [app Ov7670.last_write].
  - now destruct (Ov7670.last_write reg log2).
  - rewrite IH. now destruct (Ov7670.last_write reg log2).
Qed.

Lemma last_write_snoc_same reg log i2c r v :
  r = reg ->
  Ov7670.last_write reg (log ++ [Ov7670.I2cWrite i2c OV7670_ADDR [r; v]]) = Some v.
Proof.
  intros ->. rewrite last_write_app. cbn.
  now rewrite Z.eqb_refl.
Qed.

Lemma last_write_snoc_other reg log i2c r v :
  r <> reg ->
  Ov7670.last_write reg (log ++ [Ov7670.I2cWrite i2c OV7670_ADDR [r; v]]) =
  Ov7670.last_write reg log.
Proof.
  intros Hne. rewrite last_write_app. cbn.
  now destruct (Z.eqb_spec r reg).
Qed.

Lemma last_write_snoc_read reg log i2c r :
  Ov7670.last_write reg
    (log ++ [Ov7670.I2cWrite i2c OV7670_ADDR [r]; Ov7670.I2cRead i2c OV7670_ADDR 1]) =
  Ov7670.last_write reg log.
Proof. now rewrite last_write_app. Qed.

(** X15: [OV7670_set_format] does not return.  For either colour space it
    writes the entries of its table, the end marker among them as register
    0xFF with value 0xFF, and leaves the table; it never reaches its
    [return OV7670_STATUS_OK]. *)
Theorem OV7670_set_format_overruns platform colorspace p :
  let table := if colorspace =? OV7670_COLOR_RGB
               then Ov7670.OV7670_rgb else Ov7670.OV7670_yuv in
  let p' := {| Ov7670.port_answer := Ov7670.port_answer p;
               Ov7670.port_log :=
                 Ov7670.port_log p ++ Ov7670.command_writes platform table |} in
  Ov7670.OV7670_set_format platform colorspace p = Ov7670.OutOfBounds p'
  /\ Ov7670.last_write 0xFF (Ov7670.port_log p') = Some 0xFF.
Proof.
  intros table p'. subst table p'. split.
  - apply set_format_run.
  - cbn [Ov7670.port_log]. rewrite last_write_app.
    destruct (colorspace =? OV7670_COLOR_RGB); reflexivity.
Qed.

(** X16: [OV7670_begin] does not return either, whatever host, colour
    space and size it is given: it stops at a null pointer of the host or,
    past those, in [OV7670_set_format]; neither the initialisation table nor
    the frame size is ever sent.  For the host [camera_init] builds (no
    enable pin, no reset pin) the sensor sees the reset by register, the two
    clock registers and the colour table with its marker, and nothing
    else. *)
Theorem OV7670_begin_overruns :
  (forall host colorspace size p,
     exists p', Ov7670.OV7670_begin host colorspace size p = Ov7670.OutOfBounds p')
  /\ (forall platform colorspace size p,
        Ov7670.OV7670_begin
          {| host_pins := Some {| pin_enable := -1; pin_reset := -1 |};
             host_platform := Some platform |} colorspace size p
        = Ov7670.OutOfBounds
            {| Ov7670.port_answer := Ov7670.port_answer p;
               Ov7670.port_log :=
                 Ov7670.port_log p
                 ++ [Ov7670.DelayMs 300;
                     Ov7670.I2cWrite (i2c_handle platform) OV7670_ADDR [0x12; 0x80];
                     Ov7670.DelayMs 1000;
                     Ov7670.I2cWrite (i2c_handle platform) OV7670_ADDR [0x11; 1];
                     Ov7670.I2cWrite (i2c_handle platform) OV7670_ADDR [0x6B; 0x40]]
                 ++ Ov7670.command_writes platform
                      (if colorspace =? OV7670_COLOR_RGB
                       then Ov7670.OV7670_rgb else Ov7670.OV7670_yuv) |}).
Proof.
  split.
  - exact begin_stops.
  - intros platform colorspace size p.
    unfold Ov7670.OV7670_begin.
    repeat progress begin_run.
    change (0 <=? -1) with false. cbv iota.
    repeat progress begin_run.
    rewrite <- !app_assoc. reflexivity.
Qed.

(** ** The sensor driver: frame window *)

Lemma range_check (P : Z -> bool) n :
  forallb P (seqZ 0 n) = true -> forall z, 0 <= z < n -> P z = true.
Proof.
  intros Hall z Hz. rewrite List.forallb_forall in Hall. apply Hall.
  apply list_elem_of_In, elem_of_seqZ. lia.
Qed.

Lemma href_fields e x y :
  0 <= e < 256 -> 0 <= x < 8 -> 0 <= y < 8 ->
  let href := to_u8 (Z.lor (Z.lor (Z.shiftl e 6) (Z.shiftl x 3)) y) in
  href mod 8 = y /\ (href / 8) mod 8 = x /\ href / 64 = e mod 4.
Proof.
  intros He Hx Hy href. subst href.
  assert (Hall : forallb (fun e => forallb (fun x => forallb (fun y =>
            let href := to_u8 (Z.lor (Z.lor (Z.shiftl e 6) (Z.shiftl x 3)) y) in
            (href mod 8 =? y) && ((href / 8) mod 8 =? x) && (href / 64 =? e mod 4))
          (seqZ 0 8)) (seqZ 0 8)) (seqZ 0 256) = true) by (vm_compute; reflexivity).
  pose proof (range_check _ _ (range_check _ _ (range_check _ _ Hall e He) x Hx) y Hy)
    as Hchk.
  cbv beta zeta in Hchk. rewrite !andb_true_iff, !Z.eqb_eq in Hchk. tauto.
Qed.

Lemma vref_fields x y :
  0 <= x < 4 -> 0 <= y < 4 ->
  let vref := to_u8 (Z.lor (Z.shiftl x 2) y) in
  vref mod 4 = y /\ (vref / 4) mod 4 = x /\ vref / 16 = 0.
Proof.
  intros Hx Hy vref. subst vref.
  assert (Hall : forallb (fun x => forallb (fun y =>
            let vref := to_u8 (Z.lor (Z.shiftl x 2) y) in
            (vref mod 4 =? y) && ((vref / 4) mod 4 =? x) && (vref / 16 =? 0))
          (seqZ 0 4)) (seqZ 0 4) = true) by (vm_compute; reflexivity).
  pose proof (range_check _ _ (range_check _ _ Hall x Hx) y Hy) as Hchk.
  cbv beta zeta in Hchk. rewrite !andb_true_iff, !Z.eqb_eq in Hchk. tauto.
Qed.

Lemma land_7 z : Z.land z 7 = z mod 8.
Proof. change 7 with (Z.ones 3). now rewrite Z.land_ones. Qed.

Lemma land_3 z : Z.land z 3 = z mod 4.
Proof. change 3 with (Z.ones 2). now rewrite Z.land_ones. Qed.

Lemma to_u8_small z : 0 <= z < 256 -> to_u8 z = z.
Proof. intros Hz. unfold to_u8. apply Z.mod_small. lia. Qed.

Ltac sensor_run :=
  unfold mbind, Ov7670.Sensor_bind, mret, Ov7670.Sensor_ret,
    Ov7670.OV7670_write_register, Ov7670.OV7670_read_register, Ov7670.log_ops,
    Ov7670.out_of_bounds;
  cbn [Ov7670.port_answer Ov7670.port_log].

Ltac last_write_at :=
  repeat first
    [ rewrite last_write_snoc_other by (vm_compute; discriminate)
    | rewrite last_write_snoc_read ];
  apply last_write_snoc_same; reflexivity.

Lemma frame_control_run platform size vstart hstart edge_offset pclk_delay p :
  0 <= vstart < 256 -> 0 <= hstart < 2048 -> 0 <= edge_offset < 256 ->
  exists p' hs he href vs ve vref,
    Ov7670.OV7670_frame_control platform size vstart hstart edge_offset pclk_delay p
    = Ov7670.Done tt p'
    /\ Ov7670.last_write Ov7670.OV7670_REG_HSTART (Ov7670.port_log p') = Some hs
    /\ Ov7670.last_write Ov7670.OV7670_REG_HSTOP (Ov7670.port_log p') = Some he
    /\ Ov7670.last_write Ov7670.OV7670_REG_HREF (Ov7670.port_log p') = Some href
    /\ Ov7670.last_write Ov7670.OV7670_REG_VSTART (Ov7670.port_log p') = Some vs
    /\ Ov7670.last_write Ov7670.OV7670_REG_VSTOP (Ov7670.port_log p') = Some ve
    /\ Ov7670.last_write Ov7670.OV7670_REG_VREF (Ov7670.port_log p') = Some vref
    /\ 8 * hs + href mod 8 = hstart
    /\ 8 * he + (href / 8) mod 8 = (hstart + 640) mod 784
    /\ href / 64 = edge_offset mod 4
    /\ 4 * vs + vref mod 4 = vstart
    /\ 4 * ve + (vref / 4) mod 4 = vstart + 480
    /\ vref / 16 = 0.
Proof.
  intros Hv Hh He.
  unfold Ov7670.OV7670_frame_control.
  replace (to_u8 vstart) with vstart by (unfold to_u8; rewrite Z.mod_small; lia).
  replace (Ov7670.to_u16 hstart) with hstart
    by (unfold Ov7670.to_u16; rewrite Z.mod_small; lia).
  replace (to_u8 edge_offset) with edge_offset
    by (unfold to_u8; rewrite Z.mod_small; lia).
  replace (Ov7670.to_u16 (vstart + 480)) with (vstart + 480)
    by (unfold Ov7670.to_u16; rewrite Z.mod_small; lia).
  assert (Hstop : 0 <= (hstart + 640) mod 784 < 784) by (apply Z.mod_pos_bound; lia).
  replace (Ov7670.to_u16 (Z.rem (hstart + 640) 784)) with ((hstart + 640) mod 784)
    by (rewrite Z.rem_mod_nonneg by lia; unfold Ov7670.to_u16;
        rewrite (Z.mod_small _ (2 ^ 16)); lia).
  set (hstop := (hstart + 640) mod 784) in *.
  sensor_run.
  eexists _, _, _, _, _, _, _. split; [reflexivity|].
  cbn [Ov7670.port_log].
  do 6 (split; [last_write_at|]).
  rewrite !land_7, !land_3, !Z.shiftr_div_pow2 by lia.
  change (2 ^ 3) with 8. change (2 ^ 2) with 4.
  destruct (href_fields edge_offset (hstop mod 8) (hstart mod 8)) as (F1 & F2 & F3);
    [lia | apply Z.mod_pos_bound; lia | apply Z.mod_pos_bound; lia |].
  destruct (vref_fields ((vstart + 480) mod 4) (vstart mod 4)) as (G1 & G2 & G3);
    [apply Z.mod_pos_bound; lia | apply Z.mod_pos_bound; lia |].
  cbv zeta in F1, F2, F3, G1, G2, G3.
  rewrite F1, F2, F3, G1, G2, G3.
  rewrite !to_u8_small
    by (split; [apply Z.div_pos; lia | apply Z.div_lt_upper_bound; lia]).
  pose proof (Z.div_mod hstart 8). pose proof (Z.div_mod hstop 8).
  pose proof (Z.div_mod vstart 4). pose proof (Z.div_mod (vstart + 480) 4).
  repeat split; lia.
Qed.

(** X17: the frame window [OV7670_frame_control] programs.  For a
    horizontal start below 2048 the start and stop positions can be read
    back from what it writes: HSTART and HSTOP hold the positions divided by
    8 and HREF their low three bits, the stop being (hstart + 640) mod 784;
    VSTART and VSTOP hold the lines divided by 4 and VREF their low two
    bits, the stop being vstart + 480.  Of the edge offset only the low
    two bits reach HREF. *)
Theorem OV7670_frame_control_window platform size vstart hstart edge_offset pclk_delay p :
  0 <= vstart < 256 -> 0 <= hstart < 2048 -> 0 <= edge_offset < 256 ->
  exists p' hs he href vs ve vref,
    Ov7670.OV7670_frame_control platform size vstart hstart edge_offset pclk_delay p
    = Ov7670.Done tt p'
    /\ Ov7670.last_write Ov7670.OV7670_REG_HSTART (Ov7670.port_log p') = Some hs
    /\ Ov7670.last_write Ov7670.OV7670_REG_HSTOP (Ov7670.port_log p') = Some he
    /\ Ov7670.last_write Ov7670.OV7670_REG_HREF (Ov7670.port_log p') = Some href
    /\ Ov7670.last_write Ov7670.OV7670_REG_VSTART (Ov7670.port_log p') = Some vs
    /\ Ov7670.last_write Ov7670.OV7670_REG_VSTOP (Ov7670.port_log p') = Some ve
    /\ Ov7670.last_write Ov7670.OV7670_REG_VREF (Ov7670.port_log p') = Some vref
    /\ 8 * hs + href mod 8 = hstart
    /\ 8 * he + (href / 8) mod 8 = (hstart + 640) mod 784
    /\ href / 64 = edge_offset mod 4
    /\ 4 * vs + vref mod 4 = vstart
    /\ 4 * ve + (vref / 4) mod 4 = vstart + 480
    /\ vref / 16 = 0.
Proof. exact (frame_control_run platform size vstart hstart edge_offset pclk_delay p). Qed.

(** X18: [OV7670_set_size] indexes its window table with the size it is
    given and does not check it: for a size that is none of the five of
    [OV7670_size] it reads past the table before any bus traffic; for each of
    the five it programs the start positions of the table row, and the low
    two bits of the row's edge offset. *)
Theorem OV7670_set_size_window platform size p :
  (0 <= size <= 4 ->
   exists row p' hs href vs vref,
     Ov7670.window !! Z.to_nat size = Some row
     /\ Ov7670.OV7670_set_size platform size p = Ov7670.Done tt p'
     /\ Ov7670.last_write Ov7670.OV7670_REG_HSTART (Ov7670.port_log p') = Some hs
     /\ Ov7670.last_write Ov7670.OV7670_REG_HREF (Ov7670.port_log p') = Some href
     /\ Ov7670.last_write Ov7670.OV7670_REG_VSTART (Ov7670.port_log p') = Some vs
     /\ Ov7670.last_write Ov7670.OV7670_REG_VREF (Ov7670.port_log p') = Some vref
     /\ 8 * hs + href mod 8 = Ov7670.win_hstart row
     /\ 4 * vs + vref mod 4 = Ov7670.win_vstart row
     /\ href / 64 = Ov7670.win_edge_offset row mod 4)
  /\ (~ 0 <= size <= 4 ->
      Ov7670.OV7670_set_size platform size p = Ov7670.OutOfBounds p).
Proof.
  split.
  - intros Hsize.
    assert (Hrow : exists row,
               Ov7670.window !! Z.to_nat size = Some row
               /\ 0 <= Ov7670.win_vstart row < 256
               /\ 0 <= Ov7670.win_hstart row < 2048
               /\ 0 <= Ov7670.win_edge_offset row < 256).
    { assert (Hc : size = 0 \/ size = 1 \/ size = 2 \/ size = 3 \/ size = 4) by lia.
      destruct Hc as [-> | [-> | [-> | [-> | ->]]]];
        (eexists; split; [reflexivity|]); cbn; lia. }
    destruct Hrow as (row & Hrow & Hv & Hh & He).
    destruct (frame_control_run platform size (Ov7670.win_vstart row)
                (Ov7670.win_hstart row) (Ov7670.win_edge_offset row)
                (Ov7670.win_pclk_delay row) p Hv Hh He)
      as (p' & hs & he & href & vs & ve & vref & Hrun & L1 & _ & L3 & L4 & _ & L6
          & E1 & _ & E3 & E4 & _).
    exists row, p', hs, href, vs, vref.
    split; [exact Hrow|]. split; [|tauto].
    unfold Ov7670.OV7670_set_size, Ov7670.index, mbind, Ov7670.Sensor_bind.
    replace (0 <=? size) with true by (symmetry; apply Z.leb_le; lia).
    rewrite Hrow. exact Hrun.
  - intros Hsize.
    unfold Ov7670.OV7670_set_size, Ov7670.index, mbind, Ov7670.Sensor_bind.
    destruct (Z.leb_spec 0 size) as [Hpos|]; [|reflexivity].
    replace (Ov7670.window !! Z.to_nat size) with (@None Ov7670.window_row);
      [reflexivity|].
    symmetry. apply lookup_ge_None_2. cbn. lia.
Qed.

(** ** The sensor driver: night mode, flip, test pattern *)

Lemma to_u8_range z : 0 <= to_u8 z < 256.
Proof. unfold to_u8. apply Z.mod_pos_bound. lia. Qed.

Lemma flip_bits_byte v flip_x flip_y :
  0 <= v < 256 ->
  let v1 := if (flip_x : bool) then to_u8 (Z.lor v Ov7670.OV7670_MVFP_MIRROR)
            else to_u8 (Z.land v (Z.lnot Ov7670.OV7670_MVFP_MIRROR)) in
  let v2 := if (flip_y : bool) then to_u8 (Z.lor v1 Ov7670.OV7670_MVFP_VFLIP)
            else to_u8 (Z.land v1 (Z.lnot Ov7670.OV7670_MVFP_VFLIP)) in
  Z.testbit v2 5 = flip_x /\ Z.testbit v2 4 = flip_y
  /\ Z.land v2 0xCF = Z.land v 0xCF /\ to_u8 v2 = v2.
Proof.
  intros Hv v1 v2. subst v1 v2.
  assert (Hall : forallb (fun flip_x : bool => forallb (fun flip_y : bool =>
            forallb (fun v =>
              let v1 := if flip_x then to_u8 (Z.lor v Ov7670.OV7670_MVFP_MIRROR)
                        else to_u8 (Z.land v (Z.lnot Ov7670.OV7670_MVFP_MIRROR)) in
              let v2 := if flip_y then to_u8 (Z.lor v1 Ov7670.OV7670_MVFP_VFLIP)
                        else to_u8 (Z.land v1 (Z.lnot Ov7670.OV7670_MVFP_VFLIP)) in
              eqb (Z.testbit v2 5) flip_x && eqb (Z.testbit v2 4) flip_y
              && (Z.land v2 0xCF =? Z.land v 0xCF) && (to_u8 v2 =? v2))
            (seqZ 0 256)) [true; false]) [true; false] = true)
    by (vm_compute; reflexivity).
  cbn [forallb] in Hall. rewrite !andb_true_iff in Hall.
  destruct Hall as ((Htt & Htf & _) & (Hft & Hff & _) & _).
  destruct flip_x, flip_y;
    [ pose proof (range_check _ _ Htt v Hv) as Hchk
    | pose proof (range_check _ _ Htf v Hv) as Hchk
    | pose proof (range_check _ _ Hft v Hv) as Hchk
    | pose proof (range_check _ _ Hff v Hv) as Hchk ];
    cbv beta zeta in Hchk;
    rewrite !andb_true_iff, !Z.eqb_eq, !eqb_true_iff in Hchk; tauto.
Qed.

(** X19: [OV7670_flip] is a read-modify-write of the MVFP register: the
    value it writes has the mirror bit (bit 5) equal to [flip_x] and the
    flip bit (bit 4) equal to [flip_y], and every other bit as in the byte
    it has just read. *)
Theorem OV7670_flip_bits platform flip_x flip_y p :
  exists p' v',
    Ov7670.OV7670_flip platform flip_x flip_y p = Ov7670.Done tt p'
    /\ Ov7670.last_write Ov7670.OV7670_REG_MVFP (Ov7670.port_log p') = Some v'
    /\ Z.testbit v' 5 = flip_x
    /\ Z.testbit v' 4 = flip_y
    /\ Z.land v' 0xCF
       = Z.land (Ov7670.next_read platform Ov7670.OV7670_REG_MVFP p) 0xCF.
Proof.
  unfold Ov7670.OV7670_flip, Ov7670.next_read. sensor_run.
  eexists _, _. split; [reflexivity|].
  cbn [Ov7670.port_log]. split; [last_write_at|].
  match goal with
  | |- context [to_u8 (Ov7670.port_answer p ?l)] =>
      pose proof (to_u8_range (Ov7670.port_answer p l)) as Hv;
      generalize dependent (to_u8 (Ov7670.port_answer p l))
  end.
  intros v Hv.
  rewrite (to_u8_small v Hv).
  destruct (flip_bits_byte v flip_x flip_y Hv) as (B5 & B4 & Brest & Hu8).
  cbv zeta in B5, B4, Brest, Hu8. rewrite Hu8. tauto.
Qed.

Lemma night_bits_byte v bits :
  0 <= v < 256 -> In bits Ov7670.night_bits ->
  let v' := to_u8 (to_u8 (Z.lor (to_u8 (Z.land (to_u8 v) 31)) bits)) in
  Z.land v' 31 = Z.land v 31 /\ Z.land v' 0xE0 = bits.
Proof.
  intros Hv Hbits v'. subst v'.
  assert (Hall : forallb (fun bits => forallb (fun v =>
            let v' := to_u8 (to_u8 (Z.lor (to_u8 (Z.land (to_u8 v) 31)) bits)) in
            (Z.land v' 31 =? Z.land v 31) && (Z.land v' 0xE0 =? bits))
          (seqZ 0 256)) Ov7670.night_bits = true) by (vm_compute; reflexivity).
  rewrite List.forallb_forall in Hall.
  pose proof (range_check _ _ (Hall bits Hbits) v Hv) as Hchk.
  cbv beta zeta in Hchk. rewrite !andb_true_iff, !Z.eqb_eq in Hchk. tauto.
Qed.

(** X20: [OV7670_night] replaces the top three bits of the COM11 register
    by the bits of the night mode and keeps the low five bits of the byte it
    has just read; it indexes its table with the mode unchecked, so for a
    mode that is none of the four it reads past the table, after the
    register read and without writing the register. *)
Theorem OV7670_night_bits platform night p :
  (0 <= night <= 3 ->
   exists p' v',
     Ov7670.OV7670_night platform night p = Ov7670.Done tt p'
     /\ Ov7670.last_write Ov7670.OV7670_REG_COM11 (Ov7670.port_log p') = Some v'
     /\ Z.land v' 31
        = Z.land (Ov7670.next_read platform Ov7670.OV7670_REG_COM11 p) 31
     /\ Z.land v' 0xE0 = (if night =? 0 then 0 else 32 * (4 + night)))
  /\ (~ 0 <= night <= 3 ->
      exists p',
        Ov7670.OV7670_night platform night p = Ov7670.OutOfBounds p'
        /\ Ov7670.last_write Ov7670.OV7670_REG_COM11 (Ov7670.port_log p')
           = Ov7670.last_write Ov7670.OV7670_REG_COM11 (Ov7670.port_log p)).
Proof.
  split.
  - intros Hn.
    assert (Hbits : exists bits,
               Ov7670.night_bits !! Z.to_nat night = Some bits
               /\ In bits Ov7670.night_bits
               /\ bits = (if night =? 0 then 0 else 32 * (4 + night))).
    { assert (Hc : night = 0 \/ night = 1 \/ night = 2 \/ night = 3) by lia.
      destruct Hc as [-> | [-> | [-> | ->]]];
        (eexists; split; [reflexivity|]); cbn; tauto. }
    destruct Hbits as (bits & Hidx & Hin & Hval).
    unfold Ov7670.OV7670_night, Ov7670.next_read, Ov7670.index. sensor_run.
    replace (0 <=? night) with true by (symmetry; apply Z.leb_le; lia).
    rewrite Hidx. sensor_run.
    eexists _, _. split; [reflexivity|].
    cbn [Ov7670.port_log]. split; [last_write_at|].
    match goal with
    | |- context [to_u8 (Ov7670.port_answer p ?l)] =>
        pose proof (to_u8_range (Ov7670.port_answer p l)) as Hv;
        generalize dependent (to_u8 (Ov7670.port_answer p l))
    end.
    intros v Hv.
    destruct (night_bits_byte v bits Hv Hin) as (Blow & Btop).
    cbv zeta in Blow, Btop. rewrite <- Hval. tauto.
  - intros Hn.
    unfold Ov7670.OV7670_night, Ov7670.index. sensor_run.
    assert (Hnone : (if 0 <=? night then Ov7670.night_bits !! Z.to_nat night else None)
                    = None).
    { destruct (Z.leb_spec 0 night) as [Hpos|]; [|reflexivity].
      apply lookup_ge_None_2. cbn. lia. }
    rewrite Hnone. sensor_run.
    eexists. split; [reflexivity|].
    cbn [Ov7670.port_log]. apply last_write_snoc_read.
Qed.

Lemma pattern_bit_byte v pattern k :
  0 <= v < 256 -> 0 <= pattern <= 3 -> In k [1; 2] ->
  let v' := if negb (Z.land pattern k =? 0) then to_u8 (Z.lor (to_u8 v) 0x80)
            else to_u8 (Z.land (to_u8 v) (Z.lnot 0x80)) in
  Z.testbit (to_u8 v') 7 = Z.testbit pattern (k - 1)
  /\ Z.land (to_u8 v') 127 = Z.land v 127.
Proof.
  intros Hv Hp Hk v'. subst v'.
  assert (Hall : forallb (fun k => forallb (fun pattern => forallb (fun v =>
            let v' := if negb (Z.land pattern k =? 0) then to_u8 (Z.lor (to_u8 v) 0x80)
                      else to_u8 (Z.land (to_u8 v) (Z.lnot 0x80)) in
            eqb (Z.testbit (to_u8 v') 7) (Z.testbit pattern (k - 1))
            && (Z.land (to_u8 v') 127 =? Z.land v 127))
          (seqZ 0 256)) (seqZ 0 4)) [1; 2] = true) by (vm_compute; reflexivity).
  rewrite List.forallb_forall in Hall.
  assert (Hp' : 0 <= pattern < 4) by lia.
  pose proof (range_check _ _ (range_check _ _ (Hall k Hk) pattern Hp') v Hv) as Hchk.
  cbv beta zeta in Hchk. rewrite !andb_true_iff, !Z.eqb_eq, !eqb_true_iff in Hchk.
  tauto.
Qed.

(** X21: [OV7670_test_pattern] reads the two scaling registers and writes
    them back with bit 7 of the first set to bit 0 of the pattern, bit 7 of
    the second set to bit 1 of the pattern, and the low seven bits of each
    as in the byte read from it. *)
Theorem OV7670_test_pattern_bits platform pattern p :
  0 <= pattern <= 3 ->
  let xsc := Ov7670.next_read platform Ov7670.OV7670_REG_SCALING_XSC p in
  let p1 := {| Ov7670.port_answer := Ov7670.port_answer p;
               Ov7670.port_log :=
                 Ov7670.port_log p
                 ++ [Ov7670.I2cWrite (i2c_handle platform) OV7670_ADDR
                       [to_u8 Ov7670.OV7670_REG_SCALING_XSC];
                     Ov7670.I2cRead (i2c_handle platform) OV7670_ADDR 1] |} in
  let ysc := Ov7670.next_read platform Ov7670.OV7670_REG_SCALING_YSC p1 in
  exists p' x' y',
    Ov7670.OV7670_test_pattern platform pattern p = Ov7670.Done tt p'
    /\ Ov7670.last_write Ov7670.OV7670_REG_SCALING_XSC (Ov7670.port_log p') = Some x'
    /\ Ov7670.last_write Ov7670.OV7670_REG_SCALING_YSC (Ov7670.port_log p') = Some y'
    /\ Z.testbit x' 7 = Z.testbit pattern 0
    /\ Z.testbit y' 7 = Z.testbit pattern 1
    /\ Z.land x' 127 = Z.land xsc 127
    /\ Z.land y' 127 = Z.land ysc 127.
Proof.
  intros Hp xsc p1 ysc. subst xsc p1 ysc.
  unfold Ov7670.OV7670_test_pattern, Ov7670.next_read. sensor_run.
  eexists _, _, _. split; [reflexivity|].
  cbn [Ov7670.port_log]. split; [last_write_at|]. split; [last_write_at|].
  match goal with
  | |- context [to_u8 (to_u8 (Ov7670.port_answer p ?l))] =>
      pose proof (to_u8_range (Ov7670.port_answer p l)) as Hx;
      generalize dependent (to_u8 (Ov7670.port_answer p l))
  end.
  intros x Hx.
  match goal with
  | |- context [to_u8 (to_u8 (Ov7670.port_answer p ?l))] =>
      pose proof (to_u8_range (Ov7670.port_answer p l)) as Hy;
      generalize dependent (to_u8 (Ov7670.port_answer p l))
  end.
  intros y Hy.
  destruct (pattern_bit_byte x pattern 1 Hx Hp) as (X7 & Xlow); [cbn; tauto|].
  destruct (pattern_bit_byte y pattern 2 Hy Hp) as (Y7 & Ylow); [cbn; tauto|].
  cbv zeta in X7, Xlow, Y7, Ylow.
  change (1 - 1) with 0 in X7. change (2 - 1) with 1 in Y7.
  tauto.
Qed.

(** ** The sensor driver: grey-scale conversion *)

Lemma Y2RGB565_pixel_fields px :
  0 <= px < 2 ^ 16 ->
  let y := px mod 256 in
  let c := Ov7670.bswap16 (Ov7670.Y2RGB565_pixel px) in
  0 <= Ov7670.Y2RGB565_pixel px < 2 ^ 16
  /\ c / 2048 = y / 8 /\ (c / 32) mod 64 = y / 4 /\ c mod 32 = y / 8.
Proof.
  intros Hpx y c. subst y c. unfold Ov7670.Y2RGB565_pixel.
  replace (Z.land px 0xFF) with (px mod 256)
    by (change 0xFF with (Z.ones 8); now rewrite Z.land_ones).
  assert (Hy : 0 <= px mod 256 < 256) by (apply Z.mod_pos_bound; lia).
  generalize dependent (px mod 256). intros y Hy.
  assert (Hall : forallb (fun y =>
            let px' := Ov7670.bswap16
                         (Ov7670.to_u16 (Z.lor (Z.shiftr (to_u8 y) 3 * 0x801)
                                               (Z.shiftl (Z.land (to_u8 y) 0xFC) 3))) in
            let c := Ov7670.bswap16 px' in
            (0 <=? px') && (px' <? 2 ^ 16)
            && (c / 2048 =? y / 8) && ((c / 32) mod 64 =? y / 4) && (c mod 32 =? y / 8))
          (seqZ 0 256) = true) by (vm_compute; reflexivity).
  pose proof (range_check _ _ Hall y Hy) as Hchk.
  cbv beta zeta in Hchk.
  rewrite !andb_true_iff, !Z.eqb_eq, Z.leb_le, Z.ltb_lt in Hchk. tauto.
Qed.

Lemma Y2RGB565_run pixels len :
  (len <= length pixels)%nat ->
  Ov7670.OV7670_Y2RGB565 pixels len =
  Some (map Ov7670.Y2RGB565_pixel (take len pixels) ++ drop len pixels).
Proof.
  revert pixels. induction len as [|len IH]; intros pixels Hlen.
  - reflexivity.
  - destruct pixels as [|px rest]; [cbn in Hlen; lia|].
    cbn [Ov7670.OV7670_Y2RGB565 take drop map app].
    rewrite IH by (cbn in Hlen; lia). reflexivity.
Qed.

Lemma Y2RGB565_overrun pixels len :
  (length pixels < len)%nat -> Ov7670.OV7670_Y2RGB565 pixels len = None.
Proof.
  revert pixels. induction len as [|len IH]; intros pixels Hlen.
  - lia.
  - destruct pixels as [|px rest]; [reflexivity|].
    cbn [Ov7670.OV7670_Y2RGB565].
    rewrite IH by (cbn in Hlen; lia). reflexivity.
Qed.

(** X22: [OV7670_Y2RGB565] turns the first [len] pixels of the array, in
    place, into grey RGB565 pixels with the two bytes swapped: red and blue
    are the top five bits, green the top six bits, of the low byte of the
    pixel; the pixels after them are left as they are.  With [len] larger
    than the array the loop leaves the array. *)
Theorem OV7670_Y2RGB565_grey pixels len :
  Forall (fun px => 0 <= px < 2 ^ 16) pixels ->
  ((len <= length pixels)%nat ->
   exists out,
     Ov7670.OV7670_Y2RGB565 pixels len = Some out
     /\ length out = length pixels
     /\ drop len out = drop len pixels
     /\ forall i px, (i < len)%nat -> pixels !! i = Some px ->
         exists px',
           out !! i = Some px'
           /\ 0 <= px' < 2 ^ 16
           /\ Ov7670.bswap16 px' / 2048 = px mod 256 / 8
           /\ (Ov7670.bswap16 px' / 32) mod 64 = px mod 256 / 4
           /\ Ov7670.bswap16 px' mod 32 = px mod 256 / 8)
  /\ ((length pixels < len)%nat -> Ov7670.OV7670_Y2RGB565 pixels len = None).
Proof.
  intros Hpx. split.
  - intros Hlen. eexists. split; [now apply Y2RGB565_run|].
    assert (Hl : length (map Ov7670.Y2RGB565_pixel (take len pixels)) = len)
      by (rewrite length_map, length_take; lia).
    split; [|split].
    + rewrite length_app, Hl, length_drop. lia.
    + rewrite drop_app_length'; [reflexivity | now symmetry].
    + intros i px Hi Hget.
      exists (Ov7670.Y2RGB565_pixel px). split.
      * rewrite lookup_app_l by lia.
        rewrite list_lookup_fmap, lookup_take_lt by lia. now rewrite Hget.
      * rewrite Forall_lookup in Hpx.
        apply (Y2RGB565_pixel_fields px (Hpx i px Hget)).
  - apply Y2RGB565_overrun.
Qed.

(** ** The display *)

Ltac lcd_run :=
  unfold mbind, Lcd.Display_bind, mret, Lcd.Display_ret,
    Lcd.SSD1283A_write_register, Lcd.SSD1283A_write_command, Lcd.SSD1283A_write_data,
    Lcd.SSD1283A_write_color_16bit,
    Lcd.cs_select, Lcd.cs_deselect, Lcd.dc_command, Lcd.dc_data,
    Lcd.gpio_put_pin, Lcd.spi_write, Lcd.put, Lcd.undefined.

Ltac lcd_run_with Hp := repeat progress (lcd_run; rewrite ?Hp; cbv beta iota).

Lemma u16_bytes v :
  0 <= v < 2 ^ 16 ->
  to_u8 (Z.shiftr v 8) = v / 256 /\ to_u8 (Z.land v 0xFF) = v mod 256.
Proof.
  intros Hv. rewrite Z.shiftr_div_pow2 by lia. change (2 ^ 8) with 256.
  change 0xFF with (Z.ones 8). rewrite Z.land_ones by lia. change (2 ^ 8) with 256.
  unfold to_u8. change (2 ^ 8) with 256. split.
  - apply Z.mod_small. split; [apply Z.div_pos; lia | apply Z.div_lt_upper_bound; lia].
  - apply Z.mod_small. apply Z.mod_pos_bound. lia.
Qed.

Lemma to_u16_range z : 0 <= Lcd.to_u16 z < 2 ^ 16.
Proof. unfold Lcd.to_u16. apply Z.mod_pos_bound. lia. Qed.

Lemma write_color_run host p c color log :
  Lcd.pins host = Some p ->
  Lcd.SSD1283A_write_color_16bit host (Some c) color log
  = Lcd.Shown tt (log ++ Lcd.pixel_ops p c color).
Proof.
  intros Hp. lcd_run_with Hp.
  destruct (u16_bytes (Lcd.to_u16 color) (to_u16_range color)) as [-> ->].
  unfold Lcd.pixel_ops. now rewrite <- !app_assoc.
Qed.

Lemma image_loop_run host p c color n log :
  Lcd.pins host = Some p ->
  0 <= n <= Z.of_nat (length color) ->
  Lcd.image_loop host (Some c) n color log
  = Lcd.Shown tt (log ++ flat_map (Lcd.pixel_ops p c) (take (Z.to_nat n) color)).
Proof.
  intros Hp. revert n log. induction color as [|px rest IH]; intros n log Hn.
  - cbn in Hn. assert (n = 0) as -> by lia. cbn. now rewrite app_nil_r.
  - cbn [Lcd.image_loop].
    destruct (Z.leb_spec n 0) as [Hz|Hpos].
    + assert (n = 0) as -> by lia. cbn. now rewrite app_nil_r.
    + unfold mbind, Lcd.Display_bind. rewrite (write_color_run host p c px log Hp).
      rewrite IH by (cbn [length] in Hn; lia).
      replace (Z.to_nat n) with (S (Z.to_nat (n - 1))) by lia.
      cbn [take flat_map]. now rewrite <- !app_assoc.
Qed.

Lemma image_loop_overrun host p c color n log :
  Lcd.pins host = Some p ->
  Z.of_nat (length color) < n ->
  Lcd.image_loop host (Some c) n color log
  = Lcd.Undefined (log ++ flat_map (Lcd.pixel_ops p c) color).
Proof.
  intros Hp. revert n log. induction color as [|px rest IH]; intros n log Hn.
  - cbn in Hn. cbn [Lcd.image_loop].
    destruct (Z.leb_spec n 0); [lia|]. cbn. now rewrite app_nil_r.
  - cbn [Lcd.image_loop]. cbn [length] in Hn.
    destruct (Z.leb_spec n 0); [lia|].
    unfold mbind, Lcd.Display_bind. rewrite (write_color_run host p c px log Hp).
    rewrite IH by lia. cbn [flat_map]. now rewrite <- !app_assoc.
Qed.

Lemma fill_loop_run host p c color n log :
  Lcd.pins host = Some p ->
  Lcd.fill_loop host (Some c) n color log
  = Lcd.Shown tt (log ++ concat (replicate n (Lcd.pixel_ops p c color))).
Proof.
  intros Hp. revert log. induction n as [|n IH]; intros log.
  - cbn. now rewrite app_nil_r.
  - cbn [Lcd.fill_loop]. unfold mbind, Lcd.Display_bind.
    rewrite (write_color_run host p c color log Hp), IH.
    cbn [replicate concat]. now rewrite <- !app_assoc.
Qed.

Lemma lor_shiftl_8 a b :
  0 <= a -> 0 <= b < 256 -> Z.lor (Z.shiftl a 8) b = a * 256 + b.
Proof.
  intros Ha Hb.
  assert (Hland : Z.land (Z.shiftl a 8) b = 0).
  { apply Z.bits_inj'. intros n Hn. rewrite Z.land_spec, Z.bits_0.
    destruct (Z.lt_ge_cases n 8) as [Hlow|Hhigh].
    - now rewrite Z.shiftl_spec_low by lia.
    - assert (Hbit : Z.testbit b n = false).
      { apply Z.testbit_false; [lia|].
        rewrite Z.div_small; [reflexivity|].
        split; [lia|]. apply Z.lt_le_trans with (2 ^ 8); [lia|].
        apply Z.pow_le_mono_r; lia. }
      rewrite Hbit. apply andb_false_r. }
  rewrite <- (Z.lxor_lor _ _ Hland), <- (Z.add_nocarry_lxor _ _ Hland).
  now rewrite Z.shiftl_mul_pow2 by lia.
Qed.

Lemma window_value x_end x_start :
  0 <= x_end < 2 ^ 16 -> 0 <= x_start < 256 ->
  let value := Lcd.to_u16 (Z.lor (Z.shiftl x_end 8) x_start) in
  to_u8 (Z.shiftr value 8) = x_end mod 256 /\ to_u8 (Z.land value 0xFF) = x_start.
Proof.
  intros He Hs value. subst value. rewrite lor_shiftl_8 by lia.
  destruct (u16_bytes (Lcd.to_u16 (x_end * 256 + x_start)) (to_u16_range _)) as [-> ->].
  unfold Lcd.to_u16. change (2 ^ 16) with (256 * 256).
  pose proof (Z.div_mod x_end 256 ltac:(lia)) as Hdm.
  pose proof (Z.mod_pos_bound x_end 256 ltac:(lia)) as Hr.
  assert (Hq : 0 <= x_end / 256 < 256)
    by (split; [apply Z.div_pos; lia | apply Z.div_lt_upper_bound; lia]).
  assert (Hmod : (x_end * 256 + x_start) mod (256 * 256)
                 = (x_end mod 256) * 256 + x_start).
  { symmetry. apply (Z.mod_unique _ _ (x_end / 256)); [left; nia | nia]. }
  rewrite Hmod. split.
  - symmetry. apply (Z.div_unique _ _ _ x_start); [left; lia | lia].
  - symmetry. apply (Z.mod_unique _ _ (x_end mod 256)); [left; lia | lia].
Qed.

(** The six calls that set the window, followed by the rest of the
    function. *)
Lemma window_run host p c x_start x_end y_start y_end (rest : Lcd.Display unit) log :
  Lcd.pins host = Some p ->
  0 <= x_end < 2 ^ 16 -> 0 <= y_end < 2 ^ 16 ->
  0 <= x_start < 256 -> 0 <= y_start < 256 ->
  (Lcd.SSD1283A_write_register host (Some c) Lcd.SSD1283A_CMD_HORIZONTAL_RAM_ADDR
     (Z.lor (Z.shiftl x_end 8) x_start);;
   Lcd.SSD1283A_write_register host (Some c) Lcd.SSD1283A_CMD_VERTICAL_RAM_ADDR
     (Z.lor (Z.shiftl y_end 8) y_start);;
   Lcd.SSD1283A_write_command host (Some c) Lcd.SSD1283A_CMD_SET_GDDRAM_XY;;
   Lcd.SSD1283A_write_data host (Some c) x_start;;
   Lcd.SSD1283A_write_data host (Some c) y_start;;
   Lcd.SSD1283A_write_command host (Some c) Lcd.SSD1283A_CMD_RAM_WRITE;;
   rest) log
  = rest (log ++ Lcd.window_ops p c x_start (x_end mod 256) y_start (y_end mod 256)).
Proof.
  intros Hp Hx Hy Hxs Hys.
  destruct (window_value x_end x_start Hx Hxs) as [Hx1 Hx2].
  destruct (window_value y_end y_start Hy Hys) as [Hy1 Hy2].
  cbv zeta in Hx1, Hx2, Hy1, Hy2.
  assert (Hxb : to_u8 x_start = x_start) by (unfold to_u8; apply Z.mod_small; lia).
  assert (Hyb : to_u8 y_start = y_start) by (unfold to_u8; apply Z.mod_small; lia).
  lcd_run_with Hp.
  rewrite Hx1, Hx2, Hy1, Hy2, Hxb, Hyb.
  unfold Lcd.window_ops, Lcd.register_ops, Lcd.command_ops, Lcd.data_ops.
  rewrite <- !app_assoc. reflexivity.
Qed.

(** X23: what [lcd_show_image] sends.  For an initialised display and an
    image at least 31 pixels wide and high, it sets the window from (30, 30)
    to (width - 1, height - 1), each coordinate cut to eight bits, and then
    sends the first (width - 31) * (height - 31) pixels of the array, in
    order, high byte first: fewer pixels than the window has, and fewer than
    the image has. *)
Theorem lcd_show_image_pixels lcd p c width height color log :
  Lcd.pins (Lcd.driver_host lcd) = Some p ->
  Lcd.platform (Lcd.driver_host lcd) = Some c ->
  31 <= width < 2 ^ 16 -> 31 <= height < 2 ^ 16 ->
  (width - 31) * (height - 31) < 2 ^ 31 ->
  (width - 31) * (height - 31) <= Z.of_nat (length color) ->
  Lcd.lcd_show_image lcd width height color log
  = Lcd.Shown tt
      (log
       ++ Lcd.window_ops p c 30 ((width - 1) mod 256) 30 ((height - 1) mod 256)
       ++ flat_map (Lcd.pixel_ops p c)
            (take (Z.to_nat ((width - 31) * (height - 31))) color))
  /\ (width - 31) * (height - 31) < (width - 30) * (height - 30)
  /\ (width - 30) * (height - 30) < width * height.
Proof.
  intros Hp Hc Hw Hh Hn Hlen. split; [|nia].
  unfold Lcd.lcd_show_image. rewrite Hc.
  replace (Lcd.to_u16 (width - 1)) with (width - 1)
    by (unfold Lcd.to_u16; rewrite Z.mod_small; lia).
  replace (Lcd.to_u16 (height - 1)) with (height - 1)
    by (unfold Lcd.to_u16; rewrite Z.mod_small; lia).
  replace ((width - 1 - 30) * (height - 1 - 30)) with ((width - 31) * (height - 31))
    by lia.
  set (n := (width - 31) * (height - 31)) in *.
  assert (Hn0 : 0 <= n) by (subst n; nia).
  rewrite (window_run (Lcd.driver_host lcd) p c 30 (width - 1) 30 (height - 1) _ log Hp)
    by lia.
  replace ((n <? - 2 ^ 31) || (2 ^ 31 <=? n)) with false
    by (symmetry; apply orb_false_iff; split; [apply Z.ltb_ge | apply Z.leb_gt]; lia).
  replace (to_u32 n) with n by (unfold to_u32; rewrite Z.mod_small; lia).
  rewrite (image_loop_run _ p c color n _ Hp) by lia.
  now rewrite <- app_assoc.
Qed.

(** X24: [lcd_show_image] on an image whose width or height, but not
    both, is between 1 and 30: the difference of the window ends is negative
    in one direction and positive in the other, the loop bound is a negative
    [int] that the comparison converts to an unsigned number above
    4 * 10^9, and the loop sends every pixel of the array and then reads
    past its end. *)
Theorem lcd_show_image_overrun lcd p c width height color log :
  Lcd.pins (Lcd.driver_host lcd) = Some p ->
  Lcd.platform (Lcd.driver_host lcd) = Some c ->
  0 <= width < 2 ^ 16 -> 0 <= height < 2 ^ 16 ->
  (Lcd.to_u16 (width - 1) - 30) * (Lcd.to_u16 (height - 1) - 30) < 0 ->
  Z.of_nat (length color) < 2 ^ 31 ->
  Lcd.lcd_show_image lcd width height color log
  = Lcd.Undefined
      (log
       ++ Lcd.window_ops p c 30 (Lcd.to_u16 (width - 1) mod 256)
            30 (Lcd.to_u16 (height - 1) mod 256)
       ++ flat_map (Lcd.pixel_ops p c) color).
Proof.
  intros Hp Hc Hw Hh Hneg Hlen.
  unfold Lcd.lcd_show_image. rewrite Hc.
  pose proof (to_u16_range (width - 1)) as Hx.
  pose proof (to_u16_range (height - 1)) as Hy.
  set (x_end := Lcd.to_u16 (width - 1)) in *.
  set (y_end := Lcd.to_u16 (height - 1)) in *.
  set (n := (x_end - 30) * (y_end - 30)) in *.
  assert (Hn : - 1965150 <= n) by (subst n; nia).
  rewrite (window_run (Lcd.driver_host lcd) p c 30 x_end 30 y_end _ log Hp) by lia.
  replace ((n <? - 2 ^ 31) || (2 ^ 31 <=? n)) with false
    by (symmetry; apply orb_false_iff; split; [apply Z.ltb_ge | apply Z.leb_gt]; lia).
  assert (Hu : to_u32 n = n + 2 ^ 32).
  { unfold to_u32. rewrite <- (Z.mod_add n 1 (2 ^ 32)) by lia.
    rewrite Z.mul_1_l. apply Z.mod_small. lia. }
  rewrite Hu.
  rewrite (image_loop_overrun _ p c color _ _ Hp) by lia.
  now rewrite <- app_assoc.
Qed.

(** X25: what [lcd_fill_screen] sends: it sets the window from (0, 0) to
    (134, 134), which holds 135 * 135 pixels, and then sends the colour
    134 * 134 = 17956 times. *)
Theorem lcd_fill_screen_pixels lcd p c color log :
  Lcd.pins (Lcd.driver_host lcd) = Some p ->
  Lcd.platform (Lcd.driver_host lcd) = Some c ->
  Lcd.lcd_fill_screen lcd color log
  = Lcd.Shown tt
      (log ++ Lcd.window_ops p c 0 134 0 134
       ++ concat (replicate (Z.to_nat (134 * 134)) (Lcd.pixel_ops p c color))).
Proof.
  intros Hp Hc. unfold Lcd.lcd_fill_screen. rewrite Hc.
  change (135 - 1) with 134.
  replace (to_u32 ((134 - 0) * (134 - 0))) with (134 * 134) by reflexivity.
  rewrite (window_run (Lcd.driver_host lcd) p c 0 134 0 134 _ log Hp) by lia.
  change (134 mod 256) with 134.
  rewrite (fill_loop_run _ p c color _ _ Hp).
  now rewrite <- app_assoc.
Qed.

(** ** The PIO block: initialisation and configuration *)



Lemma camera_pio_configure_run camera cam platform format width height w :
  supported_format format ->
  camera_wf cam ->
  host_platform (cam_driver_host cam) = Some platform ->
  w_cams w !! camera = Some (configured_camera platform format width height cam) ->
  let p := pio platform in
  camera_pio_configure camera w =
  Ok tt
    (set_w_trace
       (w_trace w
        ++ [EvPioSetSmMaskEnabled p 15 false;
            EvPioRestartSmMask p 15;
            EvPioSmClearFifos p 0;
            EvPioSmClearFifos p 1;
            EvPioSmClearFifos p 2;
            EvPioSmClearFifos p 3;
            EvCameraPioPatchPixelLoop p (cam_frame_offset cam)
              (Some (if format =? FORMAT_YUV422 then pixel_loop_yu16_program
                     else pixel_loop_yuyv_program))]
        ++ flat_map
             (fun i =>
                [EvPioSmInit p (i + 1) (cam_shift_byte_offset cam)
                   (camera_pio_get_read_byte_sm_config p (i + 1)
                      (cam_shift_byte_offset cam) (base_pin platform)
                      (__dma_transfer_size_to_bytes (camera_transfer_size format i) * 8));
                 EvPioSmSetEnabled p (i + 1) true])
             (seqZ 0 (format_num_planes format))
        ++ [EvPioSmInit p 0 (cam_frame_offset cam)
              (camera_pio_get_frame_sm_config p 0 (cam_frame_offset cam)
                 (base_pin platform));
            EvPioSmSetEnabled p 0 true])
       w).
Proof.
  intros Hf (Hch & Htr & Hoff & Hcfg & Hsm) Hp Hcam p. subst p.
  unfold camera_pio_configure.
  rewrite (bind_ok _ _ _ _ _ (load_camera_ok _ _ _ Hcam)).
  erewrite bind_ok; cycle 1.
  { apply platform_of_ok. rewrite configured_camera_host. exact Hp. }
  unfold emit. do 3 f_equal.
  destruct cam as [host fo so chs cfg pend pcb pdata].
  destruct cfg as [cf cw chh trs offs cfgs sms]. cbn in Hch, Htr, Hoff, Hcfg, Hsm.
  apply length3_inv in Hch as (c0 & c1 & c2 & ->).
  apply length3_inv in Htr as (t0 & t1 & t2 & ->).
  apply length3_inv in Hoff as (o0 & o1 & o2 & ->).
  apply length3_inv in Hcfg as (g0 & g1 & g2 & ->).
  apply length4_inv in Hsm as (s0 & s1 & s2 & s3 & ->).
  destruct Hf as [-> | [-> | ->]]; reflexivity.
Qed.

(** X27: [camera_pio_configure] on a context that holds what the statements
    of [camera_configure] write for a supported format: it disables and
    restarts the four state machines, clears their FIFOs, patches the frame
    program with the pixel loop of the format (the YUYV loop for the two
    packed formats, the YU16 loop for the planar one), then initialises and
    enables state machine i+1 for each plane i with the read-byte
    configuration for that plane's transfer width in bits, and last the frame
    state machine 0 with the frame configuration; it changes nothing but the
    hardware. *)
Theorem camera_pio_configure_effect camera cam platform format width height w :
  supported_format format ->
  camera_wf cam ->
  host_platform (cam_driver_host cam) = Some platform ->
  w_cams w !! camera = Some (configured_camera platform format width height cam) ->
  let p := pio platform in
  camera_pio_configure camera w =
  Ok tt
    (set_w_trace
       (w_trace w
        ++ [EvPioSetSmMaskEnabled p 15 false;
            EvPioRestartSmMask p 15;
            EvPioSmClearFifos p 0;
            EvPioSmClearFifos p 1;
            EvPioSmClearFifos p 2;
            EvPioSmClearFifos p 3;
            EvCameraPioPatchPixelLoop p (cam_frame_offset cam)
              (Some (if format =? FORMAT_YUV422 then pixel_loop_yu16_program
                     else pixel_loop_yuyv_program))]
        ++ flat_map
             (fun i =>
                [EvPioSmInit p (i + 1) (cam_shift_byte_offset cam)
                   (camera_pio_get_read_byte_sm_config p (i + 1)
                      (cam_shift_byte_offset cam) (base_pin platform)
                      (__dma_transfer_size_to_bytes (camera_transfer_size format i) * 8));
                 EvPioSmSetEnabled p (i + 1) true])
             (seqZ 0 (format_num_planes format))
        ++ [EvPioSmInit p 0 (cam_frame_offset cam)
              (camera_pio_get_frame_sm_config p 0 (cam_frame_offset cam)
                 (base_pin platform));
            EvPioSmSetEnabled p 0 true])
       w).
Proof. exact (camera_pio_configure_run camera cam platform format width height w). Qed.


End DriverFacts.

(** * Runs on the simulated platform *)

Import Scenario.

#[local] Existing Instance Sim.sdk.

Ltac decide_by_computation := refine (bool_decide_unpack _ _); vm_compute; exact I.

(** C8 at work: DMA channel 0 is held by another driver.  The
    initialisation of context B at 2000 on PIO1 finds no sensor and fails
    before it claims any channel; [camera_term] on B then unclaims
    channel 0. *)
Lemma camera_term_unclaims_foreign_channel_witness :
  camera_init 2000 platform_b w_no_sensor = Ok (-1) w_b_failed
  /\ camera_term 2000 w_b_failed = Ok tt w_b_terminated
  /\ w_dma_claimed w_no_sensor = {[ 0 ]}
  /\ w_dma_claimed w_b_failed = w_dma_claimed w_no_sensor
  /\ cam_dma_channels <$> (w_cams w_b_failed !! 2000) = Some [0; 0; 0]
  /\ 0 ∈ w_dma_claimed w_b_failed
  /\ (0 ∉ w_dma_claimed w_b_terminated).
Proof.
  assert (Hinit : camera_init 2000 platform_b w_no_sensor = Ok (-1) w_b_failed)
    by (vm_compute; reflexivity).
  assert (Hterm : camera_term 2000 w_b_failed = Ok tt w_b_terminated)
    by (vm_compute; reflexivity).
  destruct (camera_term_unclaims_foreign_channel 2000 platform_b w_no_sensor (-1)
              w_b_failed ltac:(discriminate) ltac:(decide_by_computation) Hinit)
    as (_ & Hkept & Hch & w2 & cam2 & Hterm2 & Hin & Hout & _).
  rewrite Hterm in Hterm2. injection Hterm2 as <-.
  split; [exact Hinit|]. split; [exact Hterm|]. split; [reflexivity|].
  split; [exact Hkept|]. split; [exact Hch|]. split; [exact Hin | exact Hout].
Defined.

(** C2 at work.  On context B, whose initialisation failed, a capture into
    the 160 x 120 buffer with [allow_reconfigure] set returns 0 and leaves
    the request pending while the context is configured for nothing.  On
    context A, configured for RGB565 at 80 x 60, the same capture arms the
    DMA channel with the transfer count of the 80 x 60 configuration and
    triggers the frame for 160 x 120. *)
Lemma camera_do_frame_ignores_configure_failure_witness :
  (camera_configure 2000 FORMAT_RGB565 160 120 w_b_failed = Ok (-1) w_b_failed
   /\ camera_capture_with_cb 2000 5000 true 7 9 w_b_failed = Ok 0 w_b_capturing
   /\ cam_pending <$> (w_cams w_b_capturing !! 2000) = Some 5000
   /\ cam_config <$> (w_cams w_b_capturing !! 2000) = Some camera_config_zero
   /\ w_trace w_b_capturing
      = w_trace w_b_failed ++ [EvCameraPioTriggerFrame pio1 80 120])
  /\ (camera_capture_with_cb 1000 5000 true 7 9 w_a_rgb = Ok 0 w_a_capturing
      /\ cam_pending <$> (w_cams w_a_capturing !! 1000) = Some 5000
      /\ (fun c => (cfg_format c, cfg_width c, cfg_height c)) ∘ cam_config
           <$> (w_cams w_a_capturing !! 1000)
         = Some (FORMAT_RGB565, 80, 60)
      /\ (buf_format buffer_160x120, buf_width buffer_160x120,
          buf_height buffer_160x120) = (FORMAT_RGB565, 160, 120)
      /\ w_trace w_a_capturing =
         w_trace w_a_rgb
         ++ [EvDmaChannelConfigure 0
               (Sim.Build_dma_cfg 0 DMA_SIZE_32 false true 5) 6000 pio0 1 0 2400 true;
             EvCameraPioTriggerFrame pio0 80 120]).
Proof.
  split.
  - destruct (camera_do_frame_ignores_configure_failure 2000
                (camera_at 2000 w_b_failed) platform_b 5000 buffer_160x120 7 9
                w_b_failed
                ltac:(vm_compute; reflexivity) ltac:(vm_compute; reflexivity)
                ltac:(vm_compute; reflexivity) ltac:(vm_compute; reflexivity)
                ltac:(vm_compute; reflexivity)
                ltac:(left; vm_compute; discriminate))
      as (w' & cam' & Hrej & _ & Hrun & _).
    assert (Hw : camera_capture_with_cb 2000 5000 true 7 9 w_b_failed
                 = Ok 0 w_b_capturing) by (vm_compute; reflexivity).
    split; [exact Hrej|]. split; [exact Hw|].
    repeat split; vm_compute; reflexivity.
  - destruct (camera_do_frame_ignores_configure_failure 1000
                (camera_at 1000 w_a_rgb) platform_a 5000 buffer_160x120 7 9
                w_a_rgb
                ltac:(vm_compute; reflexivity) ltac:(vm_compute; reflexivity)
                ltac:(vm_compute; reflexivity) ltac:(vm_compute; reflexivity)
                ltac:(vm_compute; reflexivity)
                ltac:(left; vm_compute; discriminate))
      as (w' & cam' & _ & _ & Hrun & _).
    assert (Hw : camera_capture_with_cb 1000 5000 true 7 9 w_a_rgb
                 = Ok 0 w_a_capturing) by (vm_compute; reflexivity).
    split; [exact Hw|].
    repeat split; vm_compute; reflexivity.
Defined.

Lemma w_boot_heap_wf : heap_wf w_boot.
Proof.
  split; [reflexivity|]. intros a Ha. cbn in Ha. split.
  - apply lookup_empty.
  - unfold w_boot. cbn [w_bufs].
    rewrite !lookup_insert_ne by lia. apply lookup_singleton_ne. lia.
Defined.

(** C1 at work: context A with its capture into buffer 5000 pending refuses
    another capture and stays as it is; idle, it answers a capture into a
    buffer of another size, reconfiguration not allowed, with -1. *)
Lemma camera_do_frame_busy_witness :
  (camera_do_frame [] 1000 5000 7 9 true false w_a_capturing = Ok (-2) w_a_capturing
   /\ camera_capture_blocking [] 1000 5000 true w_a_capturing = Ok (-2) w_a_capturing
   /\ camera_capture_with_cb 1000 5000 true 7 9 w_a_capturing = Ok (-2) w_a_capturing)
  /\ camera_do_frame [] 1000 5000 7 9 false false w_a_rgb = Ok (-1) w_a_rgb
  /\ ((-1 : Z) = 0 \/ (-1 : Z) = -1).
Proof.
  split; [|split; [vm_compute; reflexivity|]].
  - assert (Hcam : w_cams w_a_capturing !! 1000 = Some (camera_at 1000 w_a_capturing))
      by (vm_compute; reflexivity).
    apply (proj1 (camera_do_frame_busy [] 1000 _ 5000 7 9 true false _ Hcam)).
    vm_compute. discriminate.
  - assert (Hcam : w_cams w_a_rgb !! 1000 = Some (camera_at 1000 w_a_rgb))
      by (vm_compute; reflexivity).
    apply (proj2 (camera_do_frame_busy [] 1000 _ 5000 7 9 false false _ Hcam)
             ltac:(vm_compute; reflexivity) (-1) w_a_rgb).
    vm_compute. reflexivity.
Defined.

(** C5 at work on context B, whose initialisation found no sensor. *)
Lemma camera_configure_outcome_witness :
  camera_configure 2000 FORMAT_RGB565 160 120 w_b_failed = Ok (-1) w_b_failed
  /\ camera_configure 2000 FORMAT_RGB565 80 60 w_b_failed = Fault OutOfBounds.
Proof.
  assert (Hcam : w_cams w_b_failed !! 2000 = Some (camera_at 2000 w_b_failed))
    by (vm_compute; reflexivity).
  assert (Hp : host_platform (cam_driver_host (camera_at 2000 w_b_failed))
               = Some platform_b) by (vm_compute; reflexivity).
  split.
  - apply (proj1 (camera_configure_outcome 2000 _ _ FORMAT_RGB565 160 120 _ Hcam Hp)).
    left. vm_compute. discriminate.
  - apply (proj2 (camera_configure_outcome 2000 _ _ FORMAT_RGB565 80 60 _ Hcam Hp)).
    split; reflexivity.
Defined.

(** C6 at work on context B: configuring it for YUV422 at 80 x 60 does not
    return; the values its plane 1 would get are single bytes, read at
    offset 3, 2400 of them. *)
Lemma camera_configure_dma_parameters_unreached_witness :
  camera_configure 2000 FORMAT_YUV422 80 60 w_b_failed = Fault OutOfBounds
  /\ camera_transfer_size FORMAT_YUV422 1 = DMA_SIZE_8
  /\ cfg_dma_cfgs (cam_config (configured_camera platform_b FORMAT_YUV422 80 60
                                 (camera_at 2000 w_b_failed))) !! 1%nat
     = Some (Sim.Build_dma_cfg 0 DMA_SIZE_8 false true 14)
  /\ cfg_dma_offset (cam_config (configured_camera platform_b FORMAT_YUV422 80 60
                                   (camera_at 2000 w_b_failed))) !! 1%nat
     = Some 3
  /\ cfg_dma_transfers (cam_config (configured_camera platform_b FORMAT_YUV422 80 60
                                      (camera_at 2000 w_b_failed))) !! 1%nat
     = Some 2400.
Proof.
  assert (Hcam : w_cams w_b_failed !! 2000 = Some (camera_at 2000 w_b_failed))
    by (vm_compute; reflexivity).
  assert (Hp : host_platform (cam_driver_host (camera_at 2000 w_b_failed))
               = Some platform_b) by (vm_compute; reflexivity).
  assert (Hwf : camera_wf (camera_at 2000 w_b_failed))
    by (repeat split; vm_compute; reflexivity).
  destruct (camera_configure_dma_parameters_unreached 2000 _ _ FORMAT_YUV422 1 _
              (or_intror (or_intror eq_refl)) Hwf Hcam Hp
              ltac:(vm_compute; split; [discriminate | reflexivity]))
    as (Hrun & Hsize & _ & Hcfg & Hoff & Htr).
  repeat split; assumption.
Defined.

(** C9 at work on context B. *)
Lemma camera_configure_never_twice_witness :
  camera_configure 2000 FORMAT_RGB565 80 60 w_b_failed = Fault OutOfBounds
  /\ configured_camera platform_b FORMAT_RGB565 80 60
       (configured_camera platform_b FORMAT_RGB565 80 60 (camera_at 2000 w_b_failed))
     = configured_camera platform_b FORMAT_RGB565 80 60 (camera_at 2000 w_b_failed).
Proof.
  assert (Hcam : w_cams w_b_failed !! 2000 = Some (camera_at 2000 w_b_failed))
    by (vm_compute; reflexivity).
  assert (Hp : host_platform (cam_driver_host (camera_at 2000 w_b_failed))
               = Some platform_b) by (vm_compute; reflexivity).
  apply (camera_configure_never_twice 2000 _ _ FORMAT_RGB565 _ Hcam Hp).
Defined.


(** C4 at work: an RGB565 buffer of 80 x 60 allocated at boot has one plane
    of stride 160 and size 9600. *)
Lemma camera_buffer_alloc_all_or_nothing_witness :
  exists buf w' b,
    camera_buffer_alloc FORMAT_RGB565 80 60 w_boot = Ok buf w'
    /\ buf <> NULL
    /\ w_bufs w' !! buf = Some b
    /\ buf_strides b !! 0%nat = Some 160
    /\ buf_sizes b !! 0%nat = Some 9600.
Proof.
  destruct (camera_buffer_alloc_all_or_nothing FORMAT_RGB565 80 60 w_boot
              (or_intror (or_introl eq_refl)) w_boot_heap_wf)
    as [(buf & w' & Hrun & Hbuilt) _].
  cbn in Hbuilt. destruct Hbuilt as (Hnn & b & Hb & _ & _ & _ & Hplanes).
  destruct (Hplanes 0 ltac:(vm_compute; split; [discriminate | reflexivity]))
    as (Hstride & Hsize & _).
  exists buf, w', b. repeat split; assumption.
Defined.

(** C10 at work: format code 0 at boot. *)
Lemma camera_buffer_alloc_unsupported_format_witness :
  format_num_planes 0 = 0
  /\ exists buf w',
      camera_buffer_alloc 0 80 60 w_boot = Ok buf w'
      /\ buf <> NULL
      /\ w_heap w' = <[buf := sizeof_camera_buffer]> (w_heap w_boot)
      /\ w_bufs w' !! buf =
           Some {| buf_format := 0; buf_width := 80; buf_height := 60;
                   buf_strides := [0; 0; 0]; buf_sizes := [0; 0; 0];
                   buf_data := [NULL; NULL; NULL] |}.
Proof.
  apply (camera_buffer_alloc_unsupported_format 0 80 60 w_boot).
  - intros [Hf | [Hf | Hf]]; discriminate Hf.
  - exact w_boot_heap_wf.
  - discriminate.
Defined.

(** X1 at work: idle context A, configured for 80 x 60, and the
    160 x 120 buffer with reconfiguration not allowed. *)
Lemma camera_do_frame_reconfigure_forbidden_witness :
  camera_do_frame [] 1000 5000 7 9 false false w_a_rgb = Ok (-1) w_a_rgb.
Proof.
  apply (camera_do_frame_reconfigure_forbidden [] 1000
           (camera_at 1000 w_a_rgb) 5000 buffer_160x120 7 9 false w_a_rgb);
    vm_compute; reflexivity.
Defined.


(** X3 at work: context A captures into the RGB565 buffer of
    80 x 60; the frame interrupt of PIO0 is served during the third sleep. *)
Lemma camera_capture_blocking_completes_witness :
  (exists w',
     camera_capture_blocking [None; None; Some pio0] 1000 5200 false w_a_rgb = Ok 0 w'
     /\ w_cams w' !! 1000 = Some (set_cam_pending NULL NULL NULL (camera_at 1000 w_a_rgb)))
  /\ camera_capture_blocking [None; None] 1000 5200 false w_a_rgb = Fault NoCompletion.
Proof.
  destruct (camera_capture_blocking_completes 2 [] 1000 (camera_at 1000 w_a_rgb)
              platform_a 5200 buffer_80x60_rgb false w_a_rgb
              ltac:(discriminate) ltac:(discriminate)
              ltac:(vm_compute; reflexivity) ltac:(vm_compute; reflexivity)
              ltac:(vm_compute; reflexivity) ltac:(discriminate)
              ltac:(vm_compute; reflexivity) ltac:(vm_compute; reflexivity)
              ltac:(vm_compute; reflexivity))
    as [(w' & Hrun & Hcam & _) Hhang].
  split; [exists w'; split; [exact Hrun | exact Hcam] | exact Hhang].
Defined.

(** X4 at work: [camera_term] on context A hands
    back its channels 0, 1 and 2. *)
Lemma camera_term_effect_witness :
  exists w',
    camera_term 1000 w_a_ready = Ok tt w'
    /\ w_dma_claimed w' = w_dma_claimed w_a_ready ∖ released_channels [0; 1; 2]
    /\ w_irq_ctxs w' = arr_set (w_irq_ctxs w_a_ready) 0 NULL.
Proof.
  destruct (camera_term_effect 1000 (camera_at 1000 w_a_ready) platform_a 0 1 2
              w_a_ready ltac:(discriminate)
              ltac:(vm_compute; reflexivity) ltac:(vm_compute; reflexivity)
              ltac:(vm_compute; reflexivity))
    as (w' & Hrun & Hclaimed & _ & Hirq & _).
  exists w'. repeat split; [exact Hrun | exact Hclaimed | exact Hirq].
Defined.

(** X6 at work: the three planes of a YUV422 frame of 80 x 60 take 9600
    bytes. *)
Lemma format_frame_bytes_witness :
  foldr Z.add 0
    (map (fun plane => format_plane_size FORMAT_YUV422 plane 80 60)
         (seqZ 0 (format_num_planes FORMAT_YUV422)))
  = 2 * 80 * 60.
Proof.
  apply (format_frame_bytes FORMAT_YUV422 80 60).
  - right; right; reflexivity.
  - vm_compute; split; [discriminate | reflexivity].
  - vm_compute; split; [discriminate | reflexivity].
  - reflexivity.
  - reflexivity.
Defined.

(** X7 at work: a chroma plane of YUV422 at 80 x 60 is moved in 2400
    transfers of one byte, read at offset 3 of the FIFO word. *)
Lemma camera_dma_transfer_exact_witness :
  Z.quot (format_plane_size FORMAT_YUV422 1 80 60) 1 * 1
    = format_plane_size FORMAT_YUV422 1 80 60
  /\ to_u32 (4 - 1) + 1 = 4
  /\ Z.quot 80 2 * 2 = 80.
Proof.
  apply (camera_dma_transfer_exact FORMAT_YUV422 1 80 60).
  - right; right; reflexivity.
  - vm_compute; split; [discriminate | reflexivity].
  - vm_compute; split; [discriminate | reflexivity].
  - vm_compute; split; [discriminate | reflexivity].
  - reflexivity.
  - reflexivity.
Defined.

(** X8 at work: a YUV422 buffer of 80 x 60 allocated at boot and freed
    again leaves the heap empty and the three static buffers in place. *)
Lemma camera_buffer_free_undoes_alloc_witness :
  exists buf w1 w2,
    camera_buffer_alloc FORMAT_YUV422 80 60 w_boot = Ok buf w1
    /\ camera_buffer_free buf w1 = Ok tt w2
    /\ w_heap w2 = w_heap w_boot
    /\ w_bufs w2 = w_bufs w_boot.
Proof.
  destruct (camera_buffer_free_undoes_alloc FORMAT_YUV422 80 60 w_boot
              w_boot_heap_wf ltac:(reflexivity))
    as [(buf & w1 & Halloc & _ & w2 & Hfree & Hheap & Hbufs & _) _].
  exists buf, w1, w2. repeat split; assumption.
Defined.

(** X12 at work: context A, configured for RGB565, captures into the
    RGB565 buffer of 80 x 60 with callback 7 and user data 9. *)
Lemma camera_capture_with_cb_cycle_witness :
  exists w1 w2,
    camera_capture_with_cb 1000 5200 false 7 9 w_a_rgb = Ok 0 w1
    /\ camera_capture_with_cb 1000 5000 true 7 9 w1 = Ok (-2) w1
    /\ camera_isr pio0 w1 = Ok tt w2
    /\ w_cams w2 !! 1000 = Some (set_cam_pending NULL 7 9 (camera_at 1000 w_a_rgb)).
Proof.
  destruct (camera_capture_with_cb_cycle 1000 (camera_at 1000 w_a_rgb) platform_a
              5200 buffer_80x60_rgb 7 9 false w_a_rgb
              ltac:(discriminate) ltac:(discriminate) ltac:(discriminate)
              ltac:(vm_compute; reflexivity) ltac:(vm_compute; reflexivity)
              ltac:(vm_compute; reflexivity) ltac:(discriminate)
              ltac:(vm_compute; reflexivity) ltac:(vm_compute; reflexivity)
              ltac:(vm_compute; reflexivity))
    as (w1 & w2 & Hrun & Hbusy & Hisr & _ & Hcam & _).
  exists w1, w2. repeat split; [exact Hrun | apply Hbusy | exact Hisr | exact Hcam].
Defined.


(** X27 at work: the hardware calls of [camera_pio_configure] on context A
    holding the RGB565 configuration. *)
Lemma camera_pio_configure_effect_witness :
  exists w',
    camera_pio_configure 1000 w_a_rgb = Ok tt w'
    /\ w_trace w' =
       [EvPioSetSmMaskEnabled pio0 15 false;
        EvPioRestartSmMask pio0 15;
        EvPioSmClearFifos pio0 0;
        EvPioSmClearFifos pio0 1;
        EvPioSmClearFifos pio0 2;
        EvPioSmClearFifos pio0 3;
        EvCameraPioPatchPixelLoop pio0 4 (Some pixel_loop_yuyv_program);
        EvPioSmInit pio0 1 0 [1; 0; 0; 32];
        EvPioSmSetEnabled pio0 1 true;
        EvPioSmInit pio0 0 4 [0; 4; 0];
        EvPioSmSetEnabled pio0 0 true].
Proof.
  pose proof (camera_pio_configure_effect 1000 camera_a platform_a FORMAT_RGB565
                80 60 w_a_rgb (or_intror (or_introl eq_refl))
                ltac:(repeat split; vm_compute; reflexivity)
                ltac:(reflexivity) ltac:(vm_compute; reflexivity))
    as Hrun.
  cbv zeta in Hrun.
  eexists. split; [exact Hrun|]. vm_compute. reflexivity.
Defined.

(** X14 at work: the YUV table, three entries with its marker. *)
Lemma OV7670_write_list_overruns_witness :
  Ov7670.OV7670_write_list platform_a Ov7670.OV7670_yuv port_quiet =
  Ov7670.OutOfBounds
    {| Ov7670.port_answer := Ov7670.port_answer port_quiet;
       Ov7670.port_log :=
         Ov7670.port_log port_quiet
         ++ Ov7670.command_writes platform_a Ov7670.OV7670_yuv |}.
Proof.
  apply (OV7670_write_list_overruns platform_a Ov7670.OV7670_yuv port_quiet).
  repeat constructor; vm_compute; intuition discriminate.
Defined.

(** X17 at work: the window of the 80 x 60 row of the size table. *)
Lemma OV7670_frame_control_window_witness :
  exists p' hs href vs vref,
    Ov7670.OV7670_frame_control platform_a OV7670_SIZE_DIV8 12 210 0 2 port_quiet
    = Ov7670.Done tt p'
    /\ Ov7670.last_write Ov7670.OV7670_REG_HSTART (Ov7670.port_log p') = Some hs
    /\ Ov7670.last_write Ov7670.OV7670_REG_HREF (Ov7670.port_log p') = Some href
    /\ Ov7670.last_write Ov7670.OV7670_REG_VSTART (Ov7670.port_log p') = Some vs
    /\ Ov7670.last_write Ov7670.OV7670_REG_VREF (Ov7670.port_log p') = Some vref
    /\ 8 * hs + href mod 8 = 210
    /\ 4 * vs + vref mod 4 = 12.
Proof.
  destruct (OV7670_frame_control_window platform_a OV7670_SIZE_DIV8 12 210 0 2
              port_quiet ltac:(lia) ltac:(lia) ltac:(lia))
    as (p' & hs & he & href & vs & ve & vref & Hrun & L1 & _ & L3 & L4 & _ & L6
        & E1 & _ & _ & E4 & _).
  exists p', hs, href, vs, vref. repeat split; assumption.
Defined.

(** X21 at work: the colour-bar pattern. *)
Lemma OV7670_test_pattern_bits_witness :
  exists p' x' y',
    Ov7670.OV7670_test_pattern platform_a 2 port_quiet = Ov7670.Done tt p'
    /\ Ov7670.last_write Ov7670.OV7670_REG_SCALING_XSC (Ov7670.port_log p') = Some x'
    /\ Ov7670.last_write Ov7670.OV7670_REG_SCALING_YSC (Ov7670.port_log p') = Some y'
    /\ Z.testbit x' 7 = false
    /\ Z.testbit y' 7 = true.
Proof.
  destruct (OV7670_test_pattern_bits platform_a 2 port_quiet ltac:(lia))
    as (p' & x' & y' & Hrun & Lx & Ly & Bx & By & _).
  exists p', x', y'. repeat split; assumption.
Defined.

(** X22 at work: the first two of four pixels are converted. *)
Lemma OV7670_Y2RGB565_grey_witness :
  exists out,
    Ov7670.OV7670_Y2RGB565 four_pixels 2 = Some out
    /\ length out = 4%nat
    /\ drop 2 out = [0x8000; 0x7F7F].
Proof.
  destruct (OV7670_Y2RGB565_grey four_pixels 2
              ltac:(repeat constructor; lia)) as [Hrun _].
  destruct (Hrun ltac:(vm_compute; lia)) as (out & Hout & Hlen & Hdrop & _).
  exists out. repeat split; assumption.
Defined.

(** X23 at work: of an image of 33 x 32 pixels two pixels are sent. *)
Lemma lcd_show_image_pixels_witness :
  Lcd.lcd_show_image lcd_ready 33 32 four_pixels []
  = Lcd.Shown tt
      ([] ++ Lcd.window_ops
               {| Lcd.cs := 17; Lcd.dc := 16; Lcd.rst := 20; Lcd.led := 22 |}
               {| Lcd.spi_handle := 0; Lcd.base_dma_channel := -1 |}
               30 ((33 - 1) mod 256) 30 ((32 - 1) mod 256)
          ++ flat_map
               (Lcd.pixel_ops
                  {| Lcd.cs := 17; Lcd.dc := 16; Lcd.rst := 20; Lcd.led := 22 |}
                  {| Lcd.spi_handle := 0; Lcd.base_dma_channel := -1 |})
               (take (Z.to_nat ((33 - 31) * (32 - 31))) four_pixels)).
Proof.
  apply (lcd_show_image_pixels lcd_ready _ _ 33 32 four_pixels []
           eq_refl eq_refl ltac:(lia) ltac:(lia) ltac:(lia) ltac:(cbn; lia)).
Defined.

(** X24 at work: an image of 20 x 100 pixels. *)
Lemma lcd_show_image_overrun_witness :
  exists log, Lcd.lcd_show_image lcd_ready 20 100 four_pixels [] = Lcd.Undefined log.
Proof.
  eexists.
  apply (lcd_show_image_overrun lcd_ready _ _ 20 100 four_pixels []
           eq_refl eq_refl ltac:(lia) ltac:(lia) ltac:(vm_compute; reflexivity)
           ltac:(cbn; lia)).
Defined.

(** X25 at work on the initialised display. *)
Lemma lcd_fill_screen_pixels_witness :
  exists log, Lcd.lcd_fill_screen lcd_ready 0xF800 [] = Lcd.Shown tt log.
Proof.
  eexists.
  apply (lcd_fill_screen_pixels lcd_ready _ _ 0xF800 [] eq_refl eq_refl).
Defined.
